(** * tradesyncer: the copier engine, its adapters and its persistence contract

    A shallow embedding of the backend of the trade copier:
    - the relational schema of [prisma/migrations] with the referential
      actions of its foreign keys and its unique indices;
    - [TradeCopierEngine] (risk gate, scaling, fan-out to the followers);
    - [BaseHttpAdapter] and the authentication probe of [RithmicAdapter];
    - [AccountsService.connect].

    Asynchronous methods are functions in a state-and-exception monad over
    the process state: a rejected promise is [Err] with the message of the
    JavaScript error, and the state reached before the throw is kept (there
    is no transaction around the engine's writes).  The amounts the
    risk gate adds and compares (realised P&L, the daily loss limit) are IEEE
    754 doubles, as in JavaScript and in the [DOUBLE PRECISION] columns; the
    scaling factors are exact rationals ([Q]), so the rounding of the scaled
    size is left out; integer columns are [Z]; timestamps are milliseconds
    since the epoch. *)

From Stdlib Require Import ZArith QArith Qround Qabs Floats.
From stdpp Require Import base option list strings pretty gmap.

Local Open Scope string_scope.
Local Open Scope list_scope.
Local Open Scope Z_scope.

(** ** Results and the state-and-exception monad *)

Inductive Result (A : Type) : Type :=
  | Ok (a : A)
  | Err (message : string).
Arguments Ok {A} a.
Arguments Err {A} message.

Definition M (S A : Type) : Type := S → Result A * S.

Global Instance M_ret {S} : MRet (M S) := λ A a s, (Ok a, s).
Global Instance M_bind {S} : MBind (M S) := λ A B f m s,
  match m s with
  | (Ok a, s') => f a s'
  | (Err e, s') => (Err e, s')
  end.

Definition throw {S A} (message : string) : M S A := λ s, (Err message, s).
Definition gets {S A} (f : S → A) : M S A := λ s, (Ok (f s), s).
Definition modify {S} (f : S → S) : M S unit := λ s, (Ok tt, f s).
Definition liftResult {S A} (r : Result A) : M S A := λ s, (r, s).

(** [try { body } catch (error) { handler(error.message) }] *)
Definition tryCatch {S A} (body : M S A) (handler : string → M S A) : M S A :=
  λ s, match body s with
       | (Ok a, s') => (Ok a, s')
       | (Err e, s') => handler e s'
       end.

(** ** JavaScript truthiness of the values the code tests with [||], [&&], [if] *)

Definition truthyZ (x : option Z) : bool :=
  match x with Some z => negb (z =? 0) | None => false end.
Definition truthyQ (x : option Q) : bool :=
  match x with Some q => negb (Qeq_bool q 0) | None => false end.
Definition truthyS (x : option string) : bool :=
  match x with Some s => negb (String.eqb s "") | None => false end.

(** A JavaScript number is falsy when it is [0], [-0] or [NaN]. *)
Definition truthyF (x : option float) : bool :=
  match x with Some f => negb (is_zero f || is_nan f) | None => false end.

(** [x || d] *)
Definition orF (x : option float) (d : float) : float := if truthyF x then default d x else d.
Definition orZ (x : option Z) (d : Z) : Z := if truthyZ x then default d x else d.
Definition orQ (x : option Q) (d : Q) : Q := if truthyQ x then default d x else d.
Definition orS (x : option string) (d : string) : string :=
  if truthyS x then default d x else d.

(** An integer as a JavaScript number: the nearest double. *)
Definition numberOfZ (z : Z) : float := SF2Prim (binary_normalize prec emax z 0 false).

(** ** Enumerations of the schema *)

Inductive TradingFirm := TOPSTEPX | ALPHA_FUTURES | MYFUNDED_FUTURES | TAKEPROFIT_TRADER | TRADEFY.
Inductive Platform := RITHMIC | TRADOVATE | NINJATRADER | PROJECTX | OTHER.
Inductive CopierStatus := ACTIVE | PAUSED | STOPPED | ERROR.
Inductive TradeType := MARKET | LIMIT | STOP.
Inductive TradeSide := BUY | SELL.
Inductive TradeStatus := PENDING | FILLED | PARTIALLY_FILLED | CANCELLED | REJECTED.
Inductive RiskScalingType := FIXED | PERCENTAGE | BALANCE_BASED.

Global Instance CopierStatus_eq_dec : EqDecision CopierStatus.
Proof. solve_decision. Defined.
Global Instance TradeStatus_eq_dec : EqDecision TradeStatus.
Proof. solve_decision. Defined.
Global Instance RiskScalingType_eq_dec : EqDecision RiskScalingType.
Proof. solve_decision. Defined.

Definition showFirm (f : TradingFirm) : string :=
  match f with
  | TOPSTEPX => "TOPSTEPX" | ALPHA_FUTURES => "ALPHA_FUTURES"
  | MYFUNDED_FUTURES => "MYFUNDED_FUTURES" | TAKEPROFIT_TRADER => "TAKEPROFIT_TRADER"
  | TRADEFY => "TRADEFY"
  end.
Definition showPlatform (p : Platform) : string :=
  match p with
  | RITHMIC => "RITHMIC" | TRADOVATE => "TRADOVATE" | NINJATRADER => "NINJATRADER"
  | PROJECTX => "PROJECTX" | OTHER => "OTHER"
  end.

(** ** Adapter interface types ([trading-adapter.interface.ts]) *)

Record AdditionalConfig := { environment : option string }.

Record ConnectionConfig := {
  cc_email : option string;
  cc_password : option string;
  cc_apiKey : option string;
  cc_apiSecret : option string;
  cc_accountNumber : string;
  cc_config : option AdditionalConfig;
}.

Record TradeOrder := {
  o_symbol : string;
  o_side : TradeSide;
  o_type : TradeType;
  o_quantity : Z;
  o_price : option Q;
  o_stopLoss : option Q;
  o_takeProfit : option Q;
}.

Record TradeExecution := {
  e_orderId : string;
  e_tradeId : string;
  e_symbol : string;
  e_side : TradeSide;
  e_quantity : Z;
  e_price : Q;
  e_executedAt : option Z;
  e_status : string;
}.

Record AccountInfo := {
  ai_accountId : string;
  ai_balance : Q;
  ai_equity : Q;
  ai_marginUsed : Q;
}.

(** ** Rows of the schema ([migration.sql]) *)

Record TradingAccount := {
  a_id : string;
  a_userId : string;
  a_name : string;
  a_firm : TradingFirm;
  a_platform : Platform;
  a_accountNumber : string;
  a_accountSize : Q;
  a_currentBalance : Q;
  a_email : option string;
  a_password : option string;
  a_apiKey : option string;
  a_apiSecret : option string;
  a_additionalConfig : option AdditionalConfig;
  a_maxDrawdown : option Q;
  a_dailyLossLimit : option Q;
  a_isConnected : bool;
  a_lastSyncAt : option Z;
  a_errorMessage : option string;
}.

Record Copier := {
  c_id : string;
  c_userId : string;
  c_name : string;
  c_masterAccountId : string;
  c_status : CopierStatus;
  c_latencyToleranceMs : Z;
  c_copyEntries : bool;
  c_copyExits : bool;
  c_copyModifications : bool;
}.

Record CopierAccountConfig := {
  cfg_id : string;
  cfg_copierId : string;
  cfg_slaveAccountId : string;
  cfg_scalingType : RiskScalingType;
  cfg_fixedContracts : option Z;
  cfg_percentageScale : option Q;
  cfg_maxContracts : option Z;
  cfg_dailyLossLimit : option float;
  cfg_autoDisable : bool;
  cfg_isActive : bool;
  cfg_disabledReason : option string;
}.

Record Trade := {
  t_id : string;
  t_copierId : option string;
  t_accountId : string;
  t_symbol : string;
  t_side : TradeSide;
  t_type : TradeType;
  t_quantity : Z;
  t_entryPrice : option Q;
  t_stopLoss : option Q;
  t_takeProfit : option Q;
  t_status : TradeStatus;
  t_openedAt : option Z;
  t_filledAt : option Z;
  t_realizedPnL : option float;
  t_externalOrderId : option string;
  t_externalTradeId : option string;
  t_createdAt : Z;
}.

Record TradeMapping := {
  tm_id : string;
  tm_copierId : string;
  tm_masterTradeId : string;
  tm_slaveTradeId : string;
  tm_slaveAccountId : string;
  tm_status : string;
  tm_syncedAt : option Z;
  tm_errorMessage : option string;
}.

Record ExecutionLog := {
  l_id : string;
  l_copierId : string;
  l_level : string;
  l_message : string;
  l_details : option string;
  l_masterTradeId : option string;
  l_slaveTradeId : option string;
  l_slaveAccountId : option string;
  l_createdAt : Z;
}.

Record Transaction := {
  tx_id : string;
  tx_userId : string;
  tx_tradingAccountId : option string;
}.

(** ** Scaling ([TradeCopierEngine.calculateScaledQuantity]) *)

Definition calculateScaledQuantity
    (masterQuantity : Z) (slaveConfig : CopierAccountConfig) (slaveAccount : TradingAccount) : Z :=
  match cfg_scalingType slaveConfig with
  | FIXED => orZ (cfg_fixedContracts slaveConfig) masterQuantity
  | PERCENTAGE =>
      let percentage := orQ (cfg_percentageScale slaveConfig) 1 in
      Qfloor (inject_Z masterQuantity * percentage)
  | BALANCE_BASED =>
      let balanceRatio := (a_currentBalance slaveAccount / 50000)%Q in
      Qfloor (inject_Z masterQuantity * balanceRatio)
  end.

(** ** The database *)

Record DB := {
  tradingAccounts : list TradingAccount;
  copiers : list Copier;
  copierAccountConfigs : list CopierAccountConfig;
  trades : list Trade;
  tradeMappings : list TradeMapping;
  executionLogs : list ExecutionLog;
  transactions : list Transaction;
  nextId : nat;
}.

(** Primary keys are generated by [cuid()]; the model draws them from a counter. *)
Definition cuid (n : nat) : string := "c" +:+ pretty n.

Definition set_tradingAccounts (f : list TradingAccount → list TradingAccount) (d : DB) : DB :=
  {| tradingAccounts := f (tradingAccounts d); copiers := copiers d;
     copierAccountConfigs := copierAccountConfigs d; trades := trades d;
     tradeMappings := tradeMappings d; executionLogs := executionLogs d;
     transactions := transactions d; nextId := nextId d |}.
Definition set_copiers (f : list Copier → list Copier) (d : DB) : DB :=
  {| tradingAccounts := tradingAccounts d; copiers := f (copiers d);
     copierAccountConfigs := copierAccountConfigs d; trades := trades d;
     tradeMappings := tradeMappings d; executionLogs := executionLogs d;
     transactions := transactions d; nextId := nextId d |}.
Definition set_copierAccountConfigs
    (f : list CopierAccountConfig → list CopierAccountConfig) (d : DB) : DB :=
  {| tradingAccounts := tradingAccounts d; copiers := copiers d;
     copierAccountConfigs := f (copierAccountConfigs d); trades := trades d;
     tradeMappings := tradeMappings d; executionLogs := executionLogs d;
     transactions := transactions d; nextId := nextId d |}.
Definition set_trades (f : list Trade → list Trade) (d : DB) : DB :=
  {| tradingAccounts := tradingAccounts d; copiers := copiers d;
     copierAccountConfigs := copierAccountConfigs d; trades := f (trades d);
     tradeMappings := tradeMappings d; executionLogs := executionLogs d;
     transactions := transactions d; nextId := nextId d |}.
Definition set_tradeMappings (f : list TradeMapping → list TradeMapping) (d : DB) : DB :=
  {| tradingAccounts := tradingAccounts d; copiers := copiers d;
     copierAccountConfigs := copierAccountConfigs d; trades := trades d;
     tradeMappings := f (tradeMappings d); executionLogs := executionLogs d;
     transactions := transactions d; nextId := nextId d |}.
Definition set_executionLogs (f : list ExecutionLog → list ExecutionLog) (d : DB) : DB :=
  {| tradingAccounts := tradingAccounts d; copiers := copiers d;
     copierAccountConfigs := copierAccountConfigs d; trades := trades d;
     tradeMappings := tradeMappings d; executionLogs := f (executionLogs d);
     transactions := transactions d; nextId := nextId d |}.
Definition set_transactions (f : list Transaction → list Transaction) (d : DB) : DB :=
  {| tradingAccounts := tradingAccounts d; copiers := copiers d;
     copierAccountConfigs := copierAccountConfigs d; trades := trades d;
     tradeMappings := tradeMappings d; executionLogs := executionLogs d;
     transactions := f (transactions d); nextId := nextId d |}.
Definition bump_nextId (d : DB) : DB :=
  {| tradingAccounts := tradingAccounts d; copiers := copiers d;
     copierAccountConfigs := copierAccountConfigs d; trades := trades d;
     tradeMappings := tradeMappings d; executionLogs := executionLogs d;
     transactions := transactions d; nextId := S (nextId d) |}.

(** *** Lookups by primary key *)

Definition findAccount (d : DB) (id : string) : option TradingAccount :=
  List.find (λ a, String.eqb (a_id a) id) (tradingAccounts d).
Definition findCopier (d : DB) (id : string) : option Copier :=
  List.find (λ c, String.eqb (c_id c) id) (copiers d).
Definition findConfig (d : DB) (id : string) : option CopierAccountConfig :=
  List.find (λ c, String.eqb (cfg_id c) id) (copierAccountConfigs d).

(** *** Inserts, with the constraints of the migration

    [Trade_copierId_fkey] and [Trade_accountId_fkey] must resolve;
    [TradeMapping_copierId_fkey] and [ExecutionLog_copierId_fkey] must resolve;
    [TradeMapping_masterTradeId_slaveAccountId_key] is a unique index.
    [Trade.externalTradeId] carries no index at all. *)

Definition P2002 : string := "Unique constraint failed on the fields: (`masterTradeId`,`slaveAccountId`)".
Definition P2003 (constraint : string) : string :=
  "Foreign key constraint failed on the field: " +:+ constraint.
Definition P2025 : string := "Record to update not found.".

Definition copierRefOk (d : DB) (ref : option string) : bool :=
  match ref with None => true | Some c => bool_decide (is_Some (findCopier d c)) end.

Definition trade_create (data : string → Trade) (d : DB) : Result Trade * DB :=
  let row := data (cuid (nextId d)) in
  if negb (copierRefOk d (t_copierId row)) then (Err (P2003 "Trade_copierId_fkey"), d)
  else if negb (bool_decide (is_Some (findAccount d (t_accountId row))))
  then (Err (P2003 "Trade_accountId_fkey"), d)
  else (Ok row, bump_nextId (set_trades (λ ts, ts ++ [row]) d)).

Definition sameMappingKey (masterTradeId slaveAccountId : string) (m : TradeMapping) : bool :=
  String.eqb (tm_masterTradeId m) masterTradeId && String.eqb (tm_slaveAccountId m) slaveAccountId.

Definition tradeMapping_create (data : string → TradeMapping) (d : DB) : Result TradeMapping * DB :=
  let row := data (cuid (nextId d)) in
  if negb (bool_decide (is_Some (findCopier d (tm_copierId row))))
  then (Err (P2003 "TradeMapping_copierId_fkey"), d)
  else if existsb (sameMappingKey (tm_masterTradeId row) (tm_slaveAccountId row)) (tradeMappings d)
  then (Err P2002, d)
  else (Ok row, bump_nextId (set_tradeMappings (λ ms, ms ++ [row]) d)).

Definition executionLog_create (data : string → ExecutionLog) (d : DB) : Result ExecutionLog * DB :=
  let row := data (cuid (nextId d)) in
  if negb (bool_decide (is_Some (findCopier d (l_copierId row))))
  then (Err (P2003 "ExecutionLog_copierId_fkey"), d)
  else (Ok row, bump_nextId (set_executionLogs (λ ls, ls ++ [row]) d)).

(** [prisma.copierAccountConfig.update({ where: { id }, data })] *)
Definition copierAccountConfig_update
    (id : string) (data : CopierAccountConfig → CopierAccountConfig) (d : DB)
    : Result CopierAccountConfig * DB :=
  match findConfig d id with
  | None => (Err P2025, d)
  | Some c =>
      (Ok (data c),
       set_copierAccountConfigs
         (map (λ x, if String.eqb (cfg_id x) id then data x else x)) d)
  end.

(** [prisma.tradingAccount.update({ where: { id }, data })] *)
Definition tradingAccount_update
    (id : string) (data : TradingAccount → TradingAccount) (d : DB)
    : Result TradingAccount * DB :=
  match findAccount d id with
  | None => (Err P2025, d)
  | Some a =>
      (Ok (data a),
       set_tradingAccounts (map (λ x, if String.eqb (a_id x) id then data x else x)) d)
  end.

(** *** Deletes, with the referential actions of the migration

    Referencing [Copier(id)]:
    [CopierAccountConfig_copierId_fkey] CASCADE, [Trade_copierId_fkey] SET NULL,
    [TradeMapping_copierId_fkey] CASCADE, [ExecutionLog_copierId_fkey] CASCADE.
    Referencing [TradingAccount(id)]:
    [Copier_masterAccountId_fkey] RESTRICT, [CopierAccountConfig_slaveAccountId_fkey] CASCADE,
    [Trade_accountId_fkey] RESTRICT, [Transaction_tradingAccountId_fkey] SET NULL. *)

Definition trade_set_copierId (v : option string) (t : Trade) : Trade :=
  {| t_id := t_id t; t_copierId := v; t_accountId := t_accountId t; t_symbol := t_symbol t;
     t_side := t_side t; t_type := t_type t; t_quantity := t_quantity t;
     t_entryPrice := t_entryPrice t; t_stopLoss := t_stopLoss t;
     t_takeProfit := t_takeProfit t; t_status := t_status t; t_openedAt := t_openedAt t;
     t_filledAt := t_filledAt t; t_realizedPnL := t_realizedPnL t;
     t_externalOrderId := t_externalOrderId t; t_externalTradeId := t_externalTradeId t;
     t_createdAt := t_createdAt t |}.

Definition transaction_set_tradingAccountId (v : option string) (t : Transaction) : Transaction :=
  {| tx_id := tx_id t; tx_userId := tx_userId t; tx_tradingAccountId := v |}.

Definition refersTo (ref : option string) (id : string) : bool :=
  match ref with Some r => String.eqb r id | None => false end.

Definition P2025_delete : string := "Record to delete does not exist.".

(** [prisma.copier.delete({ where: { id } })] *)
Definition copier_delete (id : string) (d : DB) : Result Copier * DB :=
  match findCopier d id with
  | None => (Err P2025_delete, d)
  | Some c =>
      (Ok c,
       set_copiers (List.filter (λ x, negb (String.eqb (c_id x) id)))
       (set_copierAccountConfigs (List.filter (λ x, negb (String.eqb (cfg_copierId x) id)))
       (set_trades (map (λ t, if refersTo (t_copierId t) id then trade_set_copierId None t else t))
       (set_tradeMappings (List.filter (λ x, negb (String.eqb (tm_copierId x) id)))
       (set_executionLogs (List.filter (λ x, negb (String.eqb (l_copierId x) id))) d)))))
  end.

(** [prisma.tradingAccount.delete({ where: { id } })] *)
Definition tradingAccount_delete (id : string) (d : DB) : Result TradingAccount * DB :=
  match findAccount d id with
  | None => (Err P2025_delete, d)
  | Some a =>
      if existsb (λ c, String.eqb (c_masterAccountId c) id) (copiers d)
      then (Err (P2003 "Copier_masterAccountId_fkey"), d)
      else if existsb (λ t, String.eqb (t_accountId t) id) (trades d)
      then (Err (P2003 "Trade_accountId_fkey"), d)
      else
        (Ok a,
         set_tradingAccounts (List.filter (λ x, negb (String.eqb (a_id x) id)))
         (set_copierAccountConfigs
            (List.filter (λ x, negb (String.eqb (cfg_slaveAccountId x) id)))
         (set_transactions
            (map (λ t, if refersTo (tx_tradingAccountId t) id
                       then transaction_set_tradingAccountId None t else t)) d)))
  end.

(** ** The adapter contract ([ITradingAdapter]) *)

(** The closures handed to [onTradeUpdate].  The engine subscribes
    [async (execution) => this.handleMasterTrade(copierId, execution)], one per
    running copier; an [async] closure returns a promise and cannot throw into
    the adapter. *)
Inductive Callback :=
  | HandleMasterTrade (copierId : string)
  | Listener (tag : nat).

Global Instance Callback_eq_dec : EqDecision Callback.
Proof. solve_decision. Defined.

Class ITradingAdapter (A : Type) := {
  isConnected : A → bool;
  connect : ConnectionConfig → M A unit;
  disconnect : M A unit;
  placeOrder : TradeOrder → M A TradeExecution;
  onTradeUpdate : Callback → A → A;
  (** the disposer [onTradeUpdate] returns *)
  offTradeUpdate : Callback → A → A;
}.

(** [AdapterFactory.getKey] *)
Definition getKey (platform : Platform) (firm : TradingFirm) : string :=
  showPlatform platform +:+ "_" +:+ showFirm firm.

Inductive AdapterCall :=
  | CallConnect (config : ConnectionConfig)
  | CallDisconnect
  | CallPlaceOrder (order : TradeOrder).

(** [Date.prototype.setHours(0, 0, 0, 0)]: local midnight of the day of [t],
    for a zone [offset] milliseconds east of UTC. *)
Definition msPerDay : Z := 86400000.
Definition startOfLocalDay (t offset : Z) : Z :=
  (t + offset) / msPerDay * msPerDay - offset.

(** ** The copier engine ([TradeCopierEngine]) and the account manager *)

Section Backend.

Context {A : Type} `{!ITradingAdapter A}.

(** [String(n)] for a JavaScript number, as template literals apply it. *)
Variable numberToString : float → string.

(** The process state the engine runs in.  [calls] is a ghost trace of the
    calls made on adapters; [logger] is the output of the Nest [Logger], which
    is not the [ExecutionLog] table. *)
Record World := {
  db : DB;
  adapters : gmap string A;
  logger : list (string * string);
  calls : list (string * AdapterCall);
  clock : Z;
  timezoneOffset : Z;
  activeCopiers : gset string;
  tradeSubscriptions : gmap string (string * Callback);
}.

Definition set_db (f : DB → DB) (w : World) : World :=
  {| db := f (db w); adapters := adapters w; logger := logger w; calls := calls w;
     clock := clock w; timezoneOffset := timezoneOffset w;
     activeCopiers := activeCopiers w; tradeSubscriptions := tradeSubscriptions w |}.
Definition set_adapters (f : gmap string A → gmap string A) (w : World) : World :=
  {| db := db w; adapters := f (adapters w); logger := logger w; calls := calls w;
     clock := clock w; timezoneOffset := timezoneOffset w;
     activeCopiers := activeCopiers w; tradeSubscriptions := tradeSubscriptions w |}.
Definition set_logger (f : list (string * string) → list (string * string)) (w : World) : World :=
  {| db := db w; adapters := adapters w; logger := f (logger w); calls := calls w;
     clock := clock w; timezoneOffset := timezoneOffset w;
     activeCopiers := activeCopiers w; tradeSubscriptions := tradeSubscriptions w |}.
Definition set_calls (f : list (string * AdapterCall) → list (string * AdapterCall)) (w : World)
    : World :=
  {| db := db w; adapters := adapters w; logger := logger w; calls := f (calls w);
     clock := clock w; timezoneOffset := timezoneOffset w;
     activeCopiers := activeCopiers w; tradeSubscriptions := tradeSubscriptions w |}.
Definition set_activeCopiers (f : gset string → gset string) (w : World) : World :=
  {| db := db w; adapters := adapters w; logger := logger w; calls := calls w;
     clock := clock w; timezoneOffset := timezoneOffset w;
     activeCopiers := f (activeCopiers w); tradeSubscriptions := tradeSubscriptions w |}.
Definition set_tradeSubscriptions
    (f : gmap string (string * Callback) → gmap string (string * Callback)) (w : World) : World :=
  {| db := db w; adapters := adapters w; logger := logger w; calls := calls w;
     clock := clock w; timezoneOffset := timezoneOffset w;
     activeCopiers := activeCopiers w; tradeSubscriptions := f (tradeSubscriptions w) |}.

(** A Prisma call: runs on the database component. *)
Definition prisma {X} (op : DB → Result X * DB) : M World X :=
  λ w, let '(r, d) := op (db w) in (r, set_db (λ _, d) w).

(** [this.logger.<level>(message)] *)
Definition log (level message : string) : M World unit :=
  modify (set_logger (λ ls, ls ++ [(level, message)])).

(** [this.adapterFactory.getAdapter(platform, firm)]: the instance, named by its key. *)
Definition getAdapter (platform : Platform) (firm : TradingFirm) : M World string :=
  λ w, let key := getKey platform firm in
       match adapters w !! key with
       | Some _ => (Ok key, w)
       | None =>
           (Err ("No adapter found for platform " +:+ showPlatform platform +:+
                 " and firm " +:+ showFirm firm), w)
       end.

(** A method call on the adapter instance [key]. *)
Definition onAdapter {X} (key : string) (call : AdapterCall) (method : M A X) : M World X :=
  λ w, match adapters w !! key with
       | None => (Err "adapter is undefined", w)
       | Some a =>
           let '(r, a') := method a in
           (r, set_adapters (insert key a') (set_calls (λ cs, cs ++ [(key, call)]) w))
       end.

Definition adapterIsConnected (key : string) : M World bool :=
  λ w, match adapters w !! key with
       | None => (Err "adapter is undefined", w)
       | Some a => (Ok (isConnected a), w)
       end.

(** [copier.slaveConfigs] with [include: { slaveAccount: true }] *)
Record SlaveConfig := {
  config : CopierAccountConfig;
  slaveAccount : TradingAccount;
}.

Definition includeSlaveAccount (d : DB) (c : CopierAccountConfig) : option SlaveConfig :=
  a ← findAccount d (cfg_slaveAccountId c);
  Some {| config := c; slaveAccount := a |}.

(** [mapTradeStatus] *)
Definition mapTradeStatus (status : string) : TradeStatus :=
  if String.eqb status "filled" then FILLED
  else if String.eqb status "partially_filled" then PARTIALLY_FILLED
  else if String.eqb status "pending" then PENDING
  else if String.eqb status "cancelled" then CANCELLED
  else if String.eqb status "rejected" then REJECTED
  else PENDING.

(** *** The risk gate ([checkRiskRules]) *)

Record RiskCheck := { allowed : bool; reason : option string }.

Definition cfg_disable (why : string) (c : CopierAccountConfig) : CopierAccountConfig :=
  {| cfg_id := cfg_id c; cfg_copierId := cfg_copierId c;
     cfg_slaveAccountId := cfg_slaveAccountId c; cfg_scalingType := cfg_scalingType c;
     cfg_fixedContracts := cfg_fixedContracts c; cfg_percentageScale := cfg_percentageScale c;
     cfg_maxContracts := cfg_maxContracts c; cfg_dailyLossLimit := cfg_dailyLossLimit c;
     cfg_autoDisable := cfg_autoDisable c; cfg_isActive := false;
     cfg_disabledReason := Some why |}.

(** The [where] clause of the [findMany] in [checkRiskRules]. *)
Definition isTodayTrade (copierId slaveAccountId : string) (today : Z) (t : Trade) : bool :=
  refersTo (t_copierId t) copierId
  && String.eqb (t_accountId t) slaveAccountId
  && (today <=? t_createdAt t)
  && bool_decide (t_status t = FILLED).

Definition todayTrades (copierId : string) (slaveConfig : CopierAccountConfig) (w : World)
    : list Trade :=
  let today := startOfLocalDay (clock w) (timezoneOffset w) in
  List.filter (isTodayTrade copierId (cfg_slaveAccountId slaveConfig) today) (trades (db w)).

(** [todayTrades.reduce((sum, trade) => sum + (trade.realizedPnL || 0), 0)]:
    a left fold of double additions over the rows, taken in the order of the
    table (the [findMany] has no [orderBy]). *)
Definition dailyLossOf (ts : list Trade) : float :=
  fold_left (λ sum trade, (sum + orF (t_realizedPnL trade) 0)%float) ts 0%float.

Definition dailyLossMessage (dailyLoss : float) : string :=
  "Daily loss limit exceeded: " +:+ numberToString dailyLoss.

Definition checkRiskRules (copierId : string) (slaveConfig : CopierAccountConfig)
    : M World RiskCheck :=
  if truthyF (cfg_dailyLossLimit slaveConfig) then
    ts ← gets (todayTrades copierId slaveConfig);
    let dailyLoss := dailyLossOf ts in
    if (default 0 (cfg_dailyLossLimit slaveConfig) <=? abs dailyLoss)%float then
      (if cfg_autoDisable slaveConfig
       then prisma (copierAccountConfig_update (cfg_id slaveConfig)
                      (cfg_disable (dailyLossMessage dailyLoss)));; mret tt
       else mret tt);;
      mret {| allowed := false; reason := Some (dailyLossMessage dailyLoss) |}
    else mret {| allowed := true; reason := None |}
  else mret {| allowed := true; reason := None |}.

(** *** One follower ([copyTradeToSlave]) *)

Definition engineConnectionConfig (a : TradingAccount) : ConnectionConfig :=
  {| cc_email := None; cc_password := None;
     cc_apiKey := Some (orS (a_apiKey a) "");
     cc_apiSecret := Some (orS (a_apiSecret a) "");
     cc_accountNumber := a_accountNumber a;
     cc_config := a_additionalConfig a |}.

Definition slaveOrderOf (masterTrade : Trade) (scaledQuantity : Z) : TradeOrder :=
  {| o_symbol := t_symbol masterTrade; o_side := t_side masterTrade; o_type := MARKET;
     o_quantity := scaledQuantity; o_price := None;
     o_stopLoss := t_stopLoss masterTrade; o_takeProfit := t_takeProfit masterTrade |}.

Definition slaveTradeData (copierId : string) (masterTrade : Trade) (slaveAccountId : string)
    (slaveExecution : TradeExecution) (now : Z) (id : string) : Trade :=
  {| t_id := id; t_copierId := Some copierId; t_accountId := slaveAccountId;
     t_symbol := e_symbol slaveExecution; t_side := e_side slaveExecution; t_type := MARKET;
     t_quantity := e_quantity slaveExecution; t_entryPrice := Some (e_price slaveExecution);
     t_stopLoss := t_stopLoss masterTrade; t_takeProfit := t_takeProfit masterTrade;
     t_status := mapTradeStatus (e_status slaveExecution);
     t_openedAt := Some (default now (e_executedAt slaveExecution));
     t_filledAt := Some (default now (e_executedAt slaveExecution));
     t_realizedPnL := Some 0%float;
     t_externalOrderId := Some (e_orderId slaveExecution);
     t_externalTradeId := Some (e_tradeId slaveExecution);
     t_createdAt := now |}.

Definition syncedMapping (copierId masterTradeId slaveTradeId slaveAccountId : string) (now : Z)
    (id : string) : TradeMapping :=
  {| tm_id := id; tm_copierId := copierId; tm_masterTradeId := masterTradeId;
     tm_slaveTradeId := slaveTradeId; tm_slaveAccountId := slaveAccountId;
     tm_status := "synced"; tm_syncedAt := Some now; tm_errorMessage := None |}.

Definition failedMapping (copierId masterTradeId slaveAccountId errorMessage : string)
    (id : string) : TradeMapping :=
  {| tm_id := id; tm_copierId := copierId; tm_masterTradeId := masterTradeId;
     tm_slaveTradeId := ""; tm_slaveAccountId := slaveAccountId;
     tm_status := "failed"; tm_syncedAt := None; tm_errorMessage := Some errorMessage |}.

Definition copiedLog (copierId masterTradeId slaveTradeId slaveAccountId : string) (now : Z)
    (id : string) : ExecutionLog :=
  {| l_id := id; l_copierId := copierId; l_level := "info";
     l_message := "Trade copied to slave account"; l_details := None;
     l_masterTradeId := Some masterTradeId; l_slaveTradeId := Some slaveTradeId;
     l_slaveAccountId := Some slaveAccountId; l_createdAt := now |}.

Definition copyFailedLog (copierId masterTradeId slaveAccountId errorMessage : string) (now : Z)
    (id : string) : ExecutionLog :=
  {| l_id := id; l_copierId := copierId; l_level := "error";
     l_message := "Failed to copy trade to slave: " +:+ errorMessage;
     l_details := Some ("Error: " +:+ errorMessage);
     l_masterTradeId := Some masterTradeId; l_slaveTradeId := None;
     l_slaveAccountId := Some slaveAccountId; l_createdAt := now |}.

(** The [catch (error)] block of [copyTradeToSlave]. *)
Definition copyTradeToSlave_catch (copierId : string) (masterTrade : Trade) (sid : string)
    (errorMessage : string) : M World unit :=
  log "error" ("Error copying trade to slave " +:+ sid +:+ ": " +:+ errorMessage);;
  now ← gets clock;
  prisma (tradeMapping_create (failedMapping copierId (t_id masterTrade) sid errorMessage));;
  prisma (executionLog_create
            (copyFailedLog copierId (t_id masterTrade) sid errorMessage now));;
  mret tt.

(** The statements of [copyTradeToSlave] after [placeOrder] has returned. *)
Definition recordCopy (copierId : string) (masterTrade : Trade) (sid : string)
    (scaledQuantity : Z) (slaveExecution : TradeExecution) : M World unit :=
  now ← gets clock;
  slaveTrade ← prisma (trade_create (slaveTradeData copierId masterTrade sid slaveExecution now));
  prisma (tradeMapping_create
            (syncedMapping copierId (t_id masterTrade) (t_id slaveTrade) sid now));;
  log "log" ("Trade copied: " +:+ t_id masterTrade +:+ " -> " +:+ t_id slaveTrade +:+
             " (" +:+ numberToString (numberOfZ scaledQuantity) +:+ " contracts)");;
  prisma (executionLog_create
            (copiedLog copierId (t_id masterTrade) (t_id slaveTrade) sid now));;
  mret tt.

(** [if (!slaveAdapter.isConnected()) await slaveAdapter.connect({...})] *)
Definition ensureConnected (adapter : string) (account : TradingAccount) : M World unit :=
  connected ← adapterIsConnected adapter;
  if negb connected
  then let cc := engineConnectionConfig account in
       onAdapter adapter (CallConnect cc) (connect cc)
  else mret tt.

Definition copyTradeToSlave (copierId : string) (masterTrade : Trade) (slaveConfig : SlaveConfig)
    : M World unit :=
  let sid := cfg_slaveAccountId (config slaveConfig) in
  tryCatch
    (riskCheck ← checkRiskRules copierId (config slaveConfig);
     if negb (allowed riskCheck) then
       log "warn" ("Risk rule violated for slave " +:+ sid +:+ ": " +:+
                   default "undefined" (reason riskCheck))
     else
       let scaledQuantity :=
         calculateScaledQuantity (t_quantity masterTrade) (config slaveConfig)
                                 (slaveAccount slaveConfig) in
       if scaledQuantity <=? 0 then
         log "warn" ("Scaled quantity is 0 for slave " +:+ sid)
       else
         slaveAdapter ← getAdapter (a_platform (slaveAccount slaveConfig))
                                   (a_firm (slaveAccount slaveConfig));
         ensureConnected slaveAdapter (slaveAccount slaveConfig);;
         let slaveOrder := slaveOrderOf masterTrade scaledQuantity in
         slaveExecution ← onAdapter slaveAdapter (CallPlaceOrder slaveOrder) (placeOrder slaveOrder);
         recordCopy copierId masterTrade sid scaledQuantity slaveExecution)
    (copyTradeToSlave_catch copierId masterTrade sid).

(** *** Fan-out on a master fill ([handleMasterTrade])

    [Promise.allSettled] waits for every promise and never rejects.  The
    follower tasks write rows of different follower accounts; the model runs
    them in the order of [copier.slaveConfigs]. *)

Fixpoint allSettled {S X} (promises : list (M S X)) (s : S) : list (Result X) * S :=
  match promises with
  | [] => ([], s)
  | p :: ps =>
      let '(r, s') := p s in
      let '(rs, s'') := allSettled ps s' in
      (r :: rs, s'')
  end.

(** [slaveConfigs: { where: { isActive: true }, include: { slaveAccount: true } }] *)
Definition activeSlaveConfigs (d : DB) (copierId : string) : list SlaveConfig :=
  omap (includeSlaveAccount d)
       (List.filter (λ c, String.eqb (cfg_copierId c) copierId && cfg_isActive c)
                    (copierAccountConfigs d)).

Definition masterTradeData (copierId : string) (copier : Copier)
    (masterExecution : TradeExecution) (now : Z) (id : string) : Trade :=
  {| t_id := id; t_copierId := Some copierId; t_accountId := c_masterAccountId copier;
     t_symbol := e_symbol masterExecution; t_side := e_side masterExecution; t_type := MARKET;
     t_quantity := e_quantity masterExecution; t_entryPrice := Some (e_price masterExecution);
     t_stopLoss := None; t_takeProfit := None;
     t_status := mapTradeStatus (e_status masterExecution);
     t_openedAt := Some (default now (e_executedAt masterExecution));
     t_filledAt := Some (default now (e_executedAt masterExecution));
     t_realizedPnL := Some 0%float;
     t_externalOrderId := Some (e_orderId masterExecution);
     t_externalTradeId := Some (e_tradeId masterExecution);
     t_createdAt := now |}.

Definition plainLog (copierId level message : string) (details : option string) (now : Z)
    (id : string) : ExecutionLog :=
  {| l_id := id; l_copierId := copierId; l_level := level; l_message := message;
     l_details := details; l_masterTradeId := None; l_slaveTradeId := None;
     l_slaveAccountId := None; l_createdAt := now |}.

Definition fanOut (copierId : string) (masterTrade : Trade) (slaveConfigs : list SlaveConfig)
    : M World (list (Result unit)) :=
  λ w, let '(rs, w') := allSettled (map (copyTradeToSlave copierId masterTrade) slaveConfigs) w in
       (Ok rs, w').

Definition handleMasterTrade (copierId : string) (masterExecution : TradeExecution)
    : M World unit :=
  tryCatch
    (copier ← gets (λ w, findCopier (db w) copierId);
     slaveConfigs ← gets (λ w, activeSlaveConfigs (db w) copierId);
     match copier with
     | None => mret tt
     | Some copier =>
         if negb (bool_decide (c_status copier = ACTIVE)) then mret tt
         else
           now ← gets clock;
           masterTrade ← prisma (trade_create (masterTradeData copierId copier masterExecution now));
           fanOut copierId masterTrade slaveConfigs;;
           mret tt
     end)
    (λ errorMessage,
       log "error" ("Error handling master trade for copier " +:+ copierId +:+ ": " +:+
                    errorMessage);;
       now ← gets clock;
       prisma (executionLog_create
                 (plainLog copierId "error" ("Error handling master trade: " +:+ errorMessage)
                           (Some ("Error: " +:+ errorMessage)) now));;
       mret tt).

(** *** [start] and [stop] *)

Definition start (copierId : string) : M World unit :=
  running ← gets (λ w, bool_decide (copierId ∈ activeCopiers w));
  if (running : bool) then log "warn" ("Copier " +:+ copierId +:+ " is already running")
  else
    copier ← gets (λ w, findCopier (db w) copierId);
    slaveConfigs ← gets (λ w, List.filter (λ c, String.eqb (cfg_copierId c) copierId)
                                          (copierAccountConfigs (db w)));
    match copier, slaveConfigs with
    | None, _ | Some _, [] =>
        throw ("Copier " +:+ copierId +:+ " not found or has no slave accounts")
    | Some copier, _ :: _ =>
        log "log" ("Starting copier " +:+ copierId +:+ " (" +:+ c_name copier +:+ ")");;
        masterAccount ← gets (λ w, findAccount (db w) (c_masterAccountId copier));
        match masterAccount with
        | None => throw "Cannot read properties of null (reading 'platform')"
        | Some masterAccount =>
            masterAdapter ← getAdapter (a_platform masterAccount) (a_firm masterAccount);
            ensureConnected masterAdapter masterAccount;;
            modify (set_adapters (alter (onTradeUpdate (HandleMasterTrade copierId)) masterAdapter));;
            modify (set_tradeSubscriptions
                      (insert copierId (masterAdapter, HandleMasterTrade copierId)));;
            modify (set_activeCopiers (λ s, {[copierId]} ∪ s));;
            now ← gets clock;
            prisma (executionLog_create
                      (plainLog copierId "info" "Copier started successfully" None now));;
            mret tt
        end
    end.

Definition stop (copierId : string) : M World unit :=
  log "log" ("Stopping copier " +:+ copierId);;
  modify (set_activeCopiers (λ s, s ∖ {[copierId]}));;
  unsubscribe ← gets (λ w, tradeSubscriptions w !! copierId);
  match unsubscribe with
  | Some (adapter, callback) =>
      modify (set_adapters (alter (offTradeUpdate callback) adapter));;
      modify (set_tradeSubscriptions (delete copierId))
  | None => mret tt
  end;;
  now ← gets clock;
  prisma (executionLog_create (plainLog copierId "info" "Copier stopped" None now));;
  mret tt.

(** *** The account manager ([AccountsService.findOne], [AccountsService.connect]) *)

Definition findOne (id : string) (userId : option string) : M World TradingAccount :=
  account ← gets (λ w, findAccount (db w) id);
  match account with
  | None => throw ("Trading account with ID " +:+ id +:+ " not found")
  | Some account =>
      if truthyS userId && negb (String.eqb (a_userId account) (default "" userId))
      then throw "Unauthorized"
      else mret account
  end.

(** [x || undefined] *)
Definition orUndefined (x : option string) : option string :=
  if truthyS x then x else None.

Definition accountConnectionConfig (account : TradingAccount) : ConnectionConfig :=
  {| cc_email := orUndefined (a_email account);
     cc_password := orUndefined (a_password account);
     cc_apiKey := orUndefined (a_apiKey account);
     cc_apiSecret := orUndefined (a_apiSecret account);
     cc_accountNumber := a_accountNumber account;
     cc_config := a_additionalConfig account |}.

Definition account_set_connection
    (isConnected : bool) (lastSyncAt : option Z) (errorMessage : option string)
    (a : TradingAccount) : TradingAccount :=
  {| a_id := a_id a; a_userId := a_userId a; a_name := a_name a; a_firm := a_firm a;
     a_platform := a_platform a; a_accountNumber := a_accountNumber a;
     a_accountSize := a_accountSize a; a_currentBalance := a_currentBalance a;
     a_email := a_email a; a_password := a_password a; a_apiKey := a_apiKey a;
     a_apiSecret := a_apiSecret a; a_additionalConfig := a_additionalConfig a;
     a_maxDrawdown := a_maxDrawdown a; a_dailyLossLimit := a_dailyLossLimit a;
     a_isConnected := isConnected; a_lastSyncAt := lastSyncAt;
     a_errorMessage := errorMessage |}.

Definition AccountsService_connect (id userId : string) : M World TradingAccount :=
  account ← findOne id (Some userId);
  adapter ← getAdapter (a_platform account) (a_firm account);
  tryCatch
    (let cc := accountConnectionConfig account in
     onAdapter adapter (CallConnect cc) (connect cc);;
     now ← gets clock;
     prisma (tradingAccount_update id (account_set_connection true (Some now) None)))
    (λ errorMessage,
       prisma (tradingAccount_update id
                 (λ a, account_set_connection false (a_lastSyncAt a) (Some errorMessage) a))).

End Backend.

(** ** [BaseHttpAdapter] *)

(** The abstract methods a concrete adapter supplies: its REST calls, as
    functions of the request. *)
Record HttpPlatform := {
  fetchAccountInfo : ConnectionConfig → Result AccountInfo;
  executePlaceOrder : TradeOrder → Result TradeExecution;
}.

(** [notified] is a ghost trace of the callback invocations
    [callback(execution)] the adapter has made, in order. *)
Record BaseHttpAdapter := {
  platformImpl : HttpPlatform;
  connected : bool;
  bh_config : option ConnectionConfig;
  tradeCallbacks : list Callback;
  positionCallbacks : list Callback;
  pollingInterval : bool;
  lastTradeId : option string;
  notified : list (Callback * TradeExecution);
}.

Definition bh_set_connected (v : bool) (a : BaseHttpAdapter) : BaseHttpAdapter :=
  {| platformImpl := platformImpl a; connected := v; bh_config := bh_config a;
     tradeCallbacks := tradeCallbacks a; positionCallbacks := positionCallbacks a;
     pollingInterval := pollingInterval a; lastTradeId := lastTradeId a;
     notified := notified a |}.
Definition bh_set_config (v : option ConnectionConfig) (a : BaseHttpAdapter) : BaseHttpAdapter :=
  {| platformImpl := platformImpl a; connected := connected a; bh_config := v;
     tradeCallbacks := tradeCallbacks a; positionCallbacks := positionCallbacks a;
     pollingInterval := pollingInterval a; lastTradeId := lastTradeId a;
     notified := notified a |}.
Definition bh_set_tradeCallbacks (f : list Callback → list Callback) (a : BaseHttpAdapter)
    : BaseHttpAdapter :=
  {| platformImpl := platformImpl a; connected := connected a; bh_config := bh_config a;
     tradeCallbacks := f (tradeCallbacks a); positionCallbacks := positionCallbacks a;
     pollingInterval := pollingInterval a; lastTradeId := lastTradeId a;
     notified := notified a |}.
Definition bh_set_positionCallbacks (f : list Callback → list Callback) (a : BaseHttpAdapter)
    : BaseHttpAdapter :=
  {| platformImpl := platformImpl a; connected := connected a; bh_config := bh_config a;
     tradeCallbacks := tradeCallbacks a; positionCallbacks := f (positionCallbacks a);
     pollingInterval := pollingInterval a; lastTradeId := lastTradeId a;
     notified := notified a |}.
Definition bh_set_pollingInterval (v : bool) (a : BaseHttpAdapter) : BaseHttpAdapter :=
  {| platformImpl := platformImpl a; connected := connected a; bh_config := bh_config a;
     tradeCallbacks := tradeCallbacks a; positionCallbacks := positionCallbacks a;
     pollingInterval := v; lastTradeId := lastTradeId a; notified := notified a |}.

(** One invocation [callback(execution)]. *)
Definition invoke (execution : TradeExecution) (a : BaseHttpAdapter) (callback : Callback)
    : BaseHttpAdapter :=
  {| platformImpl := platformImpl a; connected := connected a; bh_config := bh_config a;
     tradeCallbacks := tradeCallbacks a; positionCallbacks := positionCallbacks a;
     pollingInterval := pollingInterval a; lastTradeId := lastTradeId a;
     notified := notified a ++ [(callback, execution)] |}.

(** [this.tradeCallbacks.forEach((callback) => callback(execution))] *)
Definition notifyTradeCallbacks (execution : TradeExecution) (a : BaseHttpAdapter)
    : BaseHttpAdapter :=
  fold_left (invoke execution) (tradeCallbacks a) a.

(** [startTradePolling] / [stopTradePolling]: the interval handle *)
Definition startTradePolling (a : BaseHttpAdapter) : BaseHttpAdapter :=
  if pollingInterval a then a else bh_set_pollingInterval true a.
Definition stopTradePolling (a : BaseHttpAdapter) : BaseHttpAdapter :=
  if pollingInterval a then bh_set_pollingInterval false a else a.

Definition BaseHttpAdapter_connect (config : ConnectionConfig) : M BaseHttpAdapter unit :=
  tryCatch
    (modify (bh_set_config (Some config));;
     impl ← gets platformImpl;
     liftResult (fetchAccountInfo impl config);;
     modify (bh_set_connected true);;
     modify startTradePolling)
    (λ errorMessage,
       modify (bh_set_connected false);;
       throw ("Connection failed: " +:+ errorMessage)).

Definition BaseHttpAdapter_unsubscribe (a : BaseHttpAdapter) : BaseHttpAdapter :=
  bh_set_positionCallbacks (λ _, []) (bh_set_tradeCallbacks (λ _, []) a).

Definition BaseHttpAdapter_disconnect : M BaseHttpAdapter unit :=
  modify stopTradePolling;;
  modify (bh_set_connected false);;
  modify (bh_set_config None);;
  modify BaseHttpAdapter_unsubscribe.

Definition BaseHttpAdapter_isConnected (a : BaseHttpAdapter) : bool := connected a.

Definition BaseHttpAdapter_placeOrder (order : TradeOrder) : M BaseHttpAdapter TradeExecution :=
  isConn ← gets connected;
  if negb isConn then throw "Not connected to trading platform"
  else
    tryCatch
      (impl ← gets platformImpl;
       execution ← liftResult (executePlaceOrder impl order);
       modify (notifyTradeCallbacks execution);;
       mret execution)
      (λ errorMessage, throw errorMessage).

(** [onTradeUpdate(callback)] pushes the callback; the disposer it returns
    removes its first occurrence ([indexOf] then [splice]). *)
Definition BaseHttpAdapter_onTradeUpdate (callback : Callback) (a : BaseHttpAdapter)
    : BaseHttpAdapter :=
  bh_set_tradeCallbacks (λ cbs, cbs ++ [callback]) a.

Fixpoint removeFirst (callback : Callback) (cbs : list Callback) : list Callback :=
  match cbs with
  | [] => []
  | c :: rest => if decide (c = callback) then rest else c :: removeFirst callback rest
  end.

Definition BaseHttpAdapter_offTradeUpdate (callback : Callback) (a : BaseHttpAdapter)
    : BaseHttpAdapter :=
  bh_set_tradeCallbacks (removeFirst callback) a.

Global Instance BaseHttpAdapter_ITradingAdapter : ITradingAdapter BaseHttpAdapter := {|
  isConnected := BaseHttpAdapter_isConnected;
  connect := BaseHttpAdapter_connect;
  disconnect := BaseHttpAdapter_disconnect;
  placeOrder := BaseHttpAdapter_placeOrder;
  onTradeUpdate := BaseHttpAdapter_onTradeUpdate;
  offTradeUpdate := BaseHttpAdapter_offTradeUpdate;
|}.

(** ** The authentication probe ([RithmicAdapter.authenticate]) *)

Module Rithmic.

Inductive AuthPayload :=
  | EmailPassword (email password accountNumber : string) (environment : option string)
  | ApiKeySecret (apiKey apiSecret accountNumber : string) (environment : option string)
  | UsernamePassword (username password : string) (environment : option string).

Inductive CredentialShape := ShapeEmail | ShapeApiKey | ShapeUsername.

Definition shapeOf (p : AuthPayload) : CredentialShape :=
  match p with
  | EmailPassword _ _ _ _ => ShapeEmail
  | ApiKeySecret _ _ _ _ => ShapeApiKey
  | UsernamePassword _ _ _ => ShapeUsername
  end.

Record AuthData := { token : option string; sessionId : option string }.
Record HttpResponse := { status : Z; data : AuthData }.

(** The remote API behind [this.httpClient]: a response, or a transport error. *)
Definition HttpServer := string → AuthPayload → Result HttpResponse.

(** [this.httpClient.post(endpoint, payload, { validateStatus: (status) => status < 500 })] *)
Definition post (server : HttpServer) (endpoint : string) (payload : AuthPayload)
    : Result HttpResponse :=
  match server endpoint payload with
  | Ok response =>
      if status response <? 500 then Ok response
      else Err ("Request failed with status code " +:+ pretty (status response))
  | Err e => Err e
  end.

Definition authEndpoints : list string :=
  [ "/auth/login"; "/api/auth/login"; "/v1/auth/login"; "/login"; "/api/login";
    "/authenticate"; "/api/authenticate" ].

Definition environmentOf (config : ConnectionConfig) : option string :=
  match cc_config config with
  | Some c => if truthyS (environment c) then environment c else None
  | None => None
  end.

Definition Attempt : Type := string * AuthPayload.

(** One [for (const endpoint of authEndpoints)] loop with a fixed payload;
    [withForbiddenCheck] is the [401/403 → continue] branch that only the
    first loop has.  Returns the response data of the first endpoint that
    answers 200 or 201, and the requests sent. *)
Fixpoint tryEndpoints (server : HttpServer) (withForbiddenCheck : bool) (payload : AuthPayload)
    (endpoints : list string) : option AuthData * list Attempt :=
  match endpoints with
  | [] => (None, [])
  | endpoint :: rest =>
      let continue :=
        let '(r, sent) := tryEndpoints server withForbiddenCheck payload rest in
        (r, (endpoint, payload) :: sent) in
      match post server endpoint payload with
      | Ok response =>
          if (status response =? 200) || (status response =? 201)
          then (Some (data response), [(endpoint, payload)])
          else if withForbiddenCheck && ((status response =? 401) || (status response =? 403))
          then continue
          else continue
      | Err _ => continue
      end
  end.

Definition authFailed : string :=
  "Authentication failed: No valid credentials provided or all authentication methods failed".

Definition emailPayload (config : ConnectionConfig) : AuthPayload :=
  EmailPassword (default "" (cc_email config)) (default "" (cc_password config))
                (cc_accountNumber config) (environmentOf config).
Definition apiKeyPayload (config : ConnectionConfig) : AuthPayload :=
  ApiKeySecret (default "" (cc_apiKey config)) (default "" (cc_apiSecret config))
               (cc_accountNumber config) (environmentOf config).
Definition usernamePayload (config : ConnectionConfig) : AuthPayload :=
  UsernamePassword (cc_accountNumber config) (default "" (cc_password config))
                   (environmentOf config).

(** [authenticate]: the result, and the requests sent, in order. *)
Definition authenticate (server : HttpServer) (config : ConnectionConfig)
    : Result AuthData * list Attempt :=
  let '(r1, sent1) :=
    if truthyS (cc_email config) && truthyS (cc_password config)
    then tryEndpoints server true (emailPayload config) authEndpoints
    else (None, []) in
  match r1 with
  | Some d => (Ok d, sent1)
  | None =>
      let '(r2, sent2) :=
        if truthyS (cc_apiKey config) && truthyS (cc_apiSecret config)
        then tryEndpoints server false (apiKeyPayload config) authEndpoints
        else (None, []) in
      match r2 with
      | Some d => (Ok d, sent1 ++ sent2)
      | None =>
          let '(r3, sent3) :=
            if truthyS (cc_password config)
            then tryEndpoints server false (usernamePayload config) authEndpoints
            else (None, []) in
          match r3 with
          | Some d => (Ok d, sent1 ++ sent2 ++ sent3)
          | None => (Err authFailed, sent1 ++ sent2 ++ sent3)
          end
      end
  end.

(** *** The probe order as the specification words it

    Endpoints in the order of the eight-element list, and for each endpoint
    the credential shapes (a), (b), (c); any 2xx answer is accepted. *)

Definition specEndpoints : list string :=
  [ "/auth/login"; "/api/auth/login"; "/v1/auth/login"; "/login"; "/api/login";
    "/authenticate"; "/api/authenticate"; "/oauth/token" ].

Definition shapesOf (config : ConnectionConfig) : list AuthPayload :=
  (if truthyS (cc_email config) && truthyS (cc_password config)
   then [emailPayload config] else [])
  ++ (if truthyS (cc_apiKey config) && truthyS (cc_apiSecret config)
      then [apiKeyPayload config] else [])
  ++ (if truthyS (cc_password config) then [usernamePayload config] else []).

Definition specPlan (config : ConnectionConfig) : list Attempt :=
  endpoint ← specEndpoints; payload ← shapesOf config; [(endpoint, payload)].

Definition accepted2xx (server : HttpServer) (a : Attempt) : bool :=
  match server a.1 a.2 with
  | Ok response => (200 <=? status response) && (status response <? 300)
  | Err _ => false
  end.

Definition authenticate_spec (server : HttpServer) (config : ConnectionConfig)
    : Result AuthData :=
  match List.find (accepted2xx server) (specPlan config) with
  | Some a => match server a.1 a.2 with Ok response => Ok (data response) | Err e => Err e end
  | None => Err authFailed
  end.

(** *** The probe order of the code: shape by shape, seven endpoints each *)

Definition plan (config : ConnectionConfig) : list Attempt :=
  payload ← shapesOf config; endpoint ← authEndpoints; [(endpoint, payload)].

Definition accepted (server : HttpServer) (a : Attempt) : bool :=
  match server a.1 a.2 with
  | Ok response => (status response =? 200) || (status response =? 201)
  | Err _ => false
  end.

(** The requests of one loop of the probe. *)
Definition row (payload : AuthPayload) : list Attempt :=
  map (λ endpoint, (endpoint, payload)) authEndpoints.

Definition answer (server : HttpServer) (a : Attempt) : Result AuthData :=
  match server a.1 a.2 with
  | Ok response => Ok (data response)
  | Err e => Err e
  end.

(** The requests sent when probing [l] in order until one is accepted. *)
Fixpoint upToFirst {X} (f : X → bool) (l : list X) : list X :=
  match l with
  | [] => []
  | x :: rest => if f x then [x] else x :: upToFirst f rest
  end.

End Rithmic.

(** ** Vocabulary of the statements *)

Section Vocabulary.

Context {A : Type}.

(** The condition under which [checkRiskRules] answers [allowed: false]:
    [slaveConfig.dailyLossLimit] is truthy and
    [Math.abs(dailyLoss) >= slaveConfig.dailyLossLimit]. *)
Definition riskExceeded (copierId : string) (slaveConfig : CopierAccountConfig) (w : @World A)
    : bool :=
  truthyF (cfg_dailyLossLimit slaveConfig)
  && (default 0 (cfg_dailyLossLimit slaveConfig)
      <=? abs (dailyLossOf (todayTrades copierId slaveConfig w)))%float.

(** The sum the specification words: realised P&L of the FILLED trades of the
    follower account within the current UTC day, whichever copier made them. *)
Definition isAccountTradeOfUtcDay (slaveAccountId : string) (now : Z) (t : Trade) : bool :=
  String.eqb (t_accountId t) slaveAccountId
  && (startOfLocalDay now 0 <=? t_createdAt t)
  && (t_createdAt t <? startOfLocalDay now 0 + msPerDay)
  && bool_decide (t_status t = FILLED).

Definition accountDailySum (slaveConfig : CopierAccountConfig) (w : @World A) : float :=
  dailyLossOf (List.filter (isAccountTradeOfUtcDay (cfg_slaveAccountId slaveConfig) (clock w))
                           (trades (db w))).

Definition isPlaceOrder (c : string * AdapterCall) : bool :=
  match c.2 with CallPlaceOrder _ => true | _ => false end.
Definition isConnect (c : string * AdapterCall) : bool :=
  match c.2 with CallConnect _ => true | _ => false end.

(** The orders the engine has placed, in order. *)
Definition placedOrders (w : @World A) : list (string * AdapterCall) :=
  List.filter isPlaceOrder (calls w).

Definition mappingKey (m : TradeMapping) : string * string :=
  (tm_masterTradeId m, tm_slaveAccountId m).

(** The master [Trade] rows of one broker execution. *)
Definition isMasterRowOf (copierId masterAccountId externalTradeId : string) (t : Trade) : bool :=
  refersTo (t_copierId t) copierId
  && String.eqb (t_accountId t) masterAccountId
  && refersTo (t_externalTradeId t) externalTradeId.

(** What the engine's writes keep of a database: copiers and accounts are
    not touched, trades are only appended, identifiers are only drawn, and the
    unique index of [TradeMapping] stays satisfied. *)
Record dbGrows (d d' : DB) : Prop := {
  grows_copiers : copiers d' = copiers d;
  grows_accounts : tradingAccounts d' = tradingAccounts d;
  grows_trades : ∃ extra, trades d' = trades d ++ extra;
  grows_nextId : (nextId d ≤ nextId d')%nat;
  grows_unique :
    NoDup (map mappingKey (tradeMappings d)) → NoDup (map mappingKey (tradeMappings d'));
}.

Definition grows (w w' : @World A) : Prop :=
  dbGrows (db w) (db w') ∧ clock w' = clock w.

(** What database-only code keeps of the process: adapters and the calls made
    on them. *)
Definition quiet (w w' : @World A) : Prop :=
  calls w' = calls w ∧ adapters w' = adapters w.

(** The mappings added are those of one master trade and of the follower
    accounts [sids]. *)
Definition dbMapsOnly (masterTradeId : string) (sids : list string) (d d' : DB) : Prop :=
  ∃ extra,
    tradeMappings d' = tradeMappings d ++ extra
    ∧ Forall (λ m, tm_masterTradeId m = masterTradeId ∧ In (tm_slaveAccountId m) sids) extra.

Definition mapsOnly (masterTradeId : string) (sids : list string) (w w' : @World A) : Prop :=
  dbMapsOnly masterTradeId sids (db w) (db w').

(** No mapping row refers to a primary key that is still to be drawn. *)
Definition unusedIds (d : DB) : Prop :=
  ∀ m n, In m (tradeMappings d) → (nextId d ≤ n)%nat → tm_masterTradeId m ≠ cuid n.

(** Every run of [m] relates its start state to its end state by [R]. *)
Definition preserves {S X} (R : S → S → Prop) (m : M S X) : Prop := ∀ s, R s (m s).2.

Definition cfg_set_maxContracts (v : option Z) (c : CopierAccountConfig) : CopierAccountConfig :=
  {| cfg_id := cfg_id c; cfg_copierId := cfg_copierId c;
     cfg_slaveAccountId := cfg_slaveAccountId c; cfg_scalingType := cfg_scalingType c;
     cfg_fixedContracts := cfg_fixedContracts c; cfg_percentageScale := cfg_percentageScale c;
     cfg_maxContracts := v; cfg_dailyLossLimit := cfg_dailyLossLimit c;
     cfg_autoDisable := cfg_autoDisable c; cfg_isActive := cfg_isActive c;
     cfg_disabledReason := cfg_disabledReason c |}.

End Vocabulary.

Section Readiness.

Context {A : Type} `{!ITradingAdapter A}.

(** The adapter is usable for [placeOrder] in state [a1]: it was connected, or
    the lazy [connect] succeeded and left it in [a1]. *)
Definition ready (account : TradingAccount) (a a1 : A) : Prop :=
  (isConnected a = true ∧ a1 = a)
  ∨ (isConnected a = false ∧ connect (engineConnectionConfig account) a = (Ok tt, a1)).

(** The process state once [ensureConnected] has run on a usable adapter. *)
Definition afterConnect (key : string) (account : TradingAccount) (a a1 : A) (w : @World A)
    : @World A :=
  if isConnected a then w
  else set_adapters (insert key a1)
         (set_calls (λ cs, cs ++ [(key, CallConnect (engineConnectionConfig account))]) w).

(** The process state right after [placeOrder] has answered on the adapter
    left in [a2]. *)
Definition afterPlaceOrder (key : string) (account : TradingAccount) (order : TradeOrder)
    (a a1 a2 : A) (w : @World A) : @World A :=
  set_adapters (insert key a2)
    (set_calls (λ cs, cs ++ [(key, CallPlaceOrder order)]) (afterConnect key account a a1 w)).

End Readiness.

(** ** A small deployment for the worked examples

    One user, a master account on ProjectX and two follower accounts on
    Tradovate, one copier; brokers that fill every order, or answer nothing. *)

Module Deployment.

(** [String(n)] on the integers the examples print. *)
Definition integerToString (x : float) : string :=
  match Prim2SF x with
  | S754_finite negative m e =>
      pretty ((if negative then -1 else 1) * Z.shiftl (Z.pos m) e)
  | S754_zero _ => "0"
  | S754_infinity negative => if negative then "-Infinity" else "Infinity"
  | S754_nan => "NaN"
  end.

Definition mkAccount (id : string) (firm : TradingFirm) (platform : Platform) (balance : Q)
    : TradingAccount :=
  {| a_id := id; a_userId := "u1"; a_name := id; a_firm := firm; a_platform := platform;
     a_accountNumber := id; a_accountSize := 50000; a_currentBalance := balance;
     a_email := None; a_password := None; a_apiKey := Some "key"; a_apiSecret := Some "secret";
     a_additionalConfig := None; a_maxDrawdown := None; a_dailyLossLimit := None;
     a_isConnected := true; a_lastSyncAt := None; a_errorMessage := None |}.

Definition accM : TradingAccount := mkAccount "accM" TOPSTEPX PROJECTX 50000.
Definition accF : TradingAccount := mkAccount "accF" TAKEPROFIT_TRADER TRADOVATE 25000.
Definition accG : TradingAccount := mkAccount "accG" MYFUNDED_FUTURES TRADOVATE 50000.
(** A follower account at the master's own firm and platform. *)
Definition accH : TradingAccount := mkAccount "accH" TOPSTEPX PROJECTX 50000.

Definition cop1 : Copier :=
  {| c_id := "cop1"; c_userId := "u1"; c_name := "one"; c_masterAccountId := "accM";
     c_status := ACTIVE; c_latencyToleranceMs := 1000; c_copyEntries := true;
     c_copyExits := true; c_copyModifications := true |}.

Definition mkConfig (id slave : string) (scaling : RiskScalingType) (fixed : option Z)
    (percentage : option Q) (cap : option Z) (limit : option float) (auto : bool)
    : CopierAccountConfig :=
  {| cfg_id := id; cfg_copierId := "cop1"; cfg_slaveAccountId := slave;
     cfg_scalingType := scaling; cfg_fixedContracts := fixed;
     cfg_percentageScale := percentage; cfg_maxContracts := cap;
     cfg_dailyLossLimit := limit; cfg_autoDisable := auto; cfg_isActive := true;
     cfg_disabledReason := None |}.

(** The follower binding of the happy path: one contract, no cap, no limit. *)
Definition cfgF : CopierAccountConfig := mkConfig "cfgF" "accF" FIXED (Some 1) None None None true.
Definition cfgG : CopierAccountConfig := mkConfig "cfgG" "accG" FIXED (Some 1) None None None true.
Definition cfgH : CopierAccountConfig := mkConfig "cfgH" "accH" FIXED (Some 1) None None None true.
(** Five contracts under a cap of two, and under a cap of zero. *)
Definition cfgCap2 : CopierAccountConfig :=
  mkConfig "cfgF" "accF" FIXED (Some 5) None (Some 2) None true.
Definition cfgCap0 : CopierAccountConfig :=
  mkConfig "cfgF" "accF" FIXED (Some 5) None (Some 0) None true.
(** A percentage of zero. *)
Definition cfgPct0 : CopierAccountConfig :=
  mkConfig "cfgF" "accF" PERCENTAGE None (Some 0%Q) None None true.
(** A daily loss limit of 500 with auto-disable. *)
Definition cfgLimit : CopierAccountConfig :=
  mkConfig "cfgF" "accF" FIXED (Some 1) None None (Some 500%float) true.

Definition fill (order : TradeOrder) : TradeExecution :=
  {| e_orderId := "FO1"; e_tradeId := "FT1"; e_symbol := o_symbol order;
     e_side := o_side order; e_quantity := o_quantity order; e_price := 5001;
     e_executedAt := None; e_status := "filled" |}.

Definition liveBroker : HttpPlatform :=
  {| fetchAccountInfo := λ cc,
       Ok {| ai_accountId := cc_accountNumber cc; ai_balance := 25000; ai_equity := 25000;
             ai_marginUsed := 0 |};
     executePlaceOrder := λ order, Ok (fill order) |}.

Definition deadBroker : HttpPlatform :=
  {| fetchAccountInfo := λ _, Err "Network Error";
     executePlaceOrder := λ _, Err "Network Error" |}.

Definition mkAdapter (impl : HttpPlatform) (isConn : bool) (callbacks : list Callback)
    : BaseHttpAdapter :=
  {| platformImpl := impl; connected := isConn; bh_config := None;
     tradeCallbacks := callbacks; positionCallbacks := []; pollingInterval := false;
     lastTradeId := None; notified := [] |}.

Definition keyM : string := getKey PROJECTX TOPSTEPX.
Definition keyF : string := getKey TRADOVATE TAKEPROFIT_TRADER.
Definition keyG : string := getKey TRADOVATE MYFUNDED_FUTURES.

(** The registry: the master adapter carries the copier's subscription. *)
Definition registry (brokerF : HttpPlatform) : gmap string BaseHttpAdapter :=
  <[keyM := mkAdapter liveBroker true [HandleMasterTrade "cop1"]]>
  (<[keyF := mkAdapter brokerF true []]>
  (<[keyG := mkAdapter liveBroker true []]> ∅)).

(** The master fill of the seed scenarios: BUY 1 ES at 5000, trade id T1. *)
Definition masterFill (quantity : Z) : TradeExecution :=
  {| e_orderId := "O1"; e_tradeId := "T1"; e_symbol := "ES"; e_side := BUY;
     e_quantity := quantity; e_price := 5000; e_executedAt := None; e_status := "filled" |}.

(** 01:00 UTC on the second day of the epoch. *)
Definition now : Z := msPerDay + 3600000.

Definition mkTrade (id : string) (copierId : option string) (accountId : string) (pnl : float)
    : Trade :=
  {| t_id := id; t_copierId := copierId; t_accountId := accountId; t_symbol := "ES";
     t_side := BUY; t_type := MARKET; t_quantity := 1; t_entryPrice := Some 5000%Q;
     t_stopLoss := None; t_takeProfit := None; t_status := FILLED; t_openedAt := Some now;
     t_filledAt := Some now; t_realizedPnL := Some pnl; t_externalOrderId := None;
     t_externalTradeId := None; t_createdAt := now |}.

Definition mkDB (configs : list CopierAccountConfig) (ts : list Trade) : DB :=
  {| tradingAccounts := [accM; accF; accG; accH]; copiers := [cop1];
     copierAccountConfigs := configs; trades := ts; tradeMappings := [];
     executionLogs := []; transactions := []; nextId := 0 |}.

Definition mkWorld (configs : list CopierAccountConfig) (ts : list Trade)
    (brokerF : HttpPlatform) : @World BaseHttpAdapter :=
  {| db := mkDB configs ts; adapters := registry brokerF; logger := []; calls := [];
     clock := now; timezoneOffset := 0; activeCopiers := {["cop1"]};
     tradeSubscriptions := {["cop1" := (keyM, HandleMasterTrade "cop1")]} |}.

(** The process before the copier is started: no subscription anywhere. *)
Definition idle : @World BaseHttpAdapter :=
  {| db := mkDB [cfgF] []; adapters := (λ a, bh_set_tradeCallbacks (λ _, []) a) <$> registry liveBroker;
     logger := []; calls := []; clock := now; timezoneOffset := 0; activeCopiers := ∅;
     tradeSubscriptions := ∅ |}.

Definition deliver (execution : TradeExecution) (w : @World BaseHttpAdapter)
    : @World BaseHttpAdapter :=
  (handleMasterTrade integerToString "cop1" execution w).2.

(** The sizes of the orders placed so far. *)
Definition placedQuantities (w : @World BaseHttpAdapter) : list Z :=
  omap (λ c, match c.2 with CallPlaceOrder order => Some (o_quantity order) | _ => None end)
       (calls w).

(** The worlds of the examples. *)
Definition happy : @World BaseHttpAdapter := mkWorld [cfgF] [] liveBroker.
Definition capped2 : @World BaseHttpAdapter := mkWorld [cfgCap2] [] liveBroker.
Definition capped0 : @World BaseHttpAdapter := mkWorld [cfgCap0] [] liveBroker.
Definition percent0 : @World BaseHttpAdapter := mkWorld [cfgPct0] [] liveBroker.
(** The follower lost 500 today on trades of this copier ... *)
Definition ownLoss : @World BaseHttpAdapter :=
  mkWorld [cfgLimit] [mkTrade "t0" (Some "cop1") "accF" (-500)] liveBroker.
(** ... or on a trade that a second copier of the same user, from [accG] to
    the same follower account, made there. *)
Definition cop2 : Copier :=
  {| c_id := "cop2"; c_userId := "u1"; c_name := "two"; c_masterAccountId := "accG";
     c_status := ACTIVE; c_latencyToleranceMs := 1000; c_copyEntries := true;
     c_copyExits := true; c_copyModifications := true |}.
Definition cfgF2 : CopierAccountConfig :=
  {| cfg_id := "cfgF2"; cfg_copierId := "cop2"; cfg_slaveAccountId := "accF";
     cfg_scalingType := FIXED; cfg_fixedContracts := Some 1; cfg_percentageScale := None;
     cfg_maxContracts := None; cfg_dailyLossLimit := None; cfg_autoDisable := true;
     cfg_isActive := true; cfg_disabledReason := None |}.
Definition otherLoss : @World BaseHttpAdapter :=
  set_db (λ d, set_copierAccountConfigs (λ cs, cs ++ [cfgF2])
                 (set_copiers (λ cs, cs ++ [cop2]) d))
         (mkWorld [cfgLimit] [mkTrade "t0" (Some "cop2") "accF" (-500)] liveBroker).
(** Eight fills of today that lost a tenth each, under a limit of eight
    tenths ([0.1] and [0.8] as the doubles JavaScript reads them). *)
Definition tenth : float := 0x1.999999999999ap-4%float.
Definition cfgTenths : CopierAccountConfig :=
  mkConfig "cfgF" "accF" FIXED (Some 1) None None (Some 0x1.999999999999ap-1%float) true.
Definition eightTenths : @World BaseHttpAdapter :=
  mkWorld [cfgTenths]
          (map (λ i : nat, mkTrade ("t" +:+ pretty i) (Some "cop1") "accF" (- tenth)%float)
               (seq 0 8))
          liveBroker.
(** The broker of the first follower is down. *)
Definition brokerDown : @World BaseHttpAdapter := mkWorld [cfgF; cfgG] [] deadBroker.
(** The follower sits on the master's adapter. *)
Definition sameAdapter : @World BaseHttpAdapter := mkWorld [cfgH] [] liveBroker.

Definition masterRow : Trade := mkTrade "m1" (Some "cop1") "accM" 0.
Definition followerF (c : CopierAccountConfig) : SlaveConfig :=
  {| config := c; slaveAccount := accF |}.
Definition followerG : SlaveConfig := {| config := cfgG; slaveAccount := accG |}.
Definition followerH : SlaveConfig := {| config := cfgH; slaveAccount := accH |}.

(** A database in which one trade sits on account [accG]. *)
Definition withTrade : DB := mkDB [] [mkTrade "t1" (Some "cop1") "accG" 0].

(** A server that takes the API key at [/auth/login] and the e-mail login at
    [/api/auth/login], and answers 401 to everything else. *)
Definition twoDoors : Rithmic.HttpServer := λ endpoint payload,
  match Rithmic.shapeOf payload with
  | Rithmic.ShapeApiKey =>
      if String.eqb endpoint "/auth/login"
      then Ok {| Rithmic.status := 200;
                 Rithmic.data := {| Rithmic.token := Some "by-key"; Rithmic.sessionId := None |} |}
      else Ok {| Rithmic.status := 401;
                 Rithmic.data := {| Rithmic.token := None; Rithmic.sessionId := None |} |}
  | Rithmic.ShapeEmail =>
      if String.eqb endpoint "/api/auth/login"
      then Ok {| Rithmic.status := 200;
                 Rithmic.data := {| Rithmic.token := Some "by-email"; Rithmic.sessionId := None |} |}
      else Ok {| Rithmic.status := 401;
                 Rithmic.data := {| Rithmic.token := None; Rithmic.sessionId := None |} |}
  | Rithmic.ShapeUsername =>
      Ok {| Rithmic.status := 401;
            Rithmic.data := {| Rithmic.token := None; Rithmic.sessionId := None |} |}
  end.

Definition fullCredentials : ConnectionConfig :=
  {| cc_email := Some "t@example.com"; cc_password := Some "pw"; cc_apiKey := Some "key";
     cc_apiSecret := Some "secret"; cc_accountNumber := "A1"; cc_config := None |}.

End Deployment.

(** ** Further Prisma calls of the services

    [CopierAccountConfig_copierId_fkey] and
    [CopierAccountConfig_slaveAccountId_fkey] must resolve;
    [CopierAccountConfig_copierId_slaveAccountId_key] is a unique index. *)

Definition copier_set_status (v : CopierStatus) (c : Copier) : Copier :=
  {| c_id := c_id c; c_userId := c_userId c; c_name := c_name c;
     c_masterAccountId := c_masterAccountId c; c_status := v;
     c_latencyToleranceMs := c_latencyToleranceMs c; c_copyEntries := c_copyEntries c;
     c_copyExits := c_copyExits c; c_copyModifications := c_copyModifications c |}.

(** [prisma.copier.update({ where: { id }, data })] *)
Definition copier_update (id : string) (data : Copier → Copier) (d : DB) : Result Copier * DB :=
  match findCopier d id with
  | None => (Err P2025, d)
  | Some c =>
      (Ok (data c), set_copiers (map (λ x, if String.eqb (c_id x) id then data x else x)) d)
  end.

Definition sameConfigKey (copierId slaveAccountId : string) (c : CopierAccountConfig) : bool :=
  String.eqb (cfg_copierId c) copierId && String.eqb (cfg_slaveAccountId c) slaveAccountId.

(** [findUnique({ where: { copierId_slaveAccountId: { copierId, slaveAccountId } } })] *)
Definition findConfigByKey (d : DB) (copierId slaveAccountId : string)
    : option CopierAccountConfig :=
  List.find (sameConfigKey copierId slaveAccountId) (copierAccountConfigs d).

Definition P2002_config : string :=
  "Unique constraint failed on the fields: (`copierId`,`slaveAccountId`)".

Definition copierAccountConfig_create (data : string → CopierAccountConfig) (d : DB)
    : Result CopierAccountConfig * DB :=
  let row := data (cuid (nextId d)) in
  if negb (bool_decide (is_Some (findCopier d (cfg_copierId row))))
  then (Err (P2003 "CopierAccountConfig_copierId_fkey"), d)
  else if negb (bool_decide (is_Some (findAccount d (cfg_slaveAccountId row))))
  then (Err (P2003 "CopierAccountConfig_slaveAccountId_fkey"), d)
  else if existsb (sameConfigKey (cfg_copierId row) (cfg_slaveAccountId row))
                  (copierAccountConfigs d)
  then (Err P2002_config, d)
  else (Ok row, bump_nextId (set_copierAccountConfigs (λ cs, cs ++ [row]) d)).

(** [prisma.copierAccountConfig.delete({ where: { copierId_slaveAccountId } })];
    no table refers to [CopierAccountConfig]. *)
Definition copierAccountConfig_delete (copierId slaveAccountId : string) (d : DB)
    : Result CopierAccountConfig * DB :=
  match findConfigByKey d copierId slaveAccountId with
  | None => (Err P2025_delete, d)
  | Some c =>
      (Ok c,
       set_copierAccountConfigs
         (List.filter (λ x, negb (sameConfigKey copierId slaveAccountId x))) d)
  end.

(** [error.code === "P2003"], read off the message that stands for the error. *)
Definition isP2003 (message : string) : bool := String.prefix (P2003 "") message.

(** ** [AddSlaveAccountDto]

    The numeric fields have the types of the columns they are written to. *)

Record AddSlaveAccountDto := {
  dto_slaveAccountId : string;
  dto_scalingType : RiskScalingType;
  dto_fixedContracts : option Z;
  dto_percentageScale : option Q;
  dto_maxContracts : option Z;
  dto_dailyLossLimit : option float;
  dto_autoDisable : option bool;
}.

(** The [data] of the [create] in [addSlaveAccount]; [isActive] and
    [disabledReason] take the defaults of the table. *)
Definition newSlaveConfig (copierId : string) (dto : AddSlaveAccountDto) (id : string)
    : CopierAccountConfig :=
  {| cfg_id := id; cfg_copierId := copierId; cfg_slaveAccountId := dto_slaveAccountId dto;
     cfg_scalingType := dto_scalingType dto; cfg_fixedContracts := dto_fixedContracts dto;
     cfg_percentageScale := dto_percentageScale dto; cfg_maxContracts := dto_maxContracts dto;
     cfg_dailyLossLimit := dto_dailyLossLimit dto;
     cfg_autoDisable := default true (dto_autoDisable dto);
     cfg_isActive := true; cfg_disabledReason := None |}.

(** ** The services around the engine ([CopierService], [AccountsService]) *)

Section Services.

Context {A : Type} `{!ITradingAdapter A}.

(** [TradeCopierEngine.pause] *)
Definition pause (copierId : string) : M (@World A) unit :=
  stop copierId;;
  log "log" ("Copier " +:+ copierId +:+ " paused").

(** *** [CopierService] *)

Definition CopierService_findOne (id : string) (userId : option string) : M (@World A) Copier :=
  copier ← gets (λ w, findCopier (db w) id);
  match copier with
  | None => throw ("Copier with ID " +:+ id +:+ " not found")
  | Some copier =>
      if truthyS userId && negb (String.eqb (c_userId copier) (default "" userId))
      then throw "Unauthorized"
      else mret copier
  end.

Definition CopierService_start (id userId : string) : M (@World A) Copier :=
  copier ← CopierService_findOne id (Some userId);
  if bool_decide (c_status copier = ACTIVE) then throw "Copier is already active"
  else
    masterAccount ← gets (λ w, findAccount (db w) (c_masterAccountId copier));
    match masterAccount with
    | None => throw "Cannot read properties of null (reading 'isConnected')"
    | Some masterAccount =>
        if negb (a_isConnected masterAccount) then throw "Master account is not connected"
        else
          start (c_id copier);;
          prisma (copier_update id (copier_set_status ACTIVE))
    end.

Definition CopierService_stop (id userId : string) : M (@World A) Copier :=
  CopierService_findOne id (Some userId);;
  stop id;;
  prisma (copier_update id (copier_set_status STOPPED)).

Definition CopierService_pause (id userId : string) : M (@World A) Copier :=
  CopierService_findOne id (Some userId);;
  pause id;;
  prisma (copier_update id (copier_set_status PAUSED)).

Definition CopierService_remove (id userId : string) : M (@World A) Copier :=
  CopierService_findOne id (Some userId);;
  CopierService_stop id userId;;
  prisma (copier_delete id).

Definition CopierService_addSlaveAccount (id userId : string) (dto : AddSlaveAccountDto)
    : M (@World A) CopierAccountConfig :=
  CopierService_findOne id (Some userId);;
  slaveAccount ← gets (λ w, List.find (λ a, String.eqb (a_id a) (dto_slaveAccountId dto)
                                            && String.eqb (a_userId a) userId)
                                      (tradingAccounts (db w)));
  match slaveAccount with
  | None => throw "Slave account not found"
  | Some _ =>
      existing ← gets (λ w, findConfigByKey (db w) id (dto_slaveAccountId dto));
      match existing with
      | Some _ => throw "Slave account already added to this copier"
      | None => prisma (copierAccountConfig_create (newSlaveConfig id dto))
      end
  end.

Definition CopierService_removeSlaveAccount (id userId slaveAccountId : string)
    : M (@World A) CopierAccountConfig :=
  CopierService_findOne id (Some userId);;
  prisma (copierAccountConfig_delete id slaveAccountId).

(** *** [AccountsService.disconnect] and [AccountsService.remove] *)

Definition AccountsService_disconnect (id userId : string) : M (@World A) TradingAccount :=
  findOne id (Some userId);;
  account ← findOne id (Some userId);
  adapter ← getAdapter (a_platform account) (a_firm account);
  onAdapter adapter CallDisconnect disconnect;;
  prisma (tradingAccount_update id
            (λ a, account_set_connection false (a_lastSyncAt a) (a_errorMessage a) a)).

(** [slaveConfigs.map((sc) => sc.copier.name).join(", ")] *)
Definition copierNamesOf (d : DB) (slaveConfigs : list CopierAccountConfig)
    : option (list string) :=
  mapM (λ sc, c_name <$> findCopier d (cfg_copierId sc)) slaveConfigs.

Fixpoint join (separator : string) (parts : list string) : string :=
  match parts with
  | [] => ""
  | [part] => part
  | part :: rest => part +:+ separator +:+ join separator rest
  end.

Definition usedAsMaster (n : nat) : string :=
  "No se puede eliminar la cuenta porque está siendo usada como cuenta maestra en " +:+
  pretty n +:+ " copier(s). Elimina primero los copiers asociados.".

Definition usedAsSlave (n : nat) (copierNames : string) : string :=
  "No se puede eliminar la cuenta porque está siendo usada como cuenta esclava en " +:+
  pretty n +:+ " copier(s): " +:+ copierNames +:+
  ". Elimina primero la cuenta de los copiers asociados.".

Definition activeRelations : string :=
  "No se puede eliminar la cuenta porque tiene relaciones activas. " +:+
  "Asegúrate de eliminar primero todos los copiers y trades asociados.".

Definition AccountsService_remove (id userId : string) : M (@World A) TradingAccount :=
  log "log" ("Attempting to delete account " +:+ id +:+ " for user " +:+ userId);;
  account ← findOne id (Some userId);
  masterCopiers ← gets (λ w, List.filter (λ c, String.eqb (c_masterAccountId c) id)
                                         (copiers (db w)));
  if (0 <? length masterCopiers)%nat then
    log "warn" ("Cannot delete account " +:+ id +:+ ": used as master in " +:+
                pretty (length masterCopiers) +:+ " copier(s)");;
    throw (usedAsMaster (length masterCopiers))
  else
    slaveConfigs ← gets (λ w, List.filter (λ c, String.eqb (cfg_slaveAccountId c) id)
                                          (copierAccountConfigs (db w)));
    if (0 <? length slaveConfigs)%nat then
      log "warn" ("Cannot delete account " +:+ id +:+ ": used as slave in " +:+
                  pretty (length slaveConfigs) +:+ " copier(s)");;
      copierNames ← gets (λ w, copierNamesOf (db w) slaveConfigs);
      match copierNames with
      | None => throw "Cannot read properties of null (reading 'name')"
      | Some copierNames => throw (usedAsSlave (length slaveConfigs) (join ", " copierNames))
      end
    else
      tradesCount ← gets (λ w, length (List.filter (λ t, String.eqb (t_accountId t) id)
                                                   (trades (db w))));
      (if (0 <? tradesCount)%nat
       then log "log" ("Account " +:+ id +:+ " has " +:+ pretty tradesCount +:+
                       " trades, but will be deleted anyway (trades will be preserved)")
       else mret tt);;
      tryCatch
        ((if a_isConnected account then
            log "log" ("Account " +:+ id +:+ " is connected, attempting to disconnect...");;
            tryCatch
              (adapter ← getAdapter (a_platform account) (a_firm account);
               isConn ← adapterIsConnected adapter;
               if (isConn : bool) then onAdapter adapter CallDisconnect disconnect
               else mret tt)
              (λ _, log "warn" ("Failed to disconnect adapter for account " +:+ id +:+
                                ", continuing with deletion:"))
          else mret tt);;
         deletedAccount ← prisma (tradingAccount_delete id);
         log "log" ("Successfully deleted account " +:+ id);;
         mret deletedAccount)
        (λ errorMessage,
           log "error" ("Failed to delete account " +:+ id +:+ ":");;
           if isP2003 errorMessage then throw activeRelations
           else throw ("Error al eliminar la cuenta: " +:+
                       (if String.eqb errorMessage "" then "Error desconocido"
                        else errorMessage))).

End Services.

(** ** [BaseHttpAdapter]: the poll of [startTradePolling] and the normalisers *)

Definition bh_set_lastTradeId (v : option string) (a : BaseHttpAdapter) : BaseHttpAdapter :=
  {| platformImpl := platformImpl a; connected := connected a; bh_config := bh_config a;
     tradeCallbacks := tradeCallbacks a; positionCallbacks := positionCallbacks a;
     pollingInterval := pollingInterval a; lastTradeId := v; notified := notified a |}.

(** The body of [for (const trade of trades)] in the interval callback. *)
Definition pollStep (a : BaseHttpAdapter) (trade : TradeExecution) : BaseHttpAdapter :=
  if negb (truthyS (lastTradeId a))
     || negb (bool_decide (Some (e_tradeId trade) = lastTradeId a))
  then bh_set_lastTradeId (Some (e_tradeId trade)) (notifyTradeCallbacks trade a)
  else a.

(** One run of the interval callback, on the answer of [fetchTrades()]. *)
Definition pollTick (fetched : Result (list TradeExecution)) (a : BaseHttpAdapter)
    : BaseHttpAdapter :=
  match fetched with
  | Ok fetchedTrades => fold_left pollStep fetchedTrades a
  | Err _ => a
  end.

Section Normalisers.

(** [String.prototype.toUpperCase] *)
Variable toUpperCase : string → string.

Definition normalizeSide (side : string) : TradeSide :=
  let upper := toUpperCase side in
  if String.eqb upper "BUY" || String.eqb upper "LONG" then BUY
  else if String.eqb upper "SELL" || String.eqb upper "SHORT" then SELL
  else BUY.

Definition normalizeStatus (status : string) : string :=
  let upper := toUpperCase status in
  if String.eqb upper "FILLED" || String.eqb upper "EXECUTED" then "filled"
  else if String.eqb upper "PARTIAL" || String.eqb upper "PARTIALLY_FILLED"
  then "partially_filled"
  else if String.eqb upper "PENDING" || String.eqb upper "NEW" then "pending"
  else if String.eqb upper "CANCELLED" || String.eqb upper "CANCELED" then "cancelled"
  else if String.eqb upper "REJECTED" then "rejected"
  else "pending".

End Normalisers.

(** ** [AdapterFactory] *)

Section Factory.

Context {A : Type}.

(** The adapter instances the constructor is given. *)
Record Injected := {
  topStepXAdapter : A;
  topStepXRealAdapter : A;
  takeProfitTraderRealAdapter : A;
  alphaFuturesRealAdapter : A;
  myFundedFuturesRealAdapter : A;
  tradefyRealAdapter : A;
  tradovateAdapterTakeProfit : A;
  tradovateAdapterMyFunded : A;
  ninjaTraderAdapterTakeProfit : A;
  ninjaTraderAdapterMyFunded : A;
}.

Definition AdapterFactory_registerAdapter (platform : Platform) (firm : TradingFirm) (adapter : A)
    (registered : gmap string A) : gmap string A :=
  <[getKey platform firm := adapter]> registered.

(** [useRealAdapters] is [process.env.USE_REAL_ADAPTERS === "true"]. *)
Definition registerAdapters (useRealAdapters : bool) (i : Injected) : gmap string A :=
  let mock := AdapterFactory_registerAdapter RITHMIC TOPSTEPX (topStepXAdapter i) ∅ in
  if useRealAdapters then
    AdapterFactory_registerAdapter RITHMIC ALPHA_FUTURES (alphaFuturesRealAdapter i)
    (AdapterFactory_registerAdapter RITHMIC TRADEFY (tradefyRealAdapter i)
    (AdapterFactory_registerAdapter RITHMIC MYFUNDED_FUTURES (myFundedFuturesRealAdapter i)
    (AdapterFactory_registerAdapter RITHMIC TAKEPROFIT_TRADER (takeProfitTraderRealAdapter i)
    (AdapterFactory_registerAdapter NINJATRADER MYFUNDED_FUTURES (ninjaTraderAdapterMyFunded i)
    (AdapterFactory_registerAdapter NINJATRADER TAKEPROFIT_TRADER (ninjaTraderAdapterTakeProfit i)
    (AdapterFactory_registerAdapter TRADOVATE MYFUNDED_FUTURES (tradovateAdapterMyFunded i)
    (AdapterFactory_registerAdapter TRADOVATE TAKEPROFIT_TRADER (tradovateAdapterTakeProfit i)
    (AdapterFactory_registerAdapter PROJECTX TOPSTEPX (topStepXRealAdapter i) mock))))))))
  else mock.

Definition AdapterFactory_getAdapter (registered : gmap string A) (platform : Platform)
    (firm : TradingFirm) : Result A :=
  match registered !! getKey platform firm with
  | Some adapter => Ok adapter
  | None =>
      Err ("No adapter found for platform " +:+ showPlatform platform +:+
           " and firm " +:+ showFirm firm)
  end.

End Factory.

Arguments Injected A : clear implicits.

(** ** Further vocabulary of the statements *)

Section Footprints.

Context {A : Type}.

(** The database is the one it was. *)
Definition sameDb (w w' : @World A) : Prop := db w' = db w.

End Footprints.

(** Every callback of [callbacks] invoked on every execution of [executions],
    execution by execution. *)
Definition deliveries (callbacks : list Callback) (executions : list TradeExecution)
    : list (Callback * TradeExecution) :=
  flat_map (λ execution, map (λ callback, (callback, execution)) callbacks) executions.

(** ** [RithmicAdapter.attemptReconnect]

    [reconnectAttempts] is set to 0 by a successful [connect] and by nothing
    else; [attemptReconnect] is called by the [close] handler of the socket
    and by the timer of a reconnection that failed. *)

Definition maxReconnectAttempts : nat := 5.

(** [Math.min(1000 * Math.pow(2, this.reconnectAttempts), 30000)] *)
Definition reconnectDelay (reconnectAttempts : nat) : Z :=
  Z.min (1000 * 2 ^ Z.of_nat reconnectAttempts) 30000.

(** The counter after the call, and the delay of the timer it has set, if any. *)
Definition attemptReconnect (reconnectAttempts : nat) : nat * option Z :=
  if (maxReconnectAttempts <=? reconnectAttempts)%nat then (reconnectAttempts, None)
  else (S reconnectAttempts, Some (reconnectDelay (S reconnectAttempts))).

(** The timers set by [calls] successive calls. *)
Fixpoint attemptReconnects (calls : nat) (reconnectAttempts : nat) : list Z :=
  match calls with
  | O => []
  | S calls =>
      let '(next, timer) := attemptReconnect reconnectAttempts in
      match timer with
      | Some delay => delay :: attemptReconnects calls next
      | None => attemptReconnects calls next
      end
  end.

(** ** Further states of the small deployment *)

Module Scenarios.

Import Deployment.

(** The copier before it is started: its row says [STOPPED]. *)
Definition cop1Stopped : Copier := copier_set_status STOPPED cop1.

Definition stoppedDB (configs : list CopierAccountConfig) : DB :=
  set_copiers (λ _, [cop1Stopped]) (mkDB configs []).

(** Nothing runs, nothing is subscribed; the copier has one follower. *)
Definition parked : @World BaseHttpAdapter := set_db (λ _, stoppedDB [cfgF]) idle.

(** The same, with no follower bound yet. *)
Definition bare : @World BaseHttpAdapter := set_db (λ _, stoppedDB []) idle.

(** A follower scaled by its balance: 25000 of 50000. *)
Definition cfgBalance : CopierAccountConfig :=
  mkConfig "cfgF" "accF" BALANCE_BASED None None None None true.
Definition halfSize : @World BaseHttpAdapter := mkWorld [cfgBalance] [] liveBroker.

(** The adapter of the first follower is not connected and cannot connect. *)
Definition offline : @World BaseHttpAdapter :=
  set_adapters (insert keyF (mkAdapter deadBroker false [])) happy.

(** The copier after one master fill has been copied. *)
Definition afterOneFill : @World BaseHttpAdapter := deliver (masterFill 1) happy.

(** One trade is booked on [accG], which no copier uses. *)
Definition tradedG : @World BaseHttpAdapter :=
  mkWorld [cfgF] [mkTrade "t1" None "accG" 0] liveBroker.

(** The adapter of ProjectX/TopStepX is connected for the master account. *)
Definition masterSession : ConnectionConfig := engineConnectionConfig accM.
Definition masterAdapter : BaseHttpAdapter :=
  bh_set_config (Some masterSession) (mkAdapter liveBroker true [HandleMasterTrade "cop1"]).
Definition sharedSession : @World BaseHttpAdapter :=
  set_adapters (insert keyM masterAdapter) sameAdapter.

(** A request to bind the copier's own master account as a follower. *)
Definition bindMaster : AddSlaveAccountDto :=
  {| dto_slaveAccountId := "accM"; dto_scalingType := FIXED; dto_fixedContracts := Some 1;
     dto_percentageScale := None; dto_maxContracts := None; dto_dailyLossLimit := None;
     dto_autoDisable := None |}.

Definition bindF (fixed : Z) : AddSlaveAccountDto :=
  {| dto_slaveAccountId := "accF"; dto_scalingType := FIXED; dto_fixedContracts := Some fixed;
     dto_percentageScale := None; dto_maxContracts := None; dto_dailyLossLimit := None;
     dto_autoDisable := Some false |}.

(** Two executions a poll returns, with different trade ids. *)
Definition polled : list TradeExecution := [masterFill 1; fill (slaveOrderOf masterRow 1)].

Definition listening : BaseHttpAdapter := mkAdapter liveBroker true [HandleMasterTrade "cop1"].

End Scenarios.

(** * Verification *)

(** ** The monad *)

Lemma bind_run {S X Y} (m : M S X) (f : X → M S Y) (s : S) :
  (m ≫= f) s = match m s with
               | (Ok a, s') => f a s'
               | (Err e, s') => (Err e, s')
               end.
Proof. reflexivity. Qed.

Lemma tryCatch_run {S X} (body : M S X) (handler : string → M S X) (s : S) :
  tryCatch body handler s = match body s with
                            | (Ok a, s') => (Ok a, s')
                            | (Err e, s') => handler e s'
                            end.
Proof. reflexivity. Qed.

(** *** Frame rules

    [preserves R m] is a postcondition on the end state of [m], whether [m]
    returns or throws; the rules below follow the shape of the code. *)

Section Frames.

Context {S : Type} (R : S → S → Prop) `{!PreOrder R}.

Lemma preserves_ret {X} (x : X) : preserves R (mret x : M S X).
Proof. intros s. simpl. reflexivity. Qed.

Lemma preserves_throw {X} message : preserves R (throw message : M S X).
Proof. intros s. simpl. reflexivity. Qed.

Lemma preserves_gets {X} (f : S → X) : preserves R (gets f).
Proof. intros s. simpl. reflexivity. Qed.

Lemma preserves_liftResult {X} (r : Result X) : preserves R (liftResult r : M S X).
Proof. intros s. simpl. reflexivity. Qed.

Lemma preserves_modify (f : S → S) : (∀ s, R s (f s)) → preserves R (modify f).
Proof. intros Hf s. apply Hf. Qed.

Lemma preserves_bind {X Y} (m : M S X) (f : X → M S Y) :
  preserves R m → (∀ x, preserves R (f x)) → preserves R (m ≫= f).
Proof.
  intros Hm Hf s. rewrite bind_run. specialize (Hm s).
  destruct (m s) as [[x|e] s']; simpl in *; [|done].
  etrans; [exact Hm | apply Hf].
Qed.

Lemma preserves_tryCatch {X} (body : M S X) (handler : string → M S X) :
  preserves R body → (∀ e, preserves R (handler e)) → preserves R (tryCatch body handler).
Proof.
  intros Hm Hh s. rewrite tryCatch_run. specialize (Hm s).
  destruct (body s) as [[x|e] s']; simpl in *; [done|].
  etrans; [exact Hm | apply Hh].
Qed.

Lemma preserves_allSettled {X} (ps : list (M S X)) :
  Forall (preserves R) ps → ∀ s, R s (allSettled ps s).2.
Proof.
  induction 1 as [|p ps Hp _ IH]; intros s; simpl; [reflexivity|].
  specialize (Hp s). destruct (p s) as [r s']. specialize (IH s').
  destruct (allSettled ps s') as [rs s'']. simpl in *. by etrans.
Qed.

End Frames.

Ltac frame_step :=
  first
    [ apply preserves_bind
    | apply preserves_tryCatch
    | apply preserves_ret
    | apply preserves_throw
    | apply preserves_gets
    | apply preserves_liftResult
    | match goal with
      | |- preserves _ (if ?b then _ else _) => destruct b
      | |- preserves _ (match ?x with _ => _ end) => destruct x
      end ];
  try match goal with |- PreOrder _ => typeclasses eauto end;
  intros.

(** ** Scaling *)

Lemma orZ_Some (n d : Z) : n ≠ 0 → orZ (Some n) d = n.
Proof.
  intros Hn. unfold orZ, truthyZ.
  destruct (Z.eqb_spec n 0) as [->|_]; [contradiction | reflexivity].
Qed.

Lemma orQ_Some (p d : Q) : ¬ (p == 0)%Q → orQ (Some p) d = p.
Proof.
  intros Hp. unfold orQ, truthyQ.
  destruct (Qeq_bool p 0) eqn:E; [|reflexivity].
  apply Qeq_bool_iff in E. contradiction.
Qed.

Lemma orQ_zero (p d : Q) : (p == 0)%Q → orQ (Some p) d = d.
Proof.
  intros Hp. unfold orQ, truthyQ.
  apply Qeq_bool_iff in Hp. rewrite Hp. reflexivity.
Qed.

Lemma calculateScaledQuantity_FIXED masterQuantity c a n :
  cfg_scalingType c = FIXED → cfg_fixedContracts c = Some n → n ≠ 0 →
  calculateScaledQuantity masterQuantity c a = n.
Proof.
  intros Hs Hf Hn. unfold calculateScaledQuantity. rewrite Hs, Hf. by apply orZ_Some.
Qed.

Lemma calculateScaledQuantity_FIXED_null masterQuantity c a :
  cfg_scalingType c = FIXED → cfg_fixedContracts c = None →
  calculateScaledQuantity masterQuantity c a = masterQuantity.
Proof. intros Hs Hf. unfold calculateScaledQuantity. by rewrite Hs, Hf. Qed.

Lemma calculateScaledQuantity_PERCENTAGE masterQuantity c a p :
  cfg_scalingType c = PERCENTAGE → cfg_percentageScale c = Some p → ¬ (p == 0)%Q →
  calculateScaledQuantity masterQuantity c a = Qfloor (inject_Z masterQuantity * p).
Proof.
  intros Hs Hp Hnz. unfold calculateScaledQuantity. rewrite Hs, Hp.
  cbv zeta. by rewrite orQ_Some.
Qed.

Lemma calculateScaledQuantity_BALANCE_BASED masterQuantity c a :
  cfg_scalingType c = BALANCE_BASED →
  calculateScaledQuantity masterQuantity c a
  = Qfloor (inject_Z masterQuantity * a_currentBalance a / 50000).
Proof.
  intros Hs. unfold calculateScaledQuantity. rewrite Hs. cbv zeta.
  apply Qfloor_comp. unfold Qdiv. by rewrite Qmult_assoc.
Qed.

(** A percentage of zero is read as "unset": the follower copies the full
    master size. *)
Lemma calculateScaledQuantity_PERCENTAGE_zero masterQuantity c a p :
  cfg_scalingType c = PERCENTAGE → cfg_percentageScale c = Some p → (p == 0)%Q →
  calculateScaledQuantity masterQuantity c a = masterQuantity.
Proof.
  intros Hs Hp Hz. unfold calculateScaledQuantity. rewrite Hs, Hp. cbv zeta.
  rewrite orQ_zero by done.
  rewrite (Qfloor_comp _ (inject_Z masterQuantity)); [apply Qfloor_Z | ring].
Qed.

Lemma calculateScaledQuantity_maxContracts masterQuantity c c' a :
  cfg_scalingType c' = cfg_scalingType c →
  cfg_fixedContracts c' = cfg_fixedContracts c →
  cfg_percentageScale c' = cfg_percentageScale c →
  calculateScaledQuantity masterQuantity c' a = calculateScaledQuantity masterQuantity c a.
Proof. intros H1 H2 H3. unfold calculateScaledQuantity. by rewrite H1, H2, H3. Qed.

(** ** The risk gate *)

Section BackendProofs.

Context {A : Type} `{!ITradingAdapter A}.
Variable numberToString : float → string.

Implicit Types (w : @World A) (c : CopierAccountConfig) (sc : SlaveConfig).

Lemma checkRiskRules_pass copierId c w :
  riskExceeded copierId c w = false →
  checkRiskRules numberToString copierId c w = (Ok {| allowed := true; reason := None |}, w).
Proof.
  unfold riskExceeded, checkRiskRules. intros Hr.
  destruct (truthyF (cfg_dailyLossLimit c)); [|reflexivity].
  simpl in Hr. rewrite bind_run. unfold gets. rewrite Hr. reflexivity.
Qed.

Lemma checkRiskRules_reject_keep copierId c w :
  riskExceeded copierId c w = true → cfg_autoDisable c = false →
  checkRiskRules numberToString copierId c w
  = (Ok {| allowed := false;
           reason := Some (dailyLossMessage numberToString
                             (dailyLossOf (todayTrades copierId c w))) |}, w).
Proof.
  unfold riskExceeded, checkRiskRules. intros Hr Ha.
  destruct (truthyF (cfg_dailyLossLimit c)); [|discriminate].
  simpl in Hr. rewrite bind_run. unfold gets. rewrite Hr, Ha. reflexivity.
Qed.

Lemma checkRiskRules_reject_disable copierId c w row :
  riskExceeded copierId c w = true → cfg_autoDisable c = true →
  findConfig (db w) (cfg_id c) = Some row →
  let why := dailyLossMessage numberToString (dailyLossOf (todayTrades copierId c w)) in
  checkRiskRules numberToString copierId c w
  = (Ok {| allowed := false; reason := Some why |},
     set_db (λ _, set_copierAccountConfigs
                    (map (λ x, if String.eqb (cfg_id x) (cfg_id c) then cfg_disable why x else x))
                    (db w)) w).
Proof.
  intros Hr Ha Hrow why. subst why. revert Hr. unfold riskExceeded, checkRiskRules. intros Hr.
  destruct (truthyF (cfg_dailyLossLimit c)); [|discriminate].
  simpl in Hr. rewrite bind_run. unfold gets. rewrite Hr, Ha.
  rewrite !bind_run. unfold prisma, copierAccountConfig_update. rewrite Hrow.
  reflexivity.
Qed.

Lemma todayTrades_spec copierId c w t :
  In t (todayTrades copierId c w) ↔
    In t (trades (db w))
    ∧ t_copierId t = Some copierId
    ∧ t_accountId t = cfg_slaveAccountId c
    ∧ startOfLocalDay (clock w) (timezoneOffset w) <= t_createdAt t
    ∧ t_status t = FILLED.
Proof.
  unfold todayTrades, isTodayTrade. rewrite filter_In.
  rewrite !andb_true_iff, bool_decide_eq_true, Z.leb_le, String.eqb_eq.
  unfold refersTo. destruct (t_copierId t) as [r|].
  - rewrite String.eqb_eq. split.
    + intros (?&((->&?)&?)&?). done.
    + intros (?&[= ->]&?&?&?). done.
  - split; [intros (?&((?&?)&?)&?)|intros (?&?&?)]; done.
Qed.

Lemma findConfig_update d id f row :
  (∀ x, cfg_id (f x) = cfg_id x) →
  findConfig d id = Some row →
  findConfig
    (set_copierAccountConfigs (map (λ x, if String.eqb (cfg_id x) id then f x else x)) d) id
  = Some (f row).
Proof.
  intros Hid. unfold findConfig. simpl.
  induction (copierAccountConfigs d) as [|x l IH]; simpl; [done|].
  destruct (String.eqb (cfg_id x) id) eqn:E.
  - intros [= ->]. simpl. by rewrite Hid, E.
  - intros Hl. simpl. rewrite E. auto.
Qed.

Lemma fold_left_ext {X Y} (f g : Y → X → Y) (l : list X) (y : Y) :
  (∀ y x, f y x = g y x) → fold_left f l y = fold_left g l y.
Proof.
  intros Hfg. revert y. induction l as [|x l IH]; intros y; simpl; [done|].
  by rewrite Hfg, IH.
Qed.

(** The rows [checkRiskRules] reads and the sum it forms, written out. *)
Lemma dailyLossOf_todayTrades copierId c w :
  dailyLossOf (todayTrades copierId c w)
  = fold_left
      (λ sum t,
         (sum + match t_realizedPnL t with
                | Some pnl => if is_zero pnl || is_nan pnl then 0 else pnl
                | None => 0
                end)%float)
      (List.filter
         (λ t,
            match t_copierId t with Some id => String.eqb id copierId | None => false end
            && String.eqb (t_accountId t) (cfg_slaveAccountId c)
            && ((clock w + timezoneOffset w) / 86400000 * 86400000 - timezoneOffset w
                <=? t_createdAt t)
            && match t_status t with FILLED => true | _ => false end)
         (trades (db w)))
      0%float.
Proof.
  unfold dailyLossOf, todayTrades. rewrite (fold_left_ext _
    (λ sum t,
       (sum + match t_realizedPnL t with
              | Some pnl => if is_zero pnl || is_nan pnl then 0 else pnl
              | None => 0
              end)%float)).
  - f_equal. apply filter_ext. intros t. unfold isTodayTrade, refersTo, startOfLocalDay, msPerDay.
    f_equal. by destruct (t_status t).
  - intros sum t. unfold orF, truthyF. destruct (t_realizedPnL t) as [pnl|]; [|done].
    simpl. by destruct (is_zero pnl || is_nan pnl).
Qed.

(** C4, as the code has it.  The rows counted are the trades of this copier
    on the follower account with status FILLED that were created at or after
    the server's local midnight; their realised P&L (null, 0 and NaN counted
    as 0) is added up in double arithmetic, row by row, starting from 0.  For
    a limit that is set and truthy the gate rejects exactly when
    [limit <= |sum|] holds of that double (equality rejects); the reason names
    the sum, and with [autoDisable] the config row is switched off with that
    reason.  Otherwise nothing is written. *)
Theorem checkRiskRules_daily_loss copierId c w limit row :
  cfg_dailyLossLimit c = Some limit →
  is_zero limit = false →
  is_nan limit = false →
  findConfig (db w) (cfg_id c) = Some row →
  let midnight := (clock w + timezoneOffset w) / 86400000 * 86400000 - timezoneOffset w in
  let counted :=
    List.filter
      (λ t,
         match t_copierId t with Some id => String.eqb id copierId | None => false end
         && String.eqb (t_accountId t) (cfg_slaveAccountId c)
         && (midnight <=? t_createdAt t)
         && match t_status t with FILLED => true | _ => false end)
      (trades (db w)) in
  let sum :=
    fold_left
      (λ sum t,
         (sum + match t_realizedPnL t with
                | Some pnl => if is_zero pnl || is_nan pnl then 0 else pnl
                | None => 0
                end)%float)
      counted 0%float in
  let why := "Daily loss limit exceeded: " +:+ numberToString sum in
  ∃ rc w',
    checkRiskRules numberToString copierId c w = (Ok rc, w')
    ∧ (allowed rc = false ↔ (limit <=? abs sum)%float = true)
    ∧ (allowed rc = false → reason rc = Some why)
    ∧ (allowed rc = true → reason rc = None)
    ∧ (allowed rc = true ∨ cfg_autoDisable c = false → w' = w)
    ∧ (allowed rc = false → cfg_autoDisable c = true →
         findConfig (db w') (cfg_id c) = Some (cfg_disable why row)
         ∧ cfg_isActive (cfg_disable why row) = false
         ∧ cfg_disabledReason (cfg_disable why row) = Some why
         ∧ trades (db w') = trades (db w)).
Proof.
  intros Hlim Hzero Hnan Hrow midnight counted sum why.
  assert (Hsum : dailyLossOf (todayTrades copierId c w) = sum)
    by apply dailyLossOf_todayTrades.
  assert (Htruthy : truthyF (cfg_dailyLossLimit c) = true).
  { rewrite Hlim. unfold truthyF. by rewrite Hzero, Hnan. }
  assert (Hgate : riskExceeded copierId c w = (limit <=? abs sum)%float).
  { unfold riskExceeded. by rewrite Htruthy, Hlim, Hsum. }
  destruct (limit <=? abs sum)%float eqn:Hle.
  - destruct (cfg_autoDisable c) eqn:Ha.
    + eexists _, _. split; [by apply (checkRiskRules_reject_disable _ _ _ row)|].
      unfold dailyLossMessage. rewrite Hsum. fold why.
      simpl. repeat split; try done.
      * intros [|]; done.
      * by apply findConfig_update.
    + eexists _, _. split; [by apply checkRiskRules_reject_keep|].
      unfold dailyLossMessage. rewrite Hsum. fold why.
      simpl. repeat split; done.
  - eexists _, _. split; [by apply checkRiskRules_pass|].
    simpl. repeat split; try done.
Qed.

(** ** What the engine keeps of the database *)

Global Instance dbGrows_preorder : PreOrder dbGrows.
Proof.
  split.
  - intros d. split; try done. exists []. by rewrite app_nil_r.
  - intros d1 d2 d3 [Hc1 Ha1 [e1 Ht1] Hn1 Hu1] [Hc2 Ha2 [e2 Ht2] Hn2 Hu2].
    split; try congruence; try lia; [|auto].
    exists (e1 ++ e2). by rewrite Ht2, Ht1, app_assoc.
Qed.

Global Instance grows_preorder : PreOrder (@grows A).
Proof.
  split.
  - intros w. by split.
  - intros w1 w2 w3 [Hd1 Hc1] [Hd2 Hc2]. split; [by etrans | congruence].
Qed.

Global Instance quiet_preorder : PreOrder (@quiet A).
Proof.
  split.
  - intros w. by split.
  - intros w1 w2 w3 [Hd1 Hc1] [Hd2 Hc2]. split; congruence.
Qed.

Lemma trade_create_grows data d : dbGrows d (trade_create data d).2.
Proof.
  unfold trade_create. repeat case_match; simpl; try reflexivity.
  split; simpl; try done; [by eexists | lia].
Qed.

Lemma sameMappingKey_free k1 k2 l :
  existsb (sameMappingKey k1 k2) l = false → (k1, k2) ∉ map mappingKey l.
Proof.
  intros Hex Hin. apply list_elem_of_In, in_map_iff in Hin as (m & Hm & Hin).
  apply not_true_iff_false in Hex. apply Hex, existsb_exists. exists m. split; [done|].
  unfold mappingKey in Hm. injection Hm as <- <-.
  unfold sameMappingKey. by rewrite !String.eqb_refl.
Qed.

Lemma tradeMapping_create_grows data d : dbGrows d (tradeMapping_create data d).2.
Proof.
  unfold tradeMapping_create. repeat case_match; simpl; try reflexivity.
  split; simpl; try done; [by exists []; rewrite app_nil_r | lia |].
  intros Hnd. rewrite map_app. simpl. apply NoDup_app. split; [done|].
  split; [|apply NoDup_singleton].
  intros k Hk ->%list_elem_of_singleton. revert Hk.
  by apply sameMappingKey_free.
Qed.

Lemma executionLog_create_grows data d : dbGrows d (executionLog_create data d).2.
Proof.
  unfold executionLog_create. repeat case_match; simpl; try reflexivity.
  split; simpl; try done; [by exists []; rewrite app_nil_r | lia].
Qed.

Lemma copierAccountConfig_update_grows id data d :
  dbGrows d (copierAccountConfig_update id data d).2.
Proof.
  unfold copierAccountConfig_update. case_match; simpl; [|reflexivity].
  split; simpl; try done. exists []. by rewrite app_nil_r.
Qed.

Lemma prisma_grows {X} (op : DB → Result X * DB) :
  (∀ d, dbGrows d (op d).2) → preserves (@grows A) (prisma op).
Proof.
  intros Hop w. unfold prisma. specialize (Hop (db w)).
  destruct (op (db w)) as [r d]. by split.
Qed.

Lemma prisma_quiet {X} (op : DB → Result X * DB) : preserves (@quiet A) (prisma op).
Proof. intros w. unfold prisma. destruct (op (db w)) as [r d]. by split. Qed.

Lemma log_grows level message : preserves (@grows A) (log level message).
Proof. intros w. split; simpl; reflexivity. Qed.

Lemma log_quiet level message : preserves (@quiet A) (log level message).
Proof. intros w. by split. Qed.

Lemma getAdapter_grows platform firm : preserves (@grows A) (getAdapter platform firm).
Proof. intros w. unfold getAdapter. case_match; simpl; reflexivity. Qed.

Lemma adapterIsConnected_grows key : preserves (@grows A) (adapterIsConnected key).
Proof. intros w. unfold adapterIsConnected. case_match; simpl; reflexivity. Qed.

Lemma onAdapter_grows {X} key call (method : M A X) : preserves (@grows A) (onAdapter key call method).
Proof.
  intros w. unfold onAdapter. case_match; simpl; [|reflexivity].
  destruct (method _) as [r a']. simpl. split; simpl; reflexivity.
Qed.

Create HintDb frames.
#[local] Hint Resolve log_grows getAdapter_grows adapterIsConnected_grows onAdapter_grows
  log_quiet : frames.
#[local] Hint Extern 1 (preserves (@grows A) (prisma _)) =>
  apply prisma_grows; intros ?;
  first [ apply trade_create_grows | apply tradeMapping_create_grows
        | apply executionLog_create_grows | apply copierAccountConfig_update_grows ] : frames.
#[local] Hint Extern 1 (preserves (@quiet A) (prisma _)) => apply prisma_quiet : frames.

Ltac frame := repeat first [ frame_step | solve [eauto with frames] ].

Lemma checkRiskRules_grows copierId c : preserves (@grows A) (checkRiskRules numberToString copierId c).
Proof. unfold checkRiskRules. frame. Qed.

Lemma copyTradeToSlave_catch_grows copierId masterTrade sid e :
  preserves (@grows A) (copyTradeToSlave_catch copierId masterTrade sid e).
Proof. unfold copyTradeToSlave_catch. frame. Qed.

Lemma recordCopy_grows copierId masterTrade sid q e :
  preserves (@grows A) (recordCopy numberToString copierId masterTrade sid q e).
Proof. unfold recordCopy. frame. Qed.

Lemma copyTradeToSlave_catch_quiet copierId masterTrade sid e :
  preserves (@quiet A) (copyTradeToSlave_catch copierId masterTrade sid e).
Proof. unfold copyTradeToSlave_catch. frame. Qed.

Lemma recordCopy_quiet copierId masterTrade sid q e :
  preserves (@quiet A) (recordCopy numberToString copierId masterTrade sid q e).
Proof. unfold recordCopy. frame. Qed.

Lemma copyTradeToSlave_grows copierId masterTrade sc :
  preserves (@grows A) (copyTradeToSlave numberToString copierId masterTrade sc).
Proof.
  unfold copyTradeToSlave, ensureConnected.
  pose proof checkRiskRules_grows. pose proof copyTradeToSlave_catch_grows.
  pose proof recordCopy_grows. frame.
Qed.

Lemma fanOut_grows copierId masterTrade scs :
  preserves (@grows A) (fanOut numberToString copierId masterTrade scs).
Proof.
  intros w. unfold fanOut.
  pose proof (preserves_allSettled (@grows A)
                (map (copyTradeToSlave numberToString copierId masterTrade) scs)) as Hall.
  destruct (allSettled _ w) as [rs w'] eqn:E. simpl.
  specialize (Hall ltac:(apply Forall_map, Forall_forall; intros; apply copyTradeToSlave_grows) w).
  by rewrite E in Hall.
Qed.

(** ** One follower, step by step *)

Lemma afterConnect_adapter key account a a1 w :
  adapters w !! key = Some a → ready account a a1 →
  adapters (afterConnect key account a a1 w) !! key = Some a1.
Proof.
  intros Ha [[Hc ->]|[Hc _]]; unfold afterConnect; rewrite Hc; [done|].
  simpl. apply lookup_insert_eq.
Qed.

Lemma afterConnect_db key account a a1 w : db (afterConnect key account a a1 w) = db w.
Proof. unfold afterConnect. by case_match. Qed.

Lemma afterConnect_clock key account a a1 w : clock (afterConnect key account a a1 w) = clock w.
Proof. unfold afterConnect. by case_match. Qed.

Lemma afterConnect_logger key account a a1 w :
  logger (afterConnect key account a a1 w) = logger w.
Proof. unfold afterConnect. by case_match. Qed.

Lemma afterConnect_placedOrders key account a a1 w :
  placedOrders (afterConnect key account a a1 w) = placedOrders w.
Proof.
  unfold afterConnect, placedOrders. case_match; [done|]. simpl.
  rewrite List.filter_app. simpl. by rewrite app_nil_r.
Qed.

Lemma ensureConnected_ready key account a a1 w :
  adapters w !! key = Some a → ready account a a1 →
  ensureConnected key account w = (Ok tt, afterConnect key account a a1 w).
Proof.
  intros Ha Hr. unfold ensureConnected, afterConnect. rewrite bind_run.
  unfold adapterIsConnected. rewrite Ha.
  destruct Hr as [[Hc ->]|[Hc Hconn]]; rewrite Hc; simpl; [done|].
  unfold onAdapter. by rewrite Ha, Hconn.
Qed.

Lemma ensureConnected_fails key account a a1 message w :
  adapters w !! key = Some a → isConnected a = false →
  connect (engineConnectionConfig account) a = (Err message, a1) →
  ensureConnected key account w
  = (Err message,
     set_adapters (insert key a1)
       (set_calls (λ cs, cs ++ [(key, CallConnect (engineConnectionConfig account))]) w)).
Proof.
  intros Ha Hc Hconn. unfold ensureConnected. rewrite bind_run.
  unfold adapterIsConnected. rewrite Ha, Hc. simpl.
  unfold onAdapter. by rewrite Ha, Hconn.
Qed.

Lemma log_run level message w :
  log level message w = (Ok tt, set_logger (λ ls, ls ++ [(level, message)]) w).
Proof. reflexivity. Qed.

Lemma gets_run {X} (f : @World A → X) w : gets f w = (Ok (f w), w).
Proof. reflexivity. Qed.

Lemma prisma_run {X} (op : DB → Result X * DB) w :
  prisma op w = ((op (db w)).1, set_db (λ _, (op (db w)).2) w).
Proof. unfold prisma. by destruct (op (db w)). Qed.

Lemma trade_create_ok data d account :
  copierRefOk d (t_copierId (data (cuid (nextId d)))) = true →
  findAccount d (t_accountId (data (cuid (nextId d)))) = Some account →
  trade_create data d
  = (Ok (data (cuid (nextId d))),
     bump_nextId (set_trades (λ ts, ts ++ [data (cuid (nextId d))]) d)).
Proof.
  intros Hc Ha. unfold trade_create. rewrite Hc, Ha. simpl.
  try rewrite bool_decide_eq_true_2 by eauto. done.
Qed.

Lemma tradeMapping_create_ok data d copier :
  findCopier d (tm_copierId (data (cuid (nextId d)))) = Some copier →
  existsb (sameMappingKey (tm_masterTradeId (data (cuid (nextId d))))
                          (tm_slaveAccountId (data (cuid (nextId d)))))
          (tradeMappings d) = false →
  tradeMapping_create data d
  = (Ok (data (cuid (nextId d))),
     bump_nextId (set_tradeMappings (λ ms, ms ++ [data (cuid (nextId d))]) d)).
Proof.
  intros Hc Hfree. unfold tradeMapping_create. rewrite Hc, Hfree. simpl.
  try rewrite bool_decide_eq_true_2 by eauto. done.
Qed.

Lemma executionLog_create_ok data d copier :
  findCopier d (l_copierId (data (cuid (nextId d)))) = Some copier →
  executionLog_create data d
  = (Ok (data (cuid (nextId d))),
     bump_nextId (set_executionLogs (λ ls, ls ++ [data (cuid (nextId d))]) d)).
Proof.
  intros Hc. unfold executionLog_create. rewrite Hc. simpl.
  try rewrite bool_decide_eq_true_2 by eauto. done.
Qed.

Lemma getAdapter_run platform firm w a :
  adapters w !! getKey platform firm = Some a →
  getAdapter platform firm w = (Ok (getKey platform firm), w).
Proof. intros Ha. unfold getAdapter. by rewrite Ha. Qed.

Lemma onAdapter_run {X} key call (method : M A X) w a :
  adapters w !! key = Some a →
  onAdapter key call method w
  = ((method a).1,
     set_adapters (insert key (method a).2) (set_calls (λ cs, cs ++ [(key, call)]) w)).
Proof. intros Ha. unfold onAdapter. rewrite Ha. by destruct (method a). Qed.

(** The [catch] block, when the copier row is there and the mapping key is free. *)
Lemma copyTradeToSlave_catch_run copierId masterTrade sid message copier w :
  findCopier (db w) copierId = Some copier →
  existsb (sameMappingKey (t_id masterTrade) sid) (tradeMappings (db w)) = false →
  ∃ w',
    copyTradeToSlave_catch copierId masterTrade sid message w = (Ok tt, w')
    ∧ tradeMappings (db w')
      = tradeMappings (db w)
        ++ [failedMapping copierId (t_id masterTrade) sid message (cuid (nextId (db w)))]
    ∧ executionLogs (db w')
      = executionLogs (db w)
        ++ [copyFailedLog copierId (t_id masterTrade) sid message (clock w)
                          (cuid (S (nextId (db w))))]
    ∧ trades (db w') = trades (db w)
    ∧ calls w' = calls w
    ∧ adapters w' = adapters w.
Proof.
  intros Hcop Hfree. unfold copyTradeToSlave_catch.
  rewrite bind_run, log_run, bind_run, gets_run, bind_run, prisma_run.
  rewrite (tradeMapping_create_ok _ _ copier) by done.
  cbn [fst snd]. rewrite bind_run, prisma_run.
  rewrite (executionLog_create_ok _ _ copier) by done.
  eexists. split; [reflexivity|]. done.
Qed.

(** The statements after a successful [placeOrder], when the rows referred to
    are there and the mapping key is free. *)
Lemma recordCopy_run copierId masterTrade sid q execution copier account w :
  findCopier (db w) copierId = Some copier →
  findAccount (db w) sid = Some account →
  existsb (sameMappingKey (t_id masterTrade) sid) (tradeMappings (db w)) = false →
  let slaveTrade :=
    slaveTradeData copierId masterTrade sid execution (clock w) (cuid (nextId (db w))) in
  ∃ w',
    recordCopy numberToString copierId masterTrade sid q execution w = (Ok tt, w')
    ∧ trades (db w') = trades (db w) ++ [slaveTrade]
    ∧ tradeMappings (db w')
      = tradeMappings (db w)
        ++ [syncedMapping copierId (t_id masterTrade) (t_id slaveTrade) sid (clock w)
                          (cuid (S (nextId (db w))))]
    ∧ executionLogs (db w')
      = executionLogs (db w)
        ++ [copiedLog copierId (t_id masterTrade) (t_id slaveTrade) sid (clock w)
                      (cuid (S (S (nextId (db w)))))]
    ∧ calls w' = calls w
    ∧ adapters w' = adapters w.
Proof.
  intros Hcop Hacc Hfree slaveTrade. unfold recordCopy.
  rewrite bind_run, gets_run, bind_run, prisma_run.
  rewrite (trade_create_ok _ _ account); [| by simpl; unfold copierRefOk; rewrite Hcop | done].
  cbn [fst snd]. rewrite bind_run, prisma_run.
  rewrite (tradeMapping_create_ok _ _ copier) by done.
  cbn [fst snd]. rewrite bind_run, log_run, bind_run, prisma_run.
  rewrite (executionLog_create_ok _ _ copier) by done.
  eexists. split; [reflexivity|]. done.
Qed.

Lemma afterPlaceOrder_db key account order a a1 a2 w :
  db (afterPlaceOrder key account order a a1 a2 w) = db w.
Proof. unfold afterPlaceOrder. simpl. apply afterConnect_db. Qed.

Lemma afterPlaceOrder_clock key account order a a1 a2 w :
  clock (afterPlaceOrder key account order a a1 a2 w) = clock w.
Proof. unfold afterPlaceOrder. simpl. apply afterConnect_clock. Qed.

Lemma afterPlaceOrder_placedOrders key account order a a1 a2 w :
  placedOrders (afterPlaceOrder key account order a a1 a2 w)
  = placedOrders w ++ [(key, CallPlaceOrder order)].
Proof.
  unfold afterPlaceOrder, placedOrders. simpl. rewrite List.filter_app. simpl.
  f_equal. apply afterConnect_placedOrders.
Qed.

(** A follower that passes the gate with a positive size on a usable adapter
    gets exactly one [placeOrder]; what follows depends on its answer. *)
Lemma copyTradeToSlave_reaches_placeOrder w copierId masterTrade sc a a1 :
  let sid := cfg_slaveAccountId (config sc) in
  let key := getKey (a_platform (slaveAccount sc)) (a_firm (slaveAccount sc)) in
  let q := calculateScaledQuantity (t_quantity masterTrade) (config sc) (slaveAccount sc) in
  let order := slaveOrderOf masterTrade q in
  riskExceeded copierId (config sc) w = false →
  0 < q →
  adapters w !! key = Some a →
  ready (slaveAccount sc) a a1 →
  copyTradeToSlave numberToString copierId masterTrade sc w
  = let w2 := afterPlaceOrder key (slaveAccount sc) order a a1 (placeOrder order a1).2 w in
    match (placeOrder order a1).1 with
    | Ok execution =>
        tryCatch (recordCopy numberToString copierId masterTrade sid q execution)
                 (copyTradeToSlave_catch copierId masterTrade sid) w2
    | Err message => copyTradeToSlave_catch copierId masterTrade sid message w2
    end.
Proof.
  intros sid key q order Hrisk Hq Ha Hready.
  unfold copyTradeToSlave. rewrite tryCatch_run, bind_run.
  rewrite (checkRiskRules_pass _ _ _ Hrisk). cbn [allowed negb].
  fold q. destruct (Z.leb_spec q 0) as [|_]; [lia|].
  rewrite bind_run. unfold getAdapter at 1. fold key. rewrite Ha.
  rewrite bind_run, (ensureConnected_ready _ _ _ _ _ Ha Hready).
  rewrite bind_run. unfold onAdapter at 1.
  rewrite (afterConnect_adapter _ _ _ _ _ Ha Hready). fold order sid.
  cbv zeta. unfold afterPlaceOrder.
  destruct (placeOrder order a1) as [[execution|message] a2]; reflexivity.
Qed.

(** C5 for one follower: [placeOrder] fails. *)
Lemma copyTradeToSlave_placeOrder_Err w copierId masterTrade sc a a1 a2 message copier :
  let sid := cfg_slaveAccountId (config sc) in
  let key := getKey (a_platform (slaveAccount sc)) (a_firm (slaveAccount sc)) in
  let q := calculateScaledQuantity (t_quantity masterTrade) (config sc) (slaveAccount sc) in
  riskExceeded copierId (config sc) w = false →
  0 < q →
  adapters w !! key = Some a →
  ready (slaveAccount sc) a a1 →
  placeOrder (slaveOrderOf masterTrade q) a1 = (Err message, a2) →
  findCopier (db w) copierId = Some copier →
  existsb (sameMappingKey (t_id masterTrade) sid) (tradeMappings (db w)) = false →
  ∃ w',
    copyTradeToSlave numberToString copierId masterTrade sc w = (Ok tt, w')
    ∧ tradeMappings (db w')
      = tradeMappings (db w)
        ++ [failedMapping copierId (t_id masterTrade) sid message (cuid (nextId (db w)))]
    ∧ executionLogs (db w')
      = executionLogs (db w)
        ++ [copyFailedLog copierId (t_id masterTrade) sid message (clock w)
                          (cuid (S (nextId (db w))))]
    ∧ trades (db w') = trades (db w).
Proof.
  intros sid key q Hrisk Hq Ha Hready Hplace Hcop Hfree.
  rewrite (copyTradeToSlave_reaches_placeOrder _ _ _ _ a a1) by done.
  fold key q. rewrite Hplace. cbn [fst snd].
  set (w2 := afterPlaceOrder _ _ _ _ _ _ _).
  destruct (copyTradeToSlave_catch_run copierId masterTrade sid message copier w2)
    as (w' & Hrun & Hm & Hl & Ht & _).
  { unfold w2. by rewrite afterPlaceOrder_db. }
  { unfold w2. by rewrite afterPlaceOrder_db. }
  exists w'. split; [done|].
  unfold w2 in *. rewrite afterPlaceOrder_db, ?afterPlaceOrder_clock in *. done.
Qed.

Lemma allSettled_app {S X} (ps qs : list (M S X)) (s : S) :
  allSettled (ps ++ qs) s
  = let '(rs1, s1) := allSettled ps s in
    let '(rs2, s2) := allSettled qs s1 in
    (rs1 ++ rs2, s2).
Proof.
  revert s. induction ps as [|p ps IH]; intros s; simpl.
  - by destruct (allSettled qs s).
  - destruct (p s) as [r s']. rewrite IH.
    destruct (allSettled ps s') as [rs1 s1]. by destruct (allSettled qs s1).
Qed.

Lemma allSettled_cons {S X} (p : M S X) (ps : list (M S X)) (s : S) :
  allSettled (p :: ps) s
  = let '(r, s') := p s in
    let '(rs, s'') := allSettled ps s' in
    (r :: rs, s'').
Proof. reflexivity. Qed.

(** A follower whose [placeOrder] fails, in a fan-out that has reached its
    turn in state [w]. *)
Lemma fanOut_placeOrder_Err
    w0 w copierId masterTrade before sc after rs a a1 a2 message copier :
  let run := copyTradeToSlave numberToString copierId masterTrade in
  let sid := cfg_slaveAccountId (config sc) in
  let key := getKey (a_platform (slaveAccount sc)) (a_firm (slaveAccount sc)) in
  let q := calculateScaledQuantity (t_quantity masterTrade) (config sc) (slaveAccount sc) in
  allSettled (map run before) w0 = (rs, w) →
  riskExceeded copierId (config sc) w = false →
  0 < q →
  adapters w !! key = Some a →
  ready (slaveAccount sc) a a1 →
  placeOrder (slaveOrderOf masterTrade q) a1 = (Err message, a2) →
  findCopier (db w) copierId = Some copier →
  existsb (sameMappingKey (t_id masterTrade) sid) (tradeMappings (db w)) = false →
  ∃ w' mapping entry,
    run sc w = (Ok tt, w')
    ∧ tradeMappings (db w') = tradeMappings (db w) ++ [mapping]
    ∧ tm_status mapping = "failed"
    ∧ tm_slaveTradeId mapping = ""
    ∧ tm_errorMessage mapping = Some message
    ∧ mappingKey mapping = (t_id masterTrade, sid)
    ∧ executionLogs (db w') = executionLogs (db w) ++ [entry]
    ∧ l_level entry = "error"
    ∧ l_message entry = "Failed to copy trade to slave: " +:+ message
    ∧ l_slaveAccountId entry = Some sid
    ∧ trades (db w') = trades (db w)
    ∧ fanOut numberToString copierId masterTrade (before ++ sc :: after) w0
      = (Ok (rs ++ Ok tt :: (allSettled (map run after) w').1),
         (allSettled (map run after) w').2).
Proof.
  intros run sid key q Hbefore Hrisk Hq Ha Hready Hplace Hcop Hfree.
  destruct (copyTradeToSlave_placeOrder_Err w copierId masterTrade sc a a1 a2 message copier)
    as (w' & Hrun & Hm & Hl & Ht); try done.
  eexists w', _, _. split; [exact Hrun|].
  split; [exact Hm|]. do 4 (split; [reflexivity|]).
  split; [exact Hl|]. do 3 (split; [reflexivity|]).
  split; [exact Ht|].
  unfold fanOut. rewrite map_app, allSettled_app. fold run. rewrite Hbefore.
  rewrite map_cons, allSettled_cons. fold run in Hrun. rewrite Hrun.
  by destruct (allSettled (map run after) w').
Qed.

(** C6, as the code has it: a rejection by the gate is written to the
    process logger at level [warn], with the reason; the [ExecutionLog] table
    gets no row, no adapter is called, and the follower task fulfils. *)
Theorem copyTradeToSlave_risk_rejected w copierId masterTrade sc :
  let sid := cfg_slaveAccountId (config sc) in
  let why :=
    dailyLossMessage numberToString (dailyLossOf (todayTrades copierId (config sc) w)) in
  riskExceeded copierId (config sc) w = true →
  (cfg_autoDisable (config sc) = true → is_Some (findConfig (db w) (cfg_id (config sc)))) →
  ∃ w',
    copyTradeToSlave numberToString copierId masterTrade sc w = (Ok tt, w')
    ∧ logger w' = logger w ++ [("warn", "Risk rule violated for slave " +:+ sid +:+ ": " +:+ why)]
    ∧ executionLogs (db w') = executionLogs (db w)
    ∧ calls w' = calls w
    ∧ trades (db w') = trades (db w)
    ∧ tradeMappings (db w') = tradeMappings (db w).
Proof.
  intros sid why Hrisk Hrow. unfold copyTradeToSlave.
  rewrite tryCatch_run, bind_run.
  destruct (cfg_autoDisable (config sc)) eqn:Hauto.
  - destruct Hrow as [row Hrow]; [done|].
    rewrite (checkRiskRules_reject_disable _ _ _ row Hrisk Hauto Hrow).
    cbn [allowed reason negb]. rewrite log_run.
    eexists. split; [reflexivity|]. done.
  - rewrite (checkRiskRules_reject_keep _ _ _ Hrisk Hauto).
    cbn [allowed reason negb]. rewrite log_run.
    eexists. split; [reflexivity|]. done.
Qed.

(** C2, as the code has it: [maxContracts] plays no part.  The size sent to
    the follower is the scaled quantity itself, and the follower is skipped
    only when that quantity is not positive. *)
Theorem copyTradeToSlave_ignores_maxContracts w copierId masterTrade sc a a1 :
  let run := copyTradeToSlave numberToString copierId masterTrade in
  let sid := cfg_slaveAccountId (config sc) in
  let key := getKey (a_platform (slaveAccount sc)) (a_firm (slaveAccount sc)) in
  let q := calculateScaledQuantity (t_quantity masterTrade) (config sc) (slaveAccount sc) in
  riskExceeded copierId (config sc) w = false →
  adapters w !! key = Some a →
  ready (slaveAccount sc) a a1 →
  (∀ cap, calculateScaledQuantity (t_quantity masterTrade)
            (cfg_set_maxContracts cap (config sc)) (slaveAccount sc) = q)
  ∧ (q <= 0 →
       run sc w = (Ok tt, set_logger (λ ls, ls ++ [("warn", "Scaled quantity is 0 for slave " +:+ sid)]) w))
  ∧ (0 < q →
       placedOrders (run sc w).2
       = placedOrders w ++ [(key, CallPlaceOrder (slaveOrderOf masterTrade q))]
       ∧ o_quantity (slaveOrderOf masterTrade q) = q).
Proof.
  intros run sid key q Hrisk Ha Hready. split; [|split].
  - intros cap. by apply calculateScaledQuantity_maxContracts.
  - intros Hq. unfold run, copyTradeToSlave. rewrite tryCatch_run, bind_run.
    rewrite (checkRiskRules_pass _ _ _ Hrisk). cbn [allowed negb]. fold q.
    destruct (Z.leb_spec q 0) as [_|]; [|lia]. by rewrite log_run.
  - intros Hq. split; [|done]. unfold run.
    rewrite (copyTradeToSlave_reaches_placeOrder _ _ _ _ a a1) by done.
    fold key q sid. cbv zeta.
    set (w2 := afterPlaceOrder _ _ _ _ _ _ _).
    assert (Hw2 : placedOrders w2
                  = placedOrders w ++ [(key, CallPlaceOrder (slaveOrderOf masterTrade q))])
      by apply afterPlaceOrder_placedOrders.
    rewrite <- Hw2. unfold placedOrders. f_equal.
    destruct (placeOrder _ a1).1 as [execution|message].
    + pose proof (preserves_tryCatch (@quiet A)
                    (recordCopy numberToString copierId masterTrade sid q execution)
                    (copyTradeToSlave_catch copierId masterTrade sid)
                    (recordCopy_quiet _ _ _ _ _)
                    (copyTradeToSlave_catch_quiet _ _ _) w2) as [Hc _].
      exact Hc.
    + pose proof (copyTradeToSlave_catch_quiet copierId masterTrade sid message w2) as [Hc _].
      exact Hc.
Qed.

(** ** The mapping key of a follower is free at its turn *)

Lemma grows_findCopier w w' id : grows w w' → findCopier (db w') id = findCopier (db w) id.
Proof. intros [[Hc _ _ _ _] _]. unfold findCopier. by rewrite Hc. Qed.

Lemma grows_findAccount w w' id : grows w w' → findAccount (db w') id = findAccount (db w) id.
Proof. intros [[_ Ha _ _ _] _]. unfold findAccount. by rewrite Ha. Qed.

Global Instance dbMapsOnly_preorder mid sids : PreOrder (dbMapsOnly mid sids).
Proof.
  split.
  - intros d. exists []. by rewrite app_nil_r.
  - intros d1 d2 d3 (e1 & H1 & F1) (e2 & H2 & F2). exists (e1 ++ e2).
    split; [by rewrite H2, H1, app_assoc | by apply Forall_app].
Qed.

Global Instance mapsOnly_preorder mid sids : PreOrder (@mapsOnly A mid sids).
Proof.
  split.
  - intros w. unfold mapsOnly. reflexivity.
  - intros w1 w2 w3. unfold mapsOnly. apply transitivity.
Qed.

Lemma dbMapsOnly_same mid sids d d' : tradeMappings d' = tradeMappings d → dbMapsOnly mid sids d d'.
Proof. intros H. exists []. by rewrite app_nil_r. Qed.

Lemma trade_create_mapsOnly mid sids data d : dbMapsOnly mid sids d (trade_create data d).2.
Proof. unfold trade_create. repeat case_match; by apply dbMapsOnly_same. Qed.

Lemma executionLog_create_mapsOnly mid sids data d :
  dbMapsOnly mid sids d (executionLog_create data d).2.
Proof. unfold executionLog_create. repeat case_match; by apply dbMapsOnly_same. Qed.

Lemma copierAccountConfig_update_mapsOnly mid sids id data d :
  dbMapsOnly mid sids d (copierAccountConfig_update id data d).2.
Proof. unfold copierAccountConfig_update. repeat case_match; by apply dbMapsOnly_same. Qed.

Lemma tradeMapping_create_mapsOnly mid sids data d :
  (∀ id, tm_masterTradeId (data id) = mid ∧ In (tm_slaveAccountId (data id)) sids) →
  dbMapsOnly mid sids d (tradeMapping_create data d).2.
Proof.
  intros Hdata. unfold tradeMapping_create. repeat case_match; try by apply dbMapsOnly_same.
  simpl. eexists. split; [reflexivity|]. by apply Forall_singleton.
Qed.

Lemma prisma_mapsOnly {X} mid sids (op : DB → Result X * DB) :
  (∀ d, dbMapsOnly mid sids d (op d).2) → preserves (@mapsOnly A mid sids) (prisma op).
Proof.
  intros Hop w. unfold prisma, mapsOnly. specialize (Hop (db w)).
  by destruct (op (db w)) as [r d].
Qed.

Lemma quiet_mapsOnly {X} mid sids (m : M (@World A) X) :
  (∀ w, db (m w).2 = db w) → preserves (@mapsOnly A mid sids) m.
Proof. intros H w. unfold mapsOnly. rewrite H. reflexivity. Qed.

Lemma copyTradeToSlave_mapsOnly copierId masterTrade sc :
  preserves (@mapsOnly A (t_id masterTrade) [cfg_slaveAccountId (config sc)])
            (copyTradeToSlave numberToString copierId masterTrade sc).
Proof.
  assert (Hlog : ∀ level message,
            preserves (@mapsOnly A (t_id masterTrade) [cfg_slaveAccountId (config sc)])
                      (log level message))
    by (intros; by apply quiet_mapsOnly).
  assert (Hget : ∀ platform firm,
            preserves (@mapsOnly A (t_id masterTrade) [cfg_slaveAccountId (config sc)])
                      (getAdapter platform firm))
    by (intros; apply quiet_mapsOnly; intros w; unfold getAdapter; by case_match).
  assert (Hconn : ∀ key,
            preserves (@mapsOnly A (t_id masterTrade) [cfg_slaveAccountId (config sc)])
                      (adapterIsConnected key))
    by (intros; apply quiet_mapsOnly; intros w; unfold adapterIsConnected; by case_match).
  assert (Hon : ∀ X key call (method : M A X),
            preserves (@mapsOnly A (t_id masterTrade) [cfg_slaveAccountId (config sc)])
                      (onAdapter key call method)).
  { intros. apply quiet_mapsOnly. intros w. unfold onAdapter. case_match; [|done].
    by destruct (method _). }
  assert (Hprisma : ∀ X (op : DB → Result X * DB),
            (∀ d, dbMapsOnly (t_id masterTrade) [cfg_slaveAccountId (config sc)] d (op d).2) →
            preserves (@mapsOnly A (t_id masterTrade) [cfg_slaveAccountId (config sc)])
                      (prisma op))
    by (intros; by apply prisma_mapsOnly).
  unfold copyTradeToSlave, checkRiskRules, ensureConnected, recordCopy, copyTradeToSlave_catch.
  repeat first
    [ frame_step
    | apply Hlog | apply Hget | apply Hconn | apply Hon
    | apply Hprisma; intros ?;
      first [ apply trade_create_mapsOnly | apply executionLog_create_mapsOnly
            | apply copierAccountConfig_update_mapsOnly
            | apply tradeMapping_create_mapsOnly; intros ?; simpl; by auto ] ].
Qed.

Lemma mapsOnly_mono mid sids sids' (w w' : @World A) :
  (∀ s, In s sids → In s sids') → mapsOnly mid sids w w' → mapsOnly mid sids' w w'.
Proof.
  intros Hsub (extra & Heq & Hall). exists extra. split; [done|].
  eapply Forall_impl; [exact Hall|]. intros m [? ?]. auto.
Qed.

Lemma allSettled_mapsOnly copierId masterTrade scs w :
  mapsOnly (t_id masterTrade) (map (λ sc, cfg_slaveAccountId (config sc)) scs) w
    (allSettled (map (copyTradeToSlave numberToString copierId masterTrade) scs) w).2.
Proof.
  revert w. induction scs as [|sc scs IH]; intros w; [simpl; reflexivity|].
  cbn [map]. rewrite allSettled_cons.
  pose proof (copyTradeToSlave_mapsOnly copierId masterTrade sc w) as H1.
  destruct (copyTradeToSlave _ _ _ sc w) as [r w1]. specialize (IH w1).
  destruct (allSettled _ w1) as [rs w2]. simpl in *.
  etrans; [eapply mapsOnly_mono; [|exact H1] | eapply mapsOnly_mono; [|exact IH]].
  - intros s [<-|[]]. by left.
  - intros s Hs. by right.
Qed.

(** At a follower's turn in the fan-out of a freshly inserted master trade the
    copier row is still there and the follower's mapping key is free: the
    followers before it only wrote mappings of their own accounts. *)
Lemma fanOut_turn w1 copierId masterTrade before sc rs w copier :
  allSettled (map (copyTradeToSlave numberToString copierId masterTrade) before) w1 = (rs, w) →
  findCopier (db w1) copierId = Some copier →
  (∀ m, In m (tradeMappings (db w1)) → tm_masterTradeId m ≠ t_id masterTrade) →
  ¬ In (cfg_slaveAccountId (config sc)) (map (λ sc, cfg_slaveAccountId (config sc)) before) →
  findCopier (db w) copierId = Some copier
  ∧ existsb (sameMappingKey (t_id masterTrade) (cfg_slaveAccountId (config sc)))
            (tradeMappings (db w)) = false.
Proof.
  intros Hrun Hcop Hfresh Hnew.
  pose proof (preserves_allSettled (@grows A)
                (map (copyTradeToSlave numberToString copierId masterTrade) before)
                ltac:(apply Forall_map, Forall_forall; intros; apply copyTradeToSlave_grows)
                w1) as Hg.
  pose proof (allSettled_mapsOnly copierId masterTrade before w1) as (extra & Hm & Hall).
  rewrite Hrun in *. simpl in *. split.
  - by rewrite (grows_findCopier w1 w).
  - apply not_true_is_false. intros (m & Hin & Hkey)%existsb_exists.
    unfold sameMappingKey in Hkey.
    apply andb_true_iff in Hkey as [Hmid%String.eqb_eq Hsid%String.eqb_eq].
    rewrite Hm in Hin. apply in_app_or in Hin as [Hin|Hin].
    + by apply (Hfresh m).
    + rewrite Forall_forall in Hall. apply list_elem_of_In, Hall in Hin as [_ Hin].
      apply Hnew. by rewrite <- Hsid.
Qed.

(** The state in which the fan-out of a delivery starts. *)
Lemma handleMasterTrade_fanOut_start w copierId execution copier account :
  findCopier (db w) copierId = Some copier →
  c_status copier = ACTIVE →
  findAccount (db w) (c_masterAccountId copier) = Some account →
  unusedIds (db w) →
  let masterTrade := masterTradeData copierId copier execution (clock w) (cuid (nextId (db w))) in
  let w1 := set_db (λ _, bump_nextId (set_trades (λ ts, ts ++ [masterTrade]) (db w))) w in
  handleMasterTrade numberToString copierId execution w
  = (Ok tt, (fanOut numberToString copierId masterTrade
                    (activeSlaveConfigs (db w) copierId) w1).2)
  ∧ findCopier (db w1) copierId = Some copier
  ∧ (∀ m, In m (tradeMappings (db w1)) → tm_masterTradeId m ≠ t_id masterTrade).
Proof.
  intros Hcop Hact Hacc Hids masterTrade w1. split; [|split].
  - unfold handleMasterTrade.
    rewrite tryCatch_run, bind_run, gets_run, bind_run, gets_run, Hcop, Hact.
    rewrite bool_decide_eq_true_2 by done. cbn [negb].
    rewrite bind_run, gets_run, bind_run, prisma_run.
    rewrite (trade_create_ok _ _ account); [| by simpl; unfold copierRefOk; rewrite Hcop | done].
    cbn [fst snd]. fold masterTrade w1. rewrite bind_run.
    unfold fanOut. by destruct (allSettled _ w1).
  - exact Hcop.
  - intros m Hin. simpl in Hin. simpl. by apply (Hids m).
Qed.

(** C5: in the fan-out of a master fill, a follower whose [placeOrder] fails
    leaves a failed mapping with an empty [slaveTradeId] and the error
    message, an [ExecutionLog] of level [error] and no follower [Trade]; the
    delivery goes on with the followers after it, from the state holding
    those two records, and ends without an error. *)
Theorem handleMasterTrade_follower_failure_isolated
    w copierId execution copier account before sc after rs wk a a1 a2 message :
  let masterTrade := masterTradeData copierId copier execution (clock w) (cuid (nextId (db w))) in
  let w1 := set_db (λ _, bump_nextId (set_trades (λ ts, ts ++ [masterTrade]) (db w))) w in
  let run := copyTradeToSlave numberToString copierId masterTrade in
  let sid := cfg_slaveAccountId (config sc) in
  let key := getKey (a_platform (slaveAccount sc)) (a_firm (slaveAccount sc)) in
  let q := calculateScaledQuantity (t_quantity masterTrade) (config sc) (slaveAccount sc) in
  findCopier (db w) copierId = Some copier →
  c_status copier = ACTIVE →
  findAccount (db w) (c_masterAccountId copier) = Some account →
  unusedIds (db w) →
  activeSlaveConfigs (db w) copierId = before ++ sc :: after →
  NoDup (map (λ sc, cfg_slaveAccountId (config sc)) (activeSlaveConfigs (db w) copierId)) →
  allSettled (map run before) w1 = (rs, wk) →
  riskExceeded copierId (config sc) wk = false →
  0 < q →
  adapters wk !! key = Some a →
  ready (slaveAccount sc) a a1 →
  placeOrder (slaveOrderOf masterTrade q) a1 = (Err message, a2) →
  ∃ wk' mapping entry,
    run sc wk = (Ok tt, wk')
    ∧ tradeMappings (db wk') = tradeMappings (db wk) ++ [mapping]
    ∧ tm_status mapping = "failed"
    ∧ tm_slaveTradeId mapping = ""
    ∧ tm_errorMessage mapping = Some message
    ∧ mappingKey mapping = (t_id masterTrade, sid)
    ∧ executionLogs (db wk') = executionLogs (db wk) ++ [entry]
    ∧ l_level entry = "error"
    ∧ l_message entry = "Failed to copy trade to slave: " +:+ message
    ∧ l_slaveAccountId entry = Some sid
    ∧ trades (db wk') = trades (db wk)
    ∧ handleMasterTrade numberToString copierId execution w
      = (Ok tt, (allSettled (map run after) wk').2).
Proof.
  intros masterTrade w1 run sid key q Hcop Hact Hacc Hids Hlist Hnd Hbefore
         Hrisk Hq Ha Hready Hplace.
  destruct (handleMasterTrade_fanOut_start w copierId execution copier account
              Hcop Hact Hacc Hids) as (Hrun & Hcop1 & Hfresh).
  fold masterTrade w1 in Hrun, Hcop1, Hfresh.
  assert (Hnew : ¬ In sid (map (λ sc, cfg_slaveAccountId (config sc)) before)).
  { rewrite Hlist, map_app in Hnd. apply NoDup_app in Hnd as (_ & Hdisj & _).
    intros Hin%list_elem_of_In. apply (Hdisj _ Hin). simpl. by left. }
  destruct (fanOut_turn w1 copierId masterTrade before sc rs wk copier
              Hbefore Hcop1 Hfresh Hnew) as [Hcopk Hfree].
  destruct (fanOut_placeOrder_Err w1 wk copierId masterTrade before sc after rs a a1 a2
              message copier Hbefore Hrisk Hq Ha Hready Hplace Hcopk Hfree)
    as (wk' & mapping & entry & H1 & H2 & H3 & H4 & H5 & H6 & H7 & H8 & H9 & H10 & H11 & Hfan).
  exists wk', mapping, entry. do 11 (split; [assumption|]).
  rewrite Hrun, Hlist. fold run in Hfan. by rewrite Hfan.
Qed.

(** ** Deliveries of a master execution *)

Lemma cuid_inj n m : cuid n = cuid m → n = m.
Proof. unfold cuid. simpl. intros [= Heq]. by apply pretty_nat_inj. Qed.

(** One delivery to an ACTIVE copier inserts a master row of its own: the
    insert meets no unique index, whatever [externalTradeId] it carries. *)
Lemma handleMasterTrade_active w copierId execution copier account :
  findCopier (db w) copierId = Some copier →
  c_status copier = ACTIVE →
  findAccount (db w) (c_masterAccountId copier) = Some account →
  let row := masterTradeData copierId copier execution (clock w) (cuid (nextId (db w))) in
  ∃ w' extra,
    handleMasterTrade numberToString copierId execution w = (Ok tt, w')
    ∧ trades (db w') = trades (db w) ++ row :: extra
    ∧ grows w w'
    ∧ (nextId (db w) < nextId (db w'))%nat.
Proof.
  intros Hcop Hact Hacc row. unfold handleMasterTrade.
  rewrite tryCatch_run, bind_run, gets_run, bind_run, gets_run, Hcop, Hact.
  cbn [bool_decide decide_rel negb]. rewrite bool_decide_eq_true_2 by done. cbn [negb].
  rewrite bind_run, gets_run, bind_run, prisma_run.
  rewrite (trade_create_ok _ _ account); [| by simpl; unfold copierRefOk; rewrite Hcop | done].
  cbn [fst snd]. fold row. rewrite bind_run.
  set (w1 := set_db _ w).
  pose proof (fanOut_grows copierId row (activeSlaveConfigs (db w) copierId) w1) as Hg.
  unfold fanOut in *. destruct (allSettled _ w1) as [rs w2]. simpl in Hg.
  exists w2. destruct Hg as [[Hc Ha [extra Ht] Hn Hu] Hclock].
  exists extra. split; [reflexivity|]. split; [|split].
  - rewrite Ht. unfold w1. simpl. by rewrite <- app_assoc.
  - split; [split|]; simpl in *; try done.
    + rewrite Ht. eexists. simpl. by rewrite <- app_assoc.
    + lia.
  - simpl in Hn. lia.
Qed.

Lemma filter_length_grow {X} (f : X → bool) (l : list X) (x : X) (extra : list X) :
  f x = true →
  (1 + length (List.filter f l) ≤ length (List.filter f (l ++ x :: extra)))%nat.
Proof.
  intros Hx. rewrite List.filter_app, length_app. simpl. rewrite Hx. simpl. lia.
Qed.

Lemma isMasterRowOf_masterTradeData copierId copier execution now id :
  isMasterRowOf copierId (c_masterAccountId copier) (e_tradeId execution)
                (masterTradeData copierId copier execution now id) = true.
Proof. unfold isMasterRowOf, refersTo. simpl. by rewrite !String.eqb_refl. Qed.

(** C1, as the code has it: every delivery to an ACTIVE copier persists a
    master [Trade] row of its own.  Delivered twice, one execution leaves two
    master rows with different primary keys and the same [externalTradeId];
    the followers of the second delivery are keyed by the second row, and the
    unique index on [(masterTradeId, slaveAccountId)] stays satisfied. *)
Theorem handleMasterTrade_twice w copierId execution copier account :
  findCopier (db w) copierId = Some copier →
  c_status copier = ACTIVE →
  findAccount (db w) (c_masterAccountId copier) = Some account →
  NoDup (map mappingKey (tradeMappings (db w))) →
  ∃ w1 w2 row1 row2 extra1 extra2,
    handleMasterTrade numberToString copierId execution w = (Ok tt, w1)
    ∧ handleMasterTrade numberToString copierId execution w1 = (Ok tt, w2)
    ∧ trades (db w2) = trades (db w) ++ row1 :: extra1 ++ row2 :: extra2
    ∧ t_id row1 ≠ t_id row2
    ∧ t_externalTradeId row1 = Some (e_tradeId execution)
    ∧ t_externalTradeId row2 = Some (e_tradeId execution)
    ∧ t_accountId row1 = c_masterAccountId copier
    ∧ t_accountId row2 = c_masterAccountId copier
    ∧ (2 + length (List.filter (isMasterRowOf copierId (c_masterAccountId copier)
                                              (e_tradeId execution)) (trades (db w)))
       ≤ length (List.filter (isMasterRowOf copierId (c_masterAccountId copier)
                                            (e_tradeId execution)) (trades (db w2))))%nat
    ∧ NoDup (map mappingKey (tradeMappings (db w2))).
Proof.
  intros Hcop Hact Hacc Hnd.
  destruct (handleMasterTrade_active w copierId execution copier account)
    as (w1 & extra1 & Hrun1 & Ht1 & Hg1 & Hn1); try done.
  destruct (handleMasterTrade_active w1 copierId execution copier account)
    as (w2 & extra2 & Hrun2 & Ht2 & Hg2 & Hn2); try done.
  { by rewrite (grows_findCopier w w1). }
  { by rewrite (grows_findAccount w w1). }
  eexists w1, w2, _, _, extra1, extra2.
  split; [exact Hrun1|]. split; [exact Hrun2|].
  split; [by rewrite Ht2, Ht1, <- app_assoc|].
  split; [simpl; intros ?%cuid_inj; lia|].
  do 4 (split; [reflexivity|]).
  split.
  - pose proof (filter_length_grow _ (trades (db w)) _ extra1
                  (isMasterRowOf_masterTradeData copierId copier execution (clock w)
                     (cuid (nextId (db w))))) as H1.
    pose proof (filter_length_grow _ (trades (db w1)) _ extra2
                  (isMasterRowOf_masterTradeData copierId copier execution (clock w1)
                     (cuid (nextId (db w1))))) as H2.
    rewrite <- Ht1 in H1. rewrite <- Ht2 in H2. lia.
  - destruct Hg1 as [[_ _ _ _ Hu1] _]. destruct Hg2 as [[_ _ _ _ Hu2] _]. auto.
Qed.

(** ** The account manager *)

Lemma findAccount_update d id f row :
  (∀ x, a_id (f x) = a_id x) →
  findAccount d id = Some row →
  findAccount (set_tradingAccounts (map (λ x, if String.eqb (a_id x) id then f x else x)) d) id
  = Some (f row).
Proof.
  intros Hid. unfold findAccount. simpl.
  induction (tradingAccounts d) as [|x l IH]; simpl; [done|].
  destruct (String.eqb (a_id x) id) eqn:E.
  - intros [= ->]. simpl. by rewrite Hid, E.
  - intros Hl. simpl. rewrite E. auto.
Qed.

(** C7, as the code has it: when the adapter's [connect] fails,
    [AccountsService.connect] catches the error and fulfils.  It has called
    the adapter once and no more, it stores the message on the account row
    with [isConnected = false], and it returns that row: the caller is not
    thrown at, the failure reaches it as the [errorMessage] of the account. *)
Theorem AccountsService_connect_failure w id userId account a a1 message :
  let key := getKey (a_platform account) (a_firm account) in
  let cc := accountConnectionConfig account in
  findAccount (db w) id = Some account →
  a_userId account = userId →
  adapters w !! key = Some a →
  connect cc a = (Err message, a1) →
  ∃ row w',
    AccountsService_connect id userId w = (Ok row, w')
    ∧ a_errorMessage row = Some message
    ∧ a_isConnected row = false
    ∧ findAccount (db w') id = Some row
    ∧ List.filter isConnect (calls w') = List.filter isConnect (calls w) ++ [(key, CallConnect cc)].
Proof.
  intros key cc Hacc Hown Ha Hconn. unfold AccountsService_connect, findOne.
  rewrite !bind_run, gets_run, Hacc, Hown. cbn [default]. rewrite String.eqb_refl, andb_false_r.
  cbn [mret M_ret]. rewrite bind_run, (getAdapter_run _ _ _ a Ha).
  rewrite tryCatch_run, bind_run, (onAdapter_run _ _ _ _ a Ha). fold cc key. rewrite Hconn.
  cbn [fst snd]. rewrite prisma_run. cbn [db set_adapters set_calls].
  unfold tradingAccount_update. rewrite Hacc. cbn [fst snd].
  eexists _, _. split; [reflexivity|]. cbn [a_errorMessage a_isConnected account_set_connection].
  do 2 (split; [reflexivity|]). split.
  - cbn [db set_db]. by apply (findAccount_update _ _ (λ a, account_set_connection _ _ _ a)).
  - cbn [calls set_db set_adapters set_calls]. rewrite List.filter_app. reflexivity.
Qed.

End BackendProofs.

(** ** [BaseHttpAdapter.placeOrder] and the trade-update callbacks *)

Lemma fold_invoke execution cbs a :
  notified (fold_left (invoke execution) cbs a)
  = notified a ++ map (λ cb, (cb, execution)) cbs
  ∧ tradeCallbacks (fold_left (invoke execution) cbs a) = tradeCallbacks a
  ∧ connected (fold_left (invoke execution) cbs a) = connected a
  ∧ platformImpl (fold_left (invoke execution) cbs a) = platformImpl a.
Proof.
  revert a. induction cbs as [|cb cbs IH]; intros a; simpl.
  - by rewrite app_nil_r.
  - destruct (IH (invoke execution a cb)) as (Hn & Ht & Hc & Hp).
    rewrite Hn, Ht, Hc, Hp. simpl. by rewrite <- app_assoc.
Qed.

Lemma BaseHttpAdapter_placeOrder_Ok a order execution :
  connected a = true →
  executePlaceOrder (platformImpl a) order = Ok execution →
  BaseHttpAdapter_placeOrder order a = (Ok execution, notifyTradeCallbacks execution a).
Proof.
  intros Hc Hex. unfold BaseHttpAdapter_placeOrder.
  rewrite bind_run. unfold gets at 1. rewrite Hc. cbn [negb].
  rewrite tryCatch_run, bind_run. unfold gets at 1.
  rewrite bind_run. unfold liftResult. by rewrite Hex.
Qed.

Lemma BaseHttpAdapter_onTradeUpdate_registered callback a :
  tradeCallbacks (BaseHttpAdapter_onTradeUpdate callback a) = tradeCallbacks a ++ [callback].
Proof. reflexivity. Qed.

Section Reemission.

Variable numberToString : float → string.

(** A follower order placed through a [BaseHttpAdapter] comes back on that
    adapter's trade-update stream. *)
Lemma copyTradeToSlave_reemits
    (w : @World BaseHttpAdapter) copierId masterTrade sc a execution :
  let key := getKey (a_platform (slaveAccount sc)) (a_firm (slaveAccount sc)) in
  let q := calculateScaledQuantity (t_quantity masterTrade) (config sc) (slaveAccount sc) in
  riskExceeded copierId (config sc) w = false →
  0 < q →
  adapters w !! key = Some a →
  connected a = true →
  executePlaceOrder (platformImpl a) (slaveOrderOf masterTrade q) = Ok execution →
  ∃ a',
    adapters (copyTradeToSlave numberToString copierId masterTrade sc w).2 !! key = Some a'
    ∧ notified a' = notified a ++ map (λ cb, (cb, execution)) (tradeCallbacks a)
    ∧ tradeCallbacks a' = tradeCallbacks a.
Proof.
  intros key q Hrisk Hq Ha Hc Hex.
  rewrite (copyTradeToSlave_reaches_placeOrder _ _ _ _ _ a a) by (done || by left).
  fold key q. cbv zeta. cbn [placeOrder BaseHttpAdapter_ITradingAdapter].
  rewrite (BaseHttpAdapter_placeOrder_Ok _ _ _ Hc Hex). cbn [fst snd].
  set (w2 := afterPlaceOrder _ _ _ _ _ _ _).
  pose proof (preserves_tryCatch (@quiet BaseHttpAdapter)
                (recordCopy numberToString copierId masterTrade
                            (cfg_slaveAccountId (config sc)) q execution)
                (copyTradeToSlave_catch copierId masterTrade (cfg_slaveAccountId (config sc)))
                (recordCopy_quiet _ _ _ _ _ _)
                (copyTradeToSlave_catch_quiet _ _ _) w2) as [_ Had].
  rewrite Had. unfold w2, afterPlaceOrder. simpl. rewrite lookup_insert_eq.
  eexists. split; [reflexivity|].
  unfold notifyTradeCallbacks. destruct (fold_invoke execution (tradeCallbacks a) a) as (?&?&_).
  done.
Qed.

End Reemission.

(** C10: a successful [placeOrder] of a [BaseHttpAdapter] invokes every
    registered trade callback with the execution, in registration order,
    before it returns; so a follower order the engine places through such an
    adapter is handed to every subscriber of that adapter, the engine's own
    [handleMasterTrade] closures included. *)
Theorem BaseHttpAdapter_placeOrder_reemits :
  (∀ a order execution,
     connected a = true →
     executePlaceOrder (platformImpl a) order = Ok execution →
     ∃ a',
       BaseHttpAdapter_placeOrder order a = (Ok execution, a')
       ∧ notified a' = notified a ++ map (λ cb, (cb, execution)) (tradeCallbacks a)
       ∧ (∀ callback a0, a = BaseHttpAdapter_onTradeUpdate callback a0 →
            In (callback, execution) (notified a'))
       ∧ tradeCallbacks a' = tradeCallbacks a)
  ∧ (∀ numberToString (w : @World BaseHttpAdapter) copierId masterCopier masterTrade sc a execution,
       let key := getKey (a_platform (slaveAccount sc)) (a_firm (slaveAccount sc)) in
       let q := calculateScaledQuantity (t_quantity masterTrade) (config sc) (slaveAccount sc) in
       riskExceeded copierId (config sc) w = false →
       0 < q →
       adapters w !! key = Some a →
       connected a = true →
       executePlaceOrder (platformImpl a) (slaveOrderOf masterTrade q) = Ok execution →
       In (HandleMasterTrade masterCopier) (tradeCallbacks a) →
       ∃ a',
         adapters (copyTradeToSlave numberToString copierId masterTrade sc w).2 !! key = Some a'
         ∧ In (HandleMasterTrade masterCopier, execution) (notified a')).
Proof.
  split.
  - intros a order execution Hc Hex. exists (notifyTradeCallbacks execution a).
    split; [by apply BaseHttpAdapter_placeOrder_Ok|].
    destruct (fold_invoke execution (tradeCallbacks a) a) as (Hn & Ht & _).
    unfold notifyTradeCallbacks. split; [done|]. split; [|done].
    intros callback a0 ->. rewrite Hn, BaseHttpAdapter_onTradeUpdate_registered, map_app.
    apply in_or_app. right. apply in_or_app. right. by left.
  - intros numberToString w copierId masterCopier masterTrade sc a execution key q
           Hrisk Hq Ha Hc Hex Hsub.
    destruct (copyTradeToSlave_reemits numberToString w copierId masterTrade sc a execution)
      as (a' & Ha' & Hn & _); try done.
    exists a'. split; [done|]. rewrite Hn. apply in_or_app. right.
    apply in_map_iff. by exists (HandleMasterTrade masterCopier).
Qed.

(** ** Referential actions *)

Lemma refersTo_Some ref id : refersTo ref id = true ↔ ref = Some id.
Proof.
  unfold refersTo. destruct ref as [r|]; [|done].
  rewrite String.eqb_eq. split; [by intros -> | by intros [= ->]].
Qed.

Lemma filter_neq_In {X} (key : X → string) id (l : list X) x :
  In x (List.filter (λ y, negb (String.eqb (key y) id)) l) ↔ In x l ∧ key x ≠ id.
Proof.
  rewrite filter_In, negb_true_iff. split; intros [Hin Hk]; (split; [done|]).
  - intros Heq. apply String.eqb_eq in Heq. congruence.
  - destruct (String.eqb_spec (key x) id); [contradiction | done].
Qed.

(** C8, as the schema has it: deleting a copier keeps every trade and nulls
    its copier reference, and deletes the copier's mappings and audit entries;
    deleting an account that a trade refers to is refused, and nothing is
    deleted. *)
Theorem delete_referential_actions (d : DB) :
  (∀ id copier,
     findCopier d id = Some copier →
     ∃ d',
       copier_delete id d = (Ok copier, d')
       ∧ trades d'
         = map (λ t, if refersTo (t_copierId t) id then trade_set_copierId None t else t)
               (trades d)
       ∧ length (trades d') = length (trades d)
       ∧ map t_id (trades d') = map t_id (trades d)
       ∧ (∀ t, In t (trades d') → t_copierId t ≠ Some id)
       ∧ (∀ m, In m (tradeMappings d') ↔ In m (tradeMappings d) ∧ tm_copierId m ≠ id)
       ∧ (∀ l, In l (executionLogs d') ↔ In l (executionLogs d) ∧ l_copierId l ≠ id))
  ∧ (∀ id t,
       In t (trades d) → t_accountId t = id →
       ∃ message, tradingAccount_delete id d = (Err message, d)).
Proof.
  split.
  - intros id copier Hc. unfold copier_delete. rewrite Hc.
    eexists. split; [reflexivity|]. simpl.
    split; [reflexivity|]. split; [by rewrite length_map|].
    split; [|split; [|split]].
    + rewrite map_map. apply map_ext. intros t. by case_match.
    + intros t (t0 & <- & _)%in_map_iff.
      destruct (refersTo (t_copierId t0) id) eqn:E; [done|].
      intros Heq%refersTo_Some. congruence.
    + intros m. apply (filter_neq_In tm_copierId).
    + intros l. apply (filter_neq_In l_copierId).
  - intros id t Hin Hid. unfold tradingAccount_delete.
    destruct (findAccount d id); [|by eexists].
    destruct (existsb _ (copiers d)); [by eexists|].
    assert (existsb (λ t, String.eqb (t_accountId t) id) (trades d) = true) as ->.
    { apply existsb_exists. exists t. split; [done|]. by apply String.eqb_eq. }
    by eexists.
Qed.

(** ** The authentication probe *)

Module RithmicProofs.
Import Rithmic.

Lemma post_accepted server endpoint payload :
  accepted server (endpoint, payload) = true →
  ∃ response,
    post server endpoint payload = Ok response
    ∧ ((status response =? 200) || (status response =? 201)) = true
    ∧ answer server (endpoint, payload) = Ok (data response).
Proof.
  unfold accepted, post, answer. simpl.
  destruct (server endpoint payload) as [response|e]; [|done].
  intros Hacc. exists response.
  assert ((status response <? 500) = true) as ->.
  { apply orb_true_iff in Hacc as [?%Z.eqb_eq|?%Z.eqb_eq]; apply Z.ltb_lt; lia. }
  done.
Qed.

Lemma post_rejected server endpoint payload :
  accepted server (endpoint, payload) = false →
  match post server endpoint payload with
  | Ok response => ((status response =? 200) || (status response =? 201)) = false
  | Err _ => True
  end.
Proof.
  unfold accepted, post. simpl.
  destruct (server endpoint payload) as [response|e]; [|done].
  intros Hacc. by destruct (status response <? 500).
Qed.

(** One loop of the probe sends its payload to the endpoints in order and
    stops at the first that answers 200 or 201. *)
Lemma tryEndpoints_spec server check payload endpoints :
  let attempts := map (λ endpoint, (endpoint, payload)) endpoints in
  tryEndpoints server check payload endpoints
  = (match List.find (accepted server) attempts with
     | Some a => match answer server a with Ok d => Some d | Err _ => None end
     | None => None
     end,
     upToFirst (accepted server) attempts).
Proof.
  induction endpoints as [|endpoint rest IH]; simpl; [done|].
  destruct (accepted server (endpoint, payload)) eqn:Hacc.
  - destruct (post_accepted _ _ _ Hacc) as (response & -> & -> & ->). done.
  - pose proof (post_rejected _ _ _ Hacc) as Hrej. simpl in IH.
    destruct (post server endpoint payload) as [response|e].
    + rewrite Hrej, IH. by destruct (check && _).
    + by rewrite IH.
Qed.

Lemma find_accepted_answer server attempts a :
  List.find (accepted server) attempts = Some a → ∃ d, answer server a = Ok d.
Proof.
  intros [_ Hacc]%find_some. unfold accepted, answer in *.
  destruct (server a.1 a.2); [by eexists | done].
Qed.

Lemma upToFirst_app {X} (f : X → bool) (l1 l2 : list X) :
  upToFirst f (l1 ++ l2)
  = match List.find f l1 with
    | Some _ => upToFirst f l1
    | None => l1 ++ upToFirst f l2
    end.
Proof.
  induction l1 as [|x l1 IH]; simpl; [done|].
  destruct (f x); [done|]. rewrite IH. by destruct (List.find f l1).
Qed.

Lemma find_app {X} (f : X → bool) (l1 l2 : list X) :
  List.find f (l1 ++ l2)
  = match List.find f l1 with Some x => Some x | None => List.find f l2 end.
Proof. induction l1 as [|x l1 IH]; simpl; [done|]. by destruct (f x). Qed.

Lemma upToFirst_none {X} (f : X → bool) (l : list X) :
  List.find f l = None → upToFirst f l = l.
Proof.
  induction l as [|x l IH]; simpl; [done|]. destruct (f x); [done|].
  intros H. by rewrite IH.
Qed.

Lemma plan_rows config :
  plan config
  = (if truthyS (cc_email config) && truthyS (cc_password config)
     then row (emailPayload config) else [])
    ++ (if truthyS (cc_apiKey config) && truthyS (cc_apiSecret config)
        then row (apiKeyPayload config) else [])
    ++ (if truthyS (cc_password config) then row (usernamePayload config) else []).
Proof.
  unfold plan, shapesOf.
  destruct (truthyS (cc_email config) && truthyS (cc_password config));
    destruct (truthyS (cc_apiKey config) && truthyS (cc_apiSecret config));
    destruct (truthyS (cc_password config)); reflexivity.
Qed.

Lemma loop_spec server check (enabled : bool) payload :
  let attempts := if enabled then row payload else [] in
  (if enabled then tryEndpoints server check payload authEndpoints else (None, []))
  = (match List.find (accepted server) attempts with
     | Some a => match answer server a with Ok d => Some d | Err _ => None end
     | None => None
     end,
     upToFirst (accepted server) attempts).
Proof. destruct enabled; [apply tryEndpoints_spec | reflexivity]. Qed.

(** C9, as the code has it: the probe goes shape by shape, (a) then (b) then
    (c), each shape over the seven endpoints in order; the first answer with
    status 200 or 201 wins and ends the probe; when no request is answered so
    the probe fails with the authentication error. *)
Theorem authenticate_probe_order server config :
  authenticate server config
  = (match List.find (accepted server) (plan config) with
     | Some a => answer server a
     | None => Err authFailed
     end,
     upToFirst (accepted server) (plan config)).
Proof.
  rewrite plan_rows. unfold authenticate.
  rewrite (loop_spec server true _ (emailPayload config)).
  rewrite (loop_spec server false _ (apiKeyPayload config)).
  rewrite (loop_spec server false _ (usernamePayload config)).
  set (l1 := if truthyS (cc_email config) && _ then _ else _).
  set (l2 := if truthyS (cc_apiKey config) && _ then _ else _).
  set (l3 := if truthyS (cc_password config) then _ else _).
  rewrite !find_app, !upToFirst_app.
  destruct (List.find (accepted server) l1) as [a1|] eqn:F1.
  { destruct (find_accepted_answer _ _ _ F1) as [d ->]. done. }
  rewrite (upToFirst_none _ _ F1).
  destruct (List.find (accepted server) l2) as [a2|] eqn:F2.
  { destruct (find_accepted_answer _ _ _ F2) as [d ->]. done. }
  rewrite (upToFirst_none _ _ F2).
  destruct (List.find (accepted server) l3) as [a3|] eqn:F3.
  { destruct (find_accepted_answer _ _ _ F3) as [d ->]. done. }
  done.
Qed.

End RithmicProofs.

(** * Worked examples *)

Section Examples.

Import Deployment.

(** ** Starting the copier *)

(** [start] leaves the copier's [handleMasterTrade] closure on the master's
    adapter, which is the registry the examples below run in. *)
Lemma start_subscribes :
  (start "cop1" idle).1 = Ok tt
  ∧ adapters (start "cop1" idle).2 = registry liveBroker
  ∧ tradeSubscriptions (start "cop1" idle).2 !! "cop1" = Some (keyM, HandleMasterTrade "cop1")
  ∧ map l_message (executionLogs (db (start "cop1" idle).2)) = ["Copier started successfully"].
Proof.
  split; [vm_compute; reflexivity|]. split; [|split; vm_compute; reflexivity].
  apply map_eq. intros k. vm_compute. reflexivity.
Qed.

(** ** C1: a replayed execution *)

(** The same execution, trade id T1, delivered twice: two master rows, two
    mappings for the one follower, two follower orders. *)
Lemma replay_doubles_trades_and_orders :
  length (List.filter (isMasterRowOf "cop1" "accM" "T1")
                      (trades (db (deliver (masterFill 1) (deliver (masterFill 1) happy)))))
  = 2%nat
  ∧ length (List.filter (λ m, String.eqb (tm_slaveAccountId m) "accF")
                        (tradeMappings (db (deliver (masterFill 1) (deliver (masterFill 1) happy)))))
    = 2%nat
  ∧ placedQuantities (deliver (masterFill 1) (deliver (masterFill 1) happy)) = [1; 1].
Proof. vm_compute. done. Qed.

Lemma handleMasterTrade_twice_witness :
  findCopier (db happy) "cop1" = Some cop1
  ∧ c_status cop1 = ACTIVE
  ∧ findAccount (db happy) (c_masterAccountId cop1) = Some accM
  ∧ ∃ w1 w2,
      handleMasterTrade integerToString "cop1" (masterFill 1) happy = (Ok tt, w1)
      ∧ handleMasterTrade integerToString "cop1" (masterFill 1) w1 = (Ok tt, w2)
      ∧ NoDup (map mappingKey (tradeMappings (db w2))).
Proof.
  assert (H1 : findCopier (db happy) "cop1" = Some cop1) by reflexivity.
  assert (H2 : c_status cop1 = ACTIVE) by reflexivity.
  assert (H3 : findAccount (db happy) (c_masterAccountId cop1) = Some accM) by reflexivity.
  assert (H4 : NoDup (map mappingKey (tradeMappings (db happy)))) by (simpl; constructor).
  do 3 (split; [assumption|]).
  destruct (handleMasterTrade_twice integerToString happy "cop1" (masterFill 1) cop1 accM
              H1 H2 H3 H4)
    as (w1 & w2 & _ & _ & _ & _ & Hr1 & Hr2 & _ & _ & _ & _ & _ & _ & _ & Hnd).
  exists w1, w2. auto.
Defined.

(** ** C2: the cap *)

(** Five fixed contracts go out under a cap of two, and under a cap of zero. *)
Lemma cap_is_not_applied :
  cfg_maxContracts cfgCap2 = Some 2
  ∧ placedQuantities (deliver (masterFill 1) capped2) = [5]
  ∧ cfg_maxContracts cfgCap0 = Some 0
  ∧ placedQuantities (deliver (masterFill 1) capped0) = [5].
Proof. vm_compute. done. Qed.

Lemma copyTradeToSlave_ignores_maxContracts_witness :
  riskExceeded "cop1" cfgCap2 capped2 = false
  ∧ adapters capped2 !! keyF = Some (mkAdapter liveBroker true [])
  ∧ placedOrders (copyTradeToSlave integerToString "cop1" masterRow (followerF cfgCap2) capped2).2
    = [(keyF, CallPlaceOrder (slaveOrderOf masterRow 5))].
Proof.
  assert (H1 : riskExceeded "cop1" cfgCap2 capped2 = false) by reflexivity.
  assert (H2 : adapters capped2 !! keyF = Some (mkAdapter liveBroker true []))
    by (vm_compute; reflexivity).
  assert (H3 : ready accF (mkAdapter liveBroker true []) (mkAdapter liveBroker true []))
    by (left; split; reflexivity).
  do 2 (split; [assumption|]).
  destruct (copyTradeToSlave_ignores_maxContracts integerToString capped2 "cop1" masterRow
              (followerF cfgCap2) (mkAdapter liveBroker true []) (mkAdapter liveBroker true [])
              H1 H2 H3)
    as (_ & _ & Hplaced).
  destruct (Hplaced ltac:(reflexivity)) as [Hp _]. exact Hp.
Defined.

(** ** C3: a percentage of zero *)

(** C3: with [scalingType = PERCENTAGE] and [percentageScale = 0] a master
    fill of three contracts is copied in full: the scaled quantity is 3, not
    0, and an order for 3 goes out instead of the follower being skipped. *)
Theorem percentage_zero_copies_full_size :
  cfg_scalingType cfgPct0 = PERCENTAGE
  ∧ cfg_percentageScale cfgPct0 = Some 0%Q
  ∧ calculateScaledQuantity 3 cfgPct0 accF = 3
  ∧ placedQuantities (deliver (masterFill 3) percent0) = [3].
Proof. vm_compute. done. Qed.

(** ** C4: the daily loss gate *)

(** A loss of 500 made today on the follower account by another copier
    reaches the limit of 500 in the account-wide sum, and the gate of this
    copier lets the copy through: its own sum is 0. *)
Lemma loss_of_another_copier_is_not_counted :
  map c_id (copiers (db otherLoss)) = ["cop1"; "cop2"]
  ∧ map (λ t, (t_copierId t, t_accountId t, t_realizedPnL t)) (trades (db otherLoss))
    = [(Some "cop2", "accF", Some (-500)%float)]
  ∧ (500 <=? abs (accountDailySum cfgLimit otherLoss))%float = true
  ∧ (checkRiskRules integerToString "cop1" cfgLimit otherLoss).1
    = Ok {| allowed := true; reason := None |}
  ∧ placedQuantities (deliver (masterFill 1) otherLoss) = [1].
Proof. vm_compute. done. Qed.

(** The follower lost 500 today on a trade of this copier, against a limit
    of 500: the gate rejects, names the sum and switches the binding off. *)
Lemma checkRiskRules_daily_loss_witness :
  cfg_dailyLossLimit cfgLimit = Some 500%float
  ∧ findConfig (db ownLoss) (cfg_id cfgLimit) = Some cfgLimit
  ∧ ∃ rc w',
      checkRiskRules integerToString "cop1" cfgLimit ownLoss = (Ok rc, w')
      ∧ allowed rc = false
      ∧ reason rc = Some "Daily loss limit exceeded: -500"
      ∧ findConfig (db w') "cfgF"
        = Some (cfg_disable "Daily loss limit exceeded: -500" cfgLimit).
Proof.
  assert (H1 : cfg_dailyLossLimit cfgLimit = Some 500%float) by reflexivity.
  assert (H2 : findConfig (db ownLoss) (cfg_id cfgLimit) = Some cfgLimit) by reflexivity.
  do 2 (split; [assumption|]).
  destruct (checkRiskRules_daily_loss integerToString "cop1" cfgLimit ownLoss 500%float cfgLimit
              H1 ltac:(reflexivity) ltac:(reflexivity) H2)
    as (rc & w' & Hrun & Hiff & Hwhy & _ & _ & Hoff).
  assert (Hrejected : allowed rc = false) by (apply Hiff; vm_compute; reflexivity).
  exists rc, w'. split; [exact Hrun|]. split; [exact Hrejected|].
  split; [exact (Hwhy Hrejected)|].
  destruct (Hoff Hrejected ltac:(reflexivity)) as (Hrow & _). exact Hrow.
Defined.

(** ** C5: a follower whose broker is down *)

Lemma handleMasterTrade_follower_failure_isolated_witness :
  findCopier (db brokerDown) "cop1" = Some cop1
  ∧ activeSlaveConfigs (db brokerDown) "cop1" = [] ++ followerF cfgF :: [followerG]
  ∧ adapters brokerDown !! keyF = Some (mkAdapter deadBroker true [])
  ∧ ∃ wk' mapping,
      tradeMappings (db wk') = [mapping]
      ∧ tm_status mapping = "failed"
      ∧ tm_slaveTradeId mapping = ""
      ∧ tm_errorMessage mapping = Some "Network Error"
      ∧ handleMasterTrade integerToString "cop1" (masterFill 1) brokerDown
        = (Ok tt,
           (allSettled
              (map (copyTradeToSlave integerToString "cop1"
                      (masterTradeData "cop1" cop1 (masterFill 1) now (cuid 0)))
                   [followerG]) wk').2).
Proof.
  assert (H1 : findCopier (db brokerDown) "cop1" = Some cop1) by reflexivity.
  assert (H2 : activeSlaveConfigs (db brokerDown) "cop1" = [] ++ followerF cfgF :: [followerG])
    by reflexivity.
  assert (H3 : adapters brokerDown !! keyF = Some (mkAdapter deadBroker true []))
    by (vm_compute; reflexivity).
  assert (H4 : unusedIds (db brokerDown)) by (intros m n []).
  assert (H5 : NoDup (map (λ sc, cfg_slaveAccountId (config sc))
                          (activeSlaveConfigs (db brokerDown) "cop1")))
    by (apply (bool_decide_unpack _); vm_compute; reflexivity).
  assert (H6 : ready accF (mkAdapter deadBroker true []) (mkAdapter deadBroker true []))
    by (left; split; reflexivity).
  do 3 (split; [assumption|]).
  destruct (handleMasterTrade_follower_failure_isolated integerToString brokerDown "cop1"
              (masterFill 1) cop1 accM [] (followerF cfgF) [followerG] [] _
              (mkAdapter deadBroker true []) (mkAdapter deadBroker true [])
              (mkAdapter deadBroker true []) "Network Error"
              H1 eq_refl eq_refl H4 H2 H5 eq_refl eq_refl ltac:(reflexivity)
              H3 H6 eq_refl)
    as (wk' & mapping & entry & _ & Hm & Hs & Hid & He & _ & _ & _ & _ & _ & _ & Hrun).
  exists wk', mapping. auto 10.
Defined.

(** The second follower is served although the first one failed. *)
Lemma sibling_of_failed_follower_is_served :
  map tm_status (tradeMappings (db (deliver (masterFill 1) brokerDown))) = ["failed"; "synced"]
  ∧ map tm_slaveTradeId (tradeMappings (db (deliver (masterFill 1) brokerDown))) = [""; "c3"]
  ∧ map l_level (executionLogs (db (deliver (masterFill 1) brokerDown))) = ["error"; "info"]
  ∧ map t_accountId (trades (db (deliver (masterFill 1) brokerDown))) = ["accM"; "accG"].
Proof. vm_compute. done. Qed.

(** ** C6: a rejection by the gate *)

(** The gate rejects, the process logger gets the [warn] line, and the
    [ExecutionLog] table stays empty. *)
Lemma risk_rejection_writes_no_ExecutionLog :
  riskExceeded "cop1" cfgLimit ownLoss = true
  ∧ executionLogs (db (deliver (masterFill 1) ownLoss)) = []
  ∧ logger (deliver (masterFill 1) ownLoss)
    = [("warn", "Risk rule violated for slave accF: Daily loss limit exceeded: -500")]
  ∧ placedQuantities (deliver (masterFill 1) ownLoss) = [].
Proof. vm_compute. done. Qed.

Lemma copyTradeToSlave_risk_rejected_witness :
  riskExceeded "cop1" cfgLimit ownLoss = true
  ∧ ∃ w',
      copyTradeToSlave integerToString "cop1" masterRow (followerF cfgLimit) ownLoss = (Ok tt, w')
      ∧ executionLogs (db w') = executionLogs (db ownLoss)
      ∧ calls w' = calls ownLoss.
Proof.
  assert (H1 : riskExceeded "cop1" cfgLimit ownLoss = true) by reflexivity.
  split; [assumption|].
  destruct (copyTradeToSlave_risk_rejected integerToString ownLoss "cop1" masterRow
              (followerF cfgLimit) H1 (λ _, ex_intro _ cfgLimit eq_refl))
    as (w' & Hrun & _ & Hl & Hc & _).
  exists w'. auto.
Defined.

(** The sum is the double the code computes: eight losses of a tenth add up
    to [-0.7999999999999999], short of the limit of [0.8], and the copy goes
    through. *)
Lemma eight_tenths_stay_under_the_limit :
  cfg_dailyLossLimit cfgTenths = Some 0x1.999999999999ap-1%float
  ∧ map t_realizedPnL (trades (db eightTenths)) = repeat (Some (- tenth)%float) 8
  ∧ dailyLossOf (todayTrades "cop1" cfgTenths eightTenths)
    = (- 0x1.9999999999999p-1)%float
  ∧ (checkRiskRules integerToString "cop1" cfgTenths eightTenths).1
    = Ok {| allowed := true; reason := None |}
  ∧ placedQuantities (deliver (masterFill 1) eightTenths) = [1].
Proof. vm_compute. done. Qed.

(** ** C7: a connect that fails *)

(** The broker of [accF] is down: the adapter's [connect] throws, and
    [AccountsService.connect] returns an account row to its caller. *)
Lemma connect_failure_is_returned_not_thrown :
  (connect (accountConnectionConfig accF) (mkAdapter deadBroker true [])).1
  = Err "Connection failed: Network Error"
  ∧ (AccountsService_connect "accF" "u1" brokerDown).1
    = Ok (account_set_connection false None (Some "Connection failed: Network Error") accF).
Proof. vm_compute. done. Qed.

Lemma AccountsService_connect_failure_witness :
  findAccount (db brokerDown) "accF" = Some accF
  ∧ adapters brokerDown !! keyF = Some (mkAdapter deadBroker true [])
  ∧ ∃ row w',
      AccountsService_connect "accF" "u1" brokerDown = (Ok row, w')
      ∧ a_errorMessage row = Some "Connection failed: Network Error"
      ∧ a_isConnected row = false
      ∧ findAccount (db w') "accF" = Some row.
Proof.
  assert (H1 : findAccount (db brokerDown) "accF" = Some accF) by reflexivity.
  assert (H2 : adapters brokerDown !! keyF = Some (mkAdapter deadBroker true []))
    by (vm_compute; reflexivity).
  assert (H3 : connect (accountConnectionConfig accF) (mkAdapter deadBroker true [])
               = (Err "Connection failed: Network Error",
                  (BaseHttpAdapter_connect (accountConnectionConfig accF)
                     (mkAdapter deadBroker true [])).2))
    by (vm_compute; reflexivity).
  do 2 (split; [assumption|]).
  destruct (AccountsService_connect_failure brokerDown "accF" "u1" accF
              (mkAdapter deadBroker true [])
              (BaseHttpAdapter_connect (accountConnectionConfig accF)
                 (mkAdapter deadBroker true [])).2
              "Connection failed: Network Error" H1 eq_refl H2 H3)
    as (row & w' & Hrun & He & Hc & Hf & _).
  exists row, w'. auto.
Defined.

(** ** C8: deleting an account that has a trade *)

(** The delete is refused by [Trade_accountId_fkey]; the account and its
    trade are still there. *)
Lemma account_with_trades_is_not_deleted :
  tradingAccount_delete "accG" withTrade = (Err (P2003 "Trade_accountId_fkey"), withTrade)
  ∧ map t_accountId (trades withTrade) = ["accG"]
  ∧ findAccount withTrade "accG" = Some accG.
Proof. vm_compute. done. Qed.

Lemma delete_referential_actions_witness :
  findCopier withTrade "cop1" = Some cop1
  ∧ (∃ d', copier_delete "cop1" withTrade = (Ok cop1, d')
           ∧ length (trades d') = length (trades withTrade))
  ∧ (∃ message, tradingAccount_delete "accG" withTrade = (Err message, withTrade)).
Proof.
  assert (H1 : findCopier withTrade "cop1" = Some cop1) by reflexivity.
  split; [assumption|].
  destruct (delete_referential_actions withTrade) as [Hcopier Haccount]. split.
  - destruct (Hcopier "cop1" cop1 H1) as (d' & Hrun & _ & Hlen & _). exists d'. auto.
  - exact (Haccount "accG" (mkTrade "t1" (Some "cop1") "accG" 0) (or_introl eq_refl) eq_refl).
Defined.

(** ** C9: the order of the probe *)

(** With both credential shapes at hand the code logs in by e-mail at the
    second endpoint; the order of the specification would have logged in by
    API key at the first.  [/oauth/token] is not among the endpoints. *)
Lemma probe_goes_shape_by_shape :
  Rithmic.authenticate twoDoors fullCredentials
  = (Ok {| Rithmic.token := Some "by-email"; Rithmic.sessionId := None |},
     [("/auth/login", Rithmic.emailPayload fullCredentials);
      ("/api/auth/login", Rithmic.emailPayload fullCredentials)])
  ∧ Rithmic.authenticate_spec twoDoors fullCredentials
    = Ok {| Rithmic.token := Some "by-key"; Rithmic.sessionId := None |}
  ∧ take 2 (Rithmic.specPlan fullCredentials)
    = [("/auth/login", Rithmic.emailPayload fullCredentials);
       ("/auth/login", Rithmic.apiKeyPayload fullCredentials)]
  ∧ ¬ In "/oauth/token" Rithmic.authEndpoints.
Proof.
  split; [vm_compute; reflexivity|]. split; [vm_compute; reflexivity|].
  split; [vm_compute; reflexivity|].
  simpl. intros H. repeat destruct H as [H|H]; try discriminate H. exact H.
Qed.

(** ** C10: a follower on the master's adapter *)

Lemma BaseHttpAdapter_placeOrder_reemits_witness :
  (∃ a',
     BaseHttpAdapter_placeOrder (slaveOrderOf masterRow 1)
       (BaseHttpAdapter_onTradeUpdate (HandleMasterTrade "cop1") (mkAdapter liveBroker true []))
     = (Ok (fill (slaveOrderOf masterRow 1)), a')
     ∧ In (HandleMasterTrade "cop1", fill (slaveOrderOf masterRow 1)) (notified a'))
  ∧ (∃ a',
       adapters (copyTradeToSlave integerToString "cop1" masterRow followerH sameAdapter).2 !! keyM
       = Some a'
       ∧ In (HandleMasterTrade "cop1", fill (slaveOrderOf masterRow 1)) (notified a')).
Proof.
  destruct BaseHttpAdapter_placeOrder_reemits as [Hadapter Hengine]. split.
  - destruct (Hadapter
                (BaseHttpAdapter_onTradeUpdate (HandleMasterTrade "cop1")
                   (mkAdapter liveBroker true []))
                (slaveOrderOf masterRow 1) (fill (slaveOrderOf masterRow 1)) eq_refl eq_refl)
      as (a' & Hrun & _ & Hin & _).
    exists a'. split; [exact Hrun|]. exact (Hin _ _ eq_refl).
  - assert (H2 : adapters sameAdapter !! keyM
                 = Some (mkAdapter liveBroker true [HandleMasterTrade "cop1"]))
      by (vm_compute; reflexivity).
    exact (Hengine integerToString sameAdapter "cop1" "cop1" masterRow followerH
             (mkAdapter liveBroker true [HandleMasterTrade "cop1"])
             (fill (slaveOrderOf masterRow 1))
             eq_refl ltac:(reflexivity) H2 eq_refl eq_refl (or_introl eq_refl)).
Defined.

(** The follower's fill is handed to the copier's own subscription. *)
Lemma follower_fill_reaches_the_copier :
  (notified <$> (adapters (deliver (masterFill 1) sameAdapter) !! keyM))
  = Some [(HandleMasterTrade "cop1", fill (slaveOrderOf (masterTradeData "cop1" cop1 (masterFill 1) now "c0") 1))].
Proof. vm_compute. reflexivity. Qed.

End Examples.

(** * Further properties: the engine *)

Lemma bind_Ok_inv {S X Y} (m : M S X) (f : X → M S Y) (s s' : S) (y : Y) :
  (m ≫= f) s = (Ok y, s') → ∃ x s1, m s = (Ok x, s1) ∧ f x s1 = (Ok y, s').
Proof.
  rewrite bind_run. destruct (m s) as [[x|e] s1]; [|discriminate].
  intros Hf. by exists x, s1.
Qed.

Section EngineProofs.

Context {A : Type} `{!ITradingAdapter A}.
Variable numberToString : float → string.

Lemma modify_run (f : @World A → @World A) w : modify f w = (Ok tt, f w).
Proof. reflexivity. Qed.

(** X2: the happy path of one follower: the gate passes, the size is
    positive, the adapter is usable and the broker answers; then one order of
    the scaled size is placed, and the follower's [Trade], a [synced]
    [TradeMapping] from the master trade to it and an [info] [ExecutionLog]
    are written. *)
Theorem copyTradeToSlave_copies w copierId masterTrade sc a a1 a2 execution copier account :
  let sid := cfg_slaveAccountId (config sc) in
  let key := getKey (a_platform (slaveAccount sc)) (a_firm (slaveAccount sc)) in
  let q := calculateScaledQuantity (t_quantity masterTrade) (config sc) (slaveAccount sc) in
  let slaveTrade :=
    slaveTradeData copierId masterTrade sid execution (clock w) (cuid (nextId (db w))) in
  riskExceeded copierId (config sc) w = false →
  0 < q →
  adapters w !! key = Some a →
  ready (slaveAccount sc) a a1 →
  placeOrder (slaveOrderOf masterTrade q) a1 = (Ok execution, a2) →
  findCopier (db w) copierId = Some copier →
  findAccount (db w) sid = Some account →
  existsb (sameMappingKey (t_id masterTrade) sid) (tradeMappings (db w)) = false →
  ∃ w',
    copyTradeToSlave numberToString copierId masterTrade sc w = (Ok tt, w')
    ∧ placedOrders w' = placedOrders w ++ [(key, CallPlaceOrder (slaveOrderOf masterTrade q))]
    ∧ trades (db w') = trades (db w) ++ [slaveTrade]
    ∧ tradeMappings (db w')
      = tradeMappings (db w)
        ++ [syncedMapping copierId (t_id masterTrade) (t_id slaveTrade) sid (clock w)
                          (cuid (S (nextId (db w))))]
    ∧ executionLogs (db w')
      = executionLogs (db w)
        ++ [copiedLog copierId (t_id masterTrade) (t_id slaveTrade) sid (clock w)
                      (cuid (S (S (nextId (db w)))))].
Proof.
  intros sid key q slaveTrade Hrisk Hq Ha Hready Hplace Hcop Hacc Hfree.
  rewrite (copyTradeToSlave_reaches_placeOrder numberToString _ _ _ _ a a1) by done.
  fold key q. rewrite Hplace. cbn [fst snd]. cbv zeta.
  set (w2 := afterPlaceOrder _ _ _ _ _ _ _).
  destruct (recordCopy_run numberToString copierId masterTrade sid q execution copier account w2)
    as (w' & Hrun & Ht & Hm & Hl & Hc & _).
  { unfold w2. by rewrite afterPlaceOrder_db. }
  { unfold w2. by rewrite afterPlaceOrder_db. }
  { unfold w2. by rewrite afterPlaceOrder_db. }
  exists w'. rewrite tryCatch_run. fold sid. rewrite Hrun. split; [done|].
  unfold placedOrders. rewrite Hc. fold (placedOrders w2).
  unfold w2 in *. rewrite afterPlaceOrder_placedOrders.
  rewrite afterPlaceOrder_db, ?afterPlaceOrder_clock in *. done.
Qed.

(** X3: a follower whose scaled size is zero or negative is skipped: no
    order, no [TradeMapping], no [ExecutionLog] row; the only trace is a
    warning of the process logger. *)
Theorem copyTradeToSlave_skips_nonpositive_size w copierId masterTrade sc :
  let sid := cfg_slaveAccountId (config sc) in
  riskExceeded copierId (config sc) w = false →
  calculateScaledQuantity (t_quantity masterTrade) (config sc) (slaveAccount sc) ≤ 0 →
  copyTradeToSlave numberToString copierId masterTrade sc w
  = (Ok tt, set_logger (λ ls, ls ++ [("warn", "Scaled quantity is 0 for slave " +:+ sid)]) w).
Proof.
  intros sid Hrisk Hq. unfold copyTradeToSlave. rewrite tryCatch_run, bind_run.
  rewrite (checkRiskRules_pass _ _ _ _ Hrisk). cbn [allowed negb].
  destruct (Z.leb_spec (calculateScaledQuantity (t_quantity masterTrade) (config sc)
                          (slaveAccount sc)) 0) as [_|]; [|lia].
  by rewrite log_run.
Qed.

(** X4: the lazy [connect] of a follower fails: no order is placed, and the
    follower is recorded as failed with the message of [connect]. *)
Theorem copyTradeToSlave_connect_failure w copierId masterTrade sc a a1 message copier :
  let sid := cfg_slaveAccountId (config sc) in
  let key := getKey (a_platform (slaveAccount sc)) (a_firm (slaveAccount sc)) in
  riskExceeded copierId (config sc) w = false →
  0 < calculateScaledQuantity (t_quantity masterTrade) (config sc) (slaveAccount sc) →
  adapters w !! key = Some a →
  isConnected a = false →
  connect (engineConnectionConfig (slaveAccount sc)) a = (Err message, a1) →
  findCopier (db w) copierId = Some copier →
  existsb (sameMappingKey (t_id masterTrade) sid) (tradeMappings (db w)) = false →
  ∃ w',
    copyTradeToSlave numberToString copierId masterTrade sc w = (Ok tt, w')
    ∧ placedOrders w' = placedOrders w
    ∧ trades (db w') = trades (db w)
    ∧ tradeMappings (db w')
      = tradeMappings (db w)
        ++ [failedMapping copierId (t_id masterTrade) sid message (cuid (nextId (db w)))]
    ∧ executionLogs (db w')
      = executionLogs (db w)
        ++ [copyFailedLog copierId (t_id masterTrade) sid message (clock w)
                          (cuid (S (nextId (db w))))].
Proof.
  intros sid key Hrisk Hq Ha Hc Hconn Hcop Hfree.
  unfold copyTradeToSlave. rewrite tryCatch_run, bind_run.
  rewrite (checkRiskRules_pass _ _ _ _ Hrisk). cbn [allowed negb].
  destruct (Z.leb_spec (calculateScaledQuantity (t_quantity masterTrade) (config sc)
                          (slaveAccount sc)) 0) as [|_]; [lia|].
  rewrite bind_run, (getAdapter_run _ _ _ a) by done. fold key.
  rewrite bind_run, (ensureConnected_fails _ _ a a1 message) by done.
  fold sid. set (w2 := set_adapters _ _).
  destruct (copyTradeToSlave_catch_run copierId masterTrade sid message copier w2)
    as (w' & Hrun & Hm & Hl & Ht & Hcalls & _); [done..|].
  exists w'. split; [done|]. unfold placedOrders. rewrite Hcalls.
  repeat split; try done.
  unfold w2. simpl. rewrite List.filter_app. simpl. by rewrite app_nil_r.
Qed.

End EngineProofs.

(** * Further properties: [start], [stop] and [CopierService] *)

Lemma findCopier_id d id c : findCopier d id = Some c → c_id c = id.
Proof.
  unfold findCopier. intros Hf. apply find_some in Hf as [_ Heq].
  by apply String.eqb_eq.
Qed.

Lemma findCopier_update d id f row :
  (∀ x, c_id (f x) = c_id x) →
  findCopier d id = Some row →
  findCopier (set_copiers (map (λ x, if String.eqb (c_id x) id then f x else x)) d) id
  = Some (f row).
Proof.
  intros Hid. unfold findCopier. simpl.
  induction (copiers d) as [|x l IH]; simpl; [done|].
  destruct (String.eqb (c_id x) id) eqn:E.
  - intros [= ->]. simpl. by rewrite Hid, E.
  - intros Hl. simpl. rewrite E. auto.
Qed.

Lemma copier_update_Ok d d' id v c :
  copier_update id (copier_set_status v) d = (Ok c, d') →
  findCopier d' id = Some c ∧ c_status c = v
  ∧ ∃ c0, findCopier d id = Some c0 ∧ c = copier_set_status v c0.
Proof.
  unfold copier_update. destruct (findCopier d id) as [c0|] eqn:Hc; [|discriminate].
  intros [= <- <-]. split; [|split; [done|by exists c0]].
  by apply (findCopier_update _ _ (copier_set_status v)).
Qed.

Section ServiceProofs.

Context {A : Type} `{!ITradingAdapter A}.
Variable numberToString : float → string.

Lemma CopierService_findOne_run id userId copier (w : @World A) :
  findCopier (db w) id = Some copier →
  c_userId copier = userId →
  CopierService_findOne id (Some userId) w = (Ok copier, w).
Proof.
  intros Hc Hown. unfold CopierService_findOne. rewrite bind_run, gets_run, Hc, Hown.
  cbn [default]. by rewrite String.eqb_refl, andb_false_r.
Qed.

Lemma CopierService_findOne_Ok id userId copier (w w' : @World A) :
  CopierService_findOne id userId w = (Ok copier, w') →
  w' = w ∧ findCopier (db w) id = Some copier.
Proof.
  unfold CopierService_findOne. rewrite bind_run, gets_run.
  destruct (findCopier (db w) id) as [c|]; [|discriminate].
  destruct (_ && _); [discriminate|]. by intros [= <- <-].
Qed.

Lemma handleMasterTrade_inactive id execution copier (w : @World A) :
  findCopier (db w) id = Some copier →
  c_status copier ≠ ACTIVE →
  handleMasterTrade numberToString id execution w = (Ok tt, w).
Proof.
  intros Hc Hs. unfold handleMasterTrade.
  rewrite tryCatch_run, bind_run, gets_run, bind_run, gets_run, Hc.
  by rewrite bool_decide_eq_false_2.
Qed.

Lemma afterConnect_adapters key account (a a1 : A) w :
  adapters w !! key = Some a → ready account a a1 →
  adapters (afterConnect key account a a1 w) = <[key := a1]> (adapters w).
Proof.
  intros Ha [[Hc ->]|[Hc _]]; unfold afterConnect; rewrite Hc; [|done].
  by rewrite insert_id.
Qed.

Lemma afterConnect_activeCopiers key account (a a1 : A) w :
  activeCopiers (afterConnect key account a a1 w) = activeCopiers w.
Proof. unfold afterConnect. by case_match. Qed.

Lemma afterConnect_tradeSubscriptions key account (a a1 : A) w :
  tradeSubscriptions (afterConnect key account a a1 w) = tradeSubscriptions w.
Proof. unfold afterConnect. by case_match. Qed.

Lemma ensureConnected_Ok key account (a : A) w w' :
  adapters w !! key = Some a →
  ensureConnected key account w = (Ok tt, w') →
  ∃ a1, ready account a a1.
Proof.
  intros Ha. unfold ensureConnected. rewrite bind_run. unfold adapterIsConnected. rewrite Ha.
  destruct (isConnected a) eqn:Hc; cbn [negb].
  - intros _. exists a. by left.
  - rewrite (onAdapter_run _ _ _ _ a Ha).
    destruct (connect (engineConnectionConfig account) a) as [[[]|e] a1] eqn:Hconn;
      [|discriminate].
    intros _. exists a1. by right.
Qed.

(** [start] on a copier that is not running, with a follower binding and a
    usable master adapter. *)
Lemma start_run id (w : @World A) copier c0 rest masterAccount a a1 :
  let key := getKey (a_platform masterAccount) (a_firm masterAccount) in
  id ∉ activeCopiers w →
  findCopier (db w) id = Some copier →
  List.filter (λ c, String.eqb (cfg_copierId c) id) (copierAccountConfigs (db w)) = c0 :: rest →
  findAccount (db w) (c_masterAccountId copier) = Some masterAccount →
  adapters w !! key = Some a →
  ready masterAccount a a1 →
  ∃ w1,
    start id w = (Ok tt, w1)
    ∧ adapters w1 = <[key := onTradeUpdate (HandleMasterTrade id) a1]> (adapters w)
    ∧ tradeSubscriptions w1 = <[id := (key, HandleMasterTrade id)]> (tradeSubscriptions w)
    ∧ activeCopiers w1 = {[id]} ∪ activeCopiers w
    ∧ db w1
      = bump_nextId
          (set_executionLogs
             (λ ls, ls ++ [plainLog id "info" "Copier started successfully" None (clock w)
                                    (cuid (nextId (db w)))])
             (db w))
    ∧ clock w1 = clock w.
Proof.
  intros key Hidle Hcop Hcfg Hacc Ha Hready. unfold start.
  rewrite bind_run, gets_run. rewrite bool_decide_eq_false_2 by done.
  rewrite bind_run, gets_run, bind_run, gets_run, Hcop, Hcfg.
  rewrite bind_run, log_run, bind_run, gets_run. cbn [db set_logger]. rewrite Hacc.
  rewrite bind_run, (getAdapter_run _ _ _ a) by done. fold key.
  rewrite bind_run, (ensureConnected_ready _ _ a a1) by done.
  rewrite bind_run, modify_run, bind_run, modify_run, bind_run, modify_run.
  rewrite bind_run, gets_run, bind_run, prisma_run.
  cbn [db set_adapters set_tradeSubscriptions set_activeCopiers clock].
  rewrite afterConnect_db, afterConnect_clock. cbn [db set_logger clock].
  rewrite (executionLog_create_ok _ _ copier) by done. cbn [fst snd].
  eexists. split; [reflexivity|].
  cbn [adapters tradeSubscriptions activeCopiers db clock set_db set_adapters
       set_tradeSubscriptions set_activeCopiers].
  rewrite (afterConnect_adapters _ _ a a1), afterConnect_tradeSubscriptions,
    afterConnect_activeCopiers by done.
  rewrite alter_insert_eq, afterConnect_clock. done.
Qed.

(** What a successful [start] of a copier that was not running found. *)
Lemma start_Ok id (w w1 : @World A) :
  id ∉ activeCopiers w →
  start id w = (Ok tt, w1) →
  ∃ copier c0 rest masterAccount a a1,
    findCopier (db w) id = Some copier
    ∧ List.filter (λ c, String.eqb (cfg_copierId c) id) (copierAccountConfigs (db w))
      = c0 :: rest
    ∧ findAccount (db w) (c_masterAccountId copier) = Some masterAccount
    ∧ adapters w !! getKey (a_platform masterAccount) (a_firm masterAccount) = Some a
    ∧ ready masterAccount a a1.
Proof.
  intros Hidle. unfold start. rewrite bind_run, gets_run.
  rewrite bool_decide_eq_false_2 by done.
  rewrite bind_run, gets_run, bind_run, gets_run.
  destruct (findCopier (db w) id) as [copier|] eqn:Hcop; [|discriminate].
  destruct (List.filter _ _) as [|c0 rest] eqn:Hcfg; [discriminate|].
  rewrite bind_run, log_run, bind_run, gets_run. cbn [db set_logger].
  destruct (findAccount (db w) (c_masterAccountId copier)) as [masterAccount|] eqn:Hacc;
    [|discriminate].
  rewrite bind_run. unfold getAdapter at 1. cbn [adapters set_logger].
  destruct (adapters w !! getKey _ _) as [a|] eqn:Ha; [|discriminate].
  rewrite bind_run.
  destruct (ensureConnected _ masterAccount _) as [[[]|e] w2] eqn:Hens; [|discriminate].
  intros _. apply ensureConnected_Ok with (a := a) in Hens as [a1 Hready]; [|done].
  by exists copier, c0, rest, masterAccount, a, a1.
Qed.

(** X5: [start] is idempotent: once a copier has been started, starting it
    again subscribes nothing, connects nothing and writes no row; the process
    only logs a warning. *)
Theorem start_twice_subscribes_once id (w w1 : @World A) :
  start id w = (Ok tt, w1) →
  start id w1
  = (Ok tt, set_logger (λ ls, ls ++ [("warn", "Copier " +:+ id +:+ " is already running")]) w1).
Proof.
  intros Hrun.
  assert (Hin : id ∈ activeCopiers w1).
  { destruct (decide (id ∈ activeCopiers w)) as [Hin|Hidle].
    - revert Hrun. unfold start. rewrite bind_run, gets_run.
      rewrite bool_decide_eq_true_2 by done. rewrite log_run. by intros [= <-].
    - destruct (start_Ok id w w1 Hidle Hrun)
        as (copier & c0 & rest & masterAccount & a & a1 & Hcop & Hcfg & Hacc & Ha & Hready).
      destruct (start_run id w copier c0 rest masterAccount a a1 Hidle Hcop Hcfg Hacc Ha Hready)
        as (w1' & Hrun' & _ & _ & Hact & _).
      rewrite Hrun in Hrun'. injection Hrun' as <-. rewrite Hact.
      apply elem_of_union. left. by apply elem_of_singleton. }
  unfold start. rewrite bind_run, gets_run. rewrite bool_decide_eq_true_2 by done.
  by rewrite log_run.
Qed.

(** [stop] on a copier whose row is there. *)
Lemma stop_run id (w : @World A) copier :
  findCopier (db w) id = Some copier →
  ∃ w',
    stop id w = (Ok tt, w')
    ∧ activeCopiers w' = activeCopiers w ∖ {[id]}
    ∧ tradeSubscriptions w' = delete id (tradeSubscriptions w)
    ∧ adapters w'
      = match tradeSubscriptions w !! id with
        | Some (key, callback) => alter (offTradeUpdate callback) key (adapters w)
        | None => adapters w
        end
    ∧ calls w' = calls w
    ∧ db w'
      = bump_nextId
          (set_executionLogs
             (λ ls, ls ++ [plainLog id "info" "Copier stopped" None (clock w)
                                    (cuid (nextId (db w)))])
             (db w))
    ∧ clock w' = clock w.
Proof.
  intros Hcop. unfold stop.
  rewrite bind_run, log_run, bind_run, modify_run, bind_run, gets_run.
  cbn [tradeSubscriptions set_activeCopiers set_logger].
  destruct (tradeSubscriptions w !! id) as [[key callback]|] eqn:Hsub.
  - rewrite bind_run, bind_run, modify_run, modify_run.
    rewrite bind_run, gets_run, bind_run, prisma_run.
    cbn [db clock set_adapters set_tradeSubscriptions set_activeCopiers set_logger].
    rewrite (executionLog_create_ok _ _ copier) by done. cbn [fst snd].
    eexists. split; [reflexivity|]. done.
  - rewrite bind_run. cbn [mret M_ret]. rewrite bind_run, gets_run, bind_run, prisma_run.
    cbn [db clock set_activeCopiers set_logger].
    rewrite (executionLog_create_ok _ _ copier) by done. cbn [fst snd].
    eexists. split; [reflexivity|].
    cbn [adapters tradeSubscriptions activeCopiers db clock calls set_db set_adapters
         set_tradeSubscriptions set_activeCopiers set_logger].
    by rewrite delete_id.
Qed.

(** X6: once [CopierService.pause] or [CopierService.stop] has returned, an
    execution of the master that still reaches [handleMasterTrade] is dropped:
    no [Trade] row, no order, no log. *)
Theorem paused_or_stopped_copier_drops_executions id userId (w w' : @World A) copier :
  CopierService_pause id userId w = (Ok copier, w')
  ∨ CopierService_stop id userId w = (Ok copier, w') →
  ∀ execution, handleMasterTrade numberToString id execution w' = (Ok tt, w').
Proof.
  intros Hrun execution.
  assert (Hrow : findCopier (db w') id = Some copier ∧ c_status copier ≠ ACTIVE).
  { destruct Hrun as [Hrun|Hrun].
    - unfold CopierService_pause in Hrun.
      apply bind_Ok_inv in Hrun as (? & w1 & _ & Hrun).
      apply bind_Ok_inv in Hrun as (? & w2 & _ & Hrun).
      rewrite prisma_run in Hrun. injection Hrun as Hres <-.
      destruct (copier_update _ _ (db w2)) as [r d'] eqn:Hupd. simpl in Hres. subst r.
      apply copier_update_Ok in Hupd as (Hfind & Hst & _). cbn. by rewrite Hst.
    - unfold CopierService_stop in Hrun.
      apply bind_Ok_inv in Hrun as (? & w1 & _ & Hrun).
      apply bind_Ok_inv in Hrun as (? & w2 & _ & Hrun).
      rewrite prisma_run in Hrun. injection Hrun as Hres <-.
      destruct (copier_update _ _ (db w2)) as [r d'] eqn:Hupd. simpl in Hres. subst r.
      apply copier_update_Ok in Hupd as (Hfind & Hst & _). cbn. by rewrite Hst. }
  destruct Hrow as [Hfind Hst]. by apply (handleMasterTrade_inactive _ _ copier).
Qed.

(** X7: [CopierService.start] on a stopped copier of the caller whose master
    account is flagged connected: the engine subscribes the copier's
    [handleMasterTrade] to the master's adapter, and only then the row is set
    to [ACTIVE]; the updated row is returned. *)
Theorem CopierService_start_activates id userId (w : @World A) copier c0 rest masterAccount a a1 :
  let key := getKey (a_platform masterAccount) (a_firm masterAccount) in
  findCopier (db w) id = Some copier →
  c_userId copier = userId →
  c_status copier ≠ ACTIVE →
  findAccount (db w) (c_masterAccountId copier) = Some masterAccount →
  a_isConnected masterAccount = true →
  List.filter (λ c, String.eqb (cfg_copierId c) id) (copierAccountConfigs (db w)) = c0 :: rest →
  id ∉ activeCopiers w →
  adapters w !! key = Some a →
  ready masterAccount a a1 →
  ∃ w',
    CopierService_start id userId w = (Ok (copier_set_status ACTIVE copier), w')
    ∧ findCopier (db w') id = Some (copier_set_status ACTIVE copier)
    ∧ id ∈ activeCopiers w'
    ∧ tradeSubscriptions w' !! id = Some (key, HandleMasterTrade id)
    ∧ adapters w' !! key = Some (onTradeUpdate (HandleMasterTrade id) a1)
    ∧ map l_message (executionLogs (db w'))
      = map l_message (executionLogs (db w)) ++ ["Copier started successfully"].
Proof.
  intros key Hcop Hown Hst Hacc Hconn Hcfg Hidle Ha Hready.
  unfold CopierService_start.
  rewrite bind_run, (CopierService_findOne_run _ _ copier) by done.
  rewrite bool_decide_eq_false_2 by done.
  rewrite bind_run, gets_run, Hacc, Hconn. cbn [negb].
  rewrite (findCopier_id _ _ _ Hcop).
  destruct (start_run id w copier c0 rest masterAccount a a1 Hidle Hcop Hcfg Hacc Ha Hready)
    as (w1 & Hrun & Had & Hsub & Hact & Hdb & _).
  rewrite bind_run, Hrun, prisma_run.
  assert (Hcop1 : findCopier (db w1) id = Some copier) by (by rewrite Hdb).
  unfold copier_update. rewrite Hcop1. cbn [fst snd].
  eexists. split; [reflexivity|].
  cbn [db adapters tradeSubscriptions activeCopiers set_db].
  split; [by apply (findCopier_update _ _ (copier_set_status ACTIVE))|].
  split; [rewrite Hact; apply elem_of_union; left; by apply elem_of_singleton|].
  split; [by rewrite Hsub, lookup_insert_eq|].
  split; [by rewrite Had, lookup_insert_eq|].
  rewrite Hdb. cbn. by rewrite map_app.
Qed.

(** X8: a copier without follower bindings cannot be started: the engine
    refuses, [CopierService.start] rejects with the engine's message, and
    nothing has changed: the row keeps its status and nothing is subscribed. *)
Theorem CopierService_start_without_followers id userId (w : @World A) copier masterAccount :
  findCopier (db w) id = Some copier →
  c_userId copier = userId →
  c_status copier ≠ ACTIVE →
  findAccount (db w) (c_masterAccountId copier) = Some masterAccount →
  a_isConnected masterAccount = true →
  List.filter (λ c, String.eqb (cfg_copierId c) id) (copierAccountConfigs (db w)) = [] →
  id ∉ activeCopiers w →
  CopierService_start id userId w
  = (Err ("Copier " +:+ id +:+ " not found or has no slave accounts"), w).
Proof.
  intros Hcop Hown Hst Hacc Hconn Hcfg Hidle. unfold CopierService_start.
  rewrite bind_run, (CopierService_findOne_run _ _ copier) by done.
  rewrite bool_decide_eq_false_2 by done.
  rewrite bind_run, gets_run, Hacc, Hconn. cbn [negb].
  rewrite (findCopier_id _ _ _ Hcop). rewrite bind_run. unfold start.
  rewrite bind_run, gets_run. rewrite bool_decide_eq_false_2 by done.
  by rewrite bind_run, gets_run, bind_run, gets_run, Hcop, Hcfg.
Qed.

End ServiceProofs.

(** * Further properties: follower bindings and deletions *)

Lemma find_is_Some {X} (f : X → bool) (l : list X) x :
  In x l → f x = true → is_Some (List.find f l).
Proof.
  intros Hin Hf. destruct (List.find f l) as [y|] eqn:E; [by eexists|].
  by rewrite (find_none _ _ E x Hin) in Hf.
Qed.

Lemma find_conj {X} (f g : X → bool) (l : list X) x :
  List.find f l = Some x → g x = true → List.find (λ y, f y && g y) l = Some x.
Proof.
  induction l as [|y l IH]; simpl; [done|].
  destruct (f y) eqn:Hf; simpl.
  - intros [= ->] Hg. by rewrite Hg.
  - auto.
Qed.

Lemma existsb_find_None {X} (f : X → bool) (l : list X) :
  List.find f l = None → existsb f l = false.
Proof.
  intros Hnone. apply not_true_iff_false. intros (x & Hin & Hf)%existsb_exists.
  by rewrite (find_none _ _ Hnone x Hin) in Hf.
Qed.

Section BindingProofs.

Context {A : Type} `{!ITradingAdapter A}.

Lemma CopierService_findOne_frame id userId copier (w w0 w1 : @World A) :
  copiers (db w1) = copiers (db w) →
  CopierService_findOne id userId w = (Ok copier, w0) →
  CopierService_findOne id userId w1 = (Ok copier, w1).
Proof.
  intros Hsame. unfold CopierService_findOne. rewrite !bind_run, !gets_run.
  unfold findCopier. rewrite Hsame.
  destruct (List.find _ (copiers (db w))) as [c|]; [|discriminate].
  destruct (_ && _); [discriminate|]. by intros [= <- _].
Qed.

(** X9: [addSlaveAccount] binds an account of the caller to the caller's
    copier: one [CopierAccountConfig] row is appended, active, with [autoDisable] on
    unless the request says otherwise.  Nothing asks that the account differs
    from the copier's master account. *)
Theorem CopierService_addSlaveAccount_binds id userId dto (w : @World A) copier account :
  let row := newSlaveConfig id dto (cuid (nextId (db w))) in
  findCopier (db w) id = Some copier →
  c_userId copier = userId →
  findAccount (db w) (dto_slaveAccountId dto) = Some account →
  a_userId account = userId →
  findConfigByKey (db w) id (dto_slaveAccountId dto) = None →
  ∃ w',
    CopierService_addSlaveAccount id userId dto w = (Ok row, w')
    ∧ copierAccountConfigs (db w') = copierAccountConfigs (db w) ++ [row]
    ∧ cfg_isActive row = true
    ∧ cfg_autoDisable row = default true (dto_autoDisable dto)
    ∧ adapters w' = adapters w
    ∧ activeCopiers w' = activeCopiers w.
Proof.
  intros row Hcop Hown Hacc Hmine Hfree. unfold CopierService_addSlaveAccount.
  rewrite bind_run, (CopierService_findOne_run _ _ copier) by done.
  rewrite bind_run, gets_run.
  rewrite (find_conj _ (λ a, String.eqb (a_userId a) userId) _ account Hacc)
    by (by rewrite Hmine, String.eqb_refl).
  rewrite bind_run, gets_run, Hfree, prisma_run.
  unfold copierAccountConfig_create.
  cbn [cfg_copierId cfg_slaveAccountId newSlaveConfig].
  rewrite Hcop, Hacc. rewrite !bool_decide_eq_true_2 by eauto. cbn [negb].
  rewrite (existsb_find_None _ _ Hfree). cbn [fst snd].
  eexists. split; [reflexivity|]. done.
Qed.

(** X10: a follower account is bound to a copier at most once: after a
    successful [addSlaveAccount], a second request for the same account is
    refused by the service, whatever its other fields, and changes nothing. *)
Theorem CopierService_addSlaveAccount_once id userId dto dto' (w w1 : @World A) row :
  CopierService_addSlaveAccount id userId dto w = (Ok row, w1) →
  dto_slaveAccountId dto' = dto_slaveAccountId dto →
  CopierService_addSlaveAccount id userId dto' w1
  = (Err "Slave account already added to this copier", w1).
Proof.
  intros Hrun Hsame. unfold CopierService_addSlaveAccount in *.
  apply bind_Ok_inv in Hrun as (copier & w0 & Hfind & Hrun).
  destruct (CopierService_findOne_Ok _ _ _ _ _ Hfind) as [-> Hcop].
  rewrite bind_run, gets_run in Hrun.
  destruct (List.find _ (tradingAccounts (db w))) as [account|] eqn:Hacc; [|discriminate].
  rewrite bind_run, gets_run in Hrun.
  destruct (findConfigByKey (db w) id (dto_slaveAccountId dto)) eqn:Hfree; [discriminate|].
  rewrite prisma_run in Hrun. injection Hrun as Hres <-.
  unfold copierAccountConfig_create in *.
  cbn [cfg_copierId cfg_slaveAccountId newSlaveConfig] in *.
  destruct (negb (bool_decide (is_Some (findCopier (db w) id)))); [discriminate|].
  destruct (negb (bool_decide (is_Some (findAccount (db w) (dto_slaveAccountId dto)))));
    [discriminate|].
  destruct (existsb _ (copierAccountConfigs (db w))); [discriminate|].
  cbn [fst snd] in *.
  rewrite bind_run, (CopierService_findOne_frame id (Some userId) copier w w) by done.
  rewrite bind_run, gets_run. cbn [db set_db tradingAccounts bump_nextId
    set_copierAccountConfigs]. rewrite Hsame, Hacc.
  rewrite bind_run, gets_run. cbn [db set_db].
  destruct (find_is_Some (sameConfigKey id (dto_slaveAccountId dto))
              (copierAccountConfigs (db w)
               ++ [newSlaveConfig id dto (cuid (nextId (db w)))])
              (newSlaveConfig id dto (cuid (nextId (db w))))) as [found Hfound].
  { apply in_app_iff. right. by left. }
  { unfold sameConfigKey. cbn. by rewrite !String.eqb_refl. }
  unfold findConfigByKey. cbn [copierAccountConfigs bump_nextId set_copierAccountConfigs].
  by rewrite Hfound.
Qed.

(** X11: [CopierService.remove] stops the copier and deletes it with what
    hangs on it: afterwards the copier is neither running nor subscribed, no
    follower binding, mapping or audit entry refers to it, and every trade is
    still there, none of them tied to the copier. *)
Theorem CopierService_remove_cascades id userId (w w' : @World A) copier :
  CopierService_remove id userId w = (Ok copier, w') →
  findCopier (db w') id = None
  ∧ (id ∉ activeCopiers w')
  ∧ tradeSubscriptions w' !! id = None
  ∧ (∀ c, In c (copierAccountConfigs (db w')) → cfg_copierId c ≠ id)
  ∧ (∀ m, In m (tradeMappings (db w')) → tm_copierId m ≠ id)
  ∧ (∀ l, In l (executionLogs (db w')) → l_copierId l ≠ id)
  ∧ map t_id (trades (db w')) = map t_id (trades (db w))
  ∧ (∀ t, In t (trades (db w')) → t_copierId t ≠ Some id)
  ∧ tradingAccounts (db w') = tradingAccounts (db w).
Proof.
  unfold CopierService_remove, CopierService_stop. intros Hrun.
  apply bind_Ok_inv in Hrun as (c0 & w0 & Hfind & Hrun).
  destruct (CopierService_findOne_Ok _ _ _ _ _ Hfind) as [-> Hcop].
  apply bind_Ok_inv in Hrun as (c1 & w3 & Hstop & Hdel).
  apply bind_Ok_inv in Hstop as (c2 & w1 & Hfind1 & Hstop).
  destruct (CopierService_findOne_Ok _ _ _ _ _ Hfind1) as [-> _].
  apply bind_Ok_inv in Hstop as ([] & w2 & Hstop & Hupd).
  destruct (stop_run id w c0 Hcop) as (w2' & Hstop' & Hact & Hsub & _ & _ & Hdb & _).
  rewrite Hstop in Hstop'. injection Hstop' as <-.
  rewrite prisma_run in Hupd. rewrite prisma_run in Hdel.
  injection Hupd as Hres <-. injection Hdel as Hres' <-.
  unfold copier_update, copier_delete in *. cbn [db set_db] in *.
  destruct (findCopier (db w2) id) as [c3|]; [|discriminate]. cbn [fst snd] in *.
  destruct (findCopier _ id) as [c4|]; [|discriminate]. cbn [fst snd] in *.
  cbn [activeCopiers tradeSubscriptions set_db db copiers copierAccountConfigs trades
       tradeMappings executionLogs tradingAccounts set_copiers set_copierAccountConfigs
       set_trades set_tradeMappings set_executionLogs].
  rewrite Hact, Hsub, Hdb.
  cbn [copiers copierAccountConfigs trades tradeMappings executionLogs tradingAccounts
       bump_nextId set_executionLogs].
  split.
  { unfold findCopier. cbn [copiers].
    destruct (List.find _ _) as [x|] eqn:E; [|done].
    apply find_some in E as [Hin Heq]. apply filter_neq_In in Hin as [_ Hne].
    by apply String.eqb_eq in Heq. }
  split; [intros [_ Hn]%elem_of_difference; apply Hn; by apply elem_of_singleton|].
  split; [apply lookup_delete_eq|].
  split; [intros c Hin; by apply (filter_neq_In cfg_copierId) in Hin as [_ ?]|].
  split; [intros m Hin; by apply (filter_neq_In tm_copierId) in Hin as [_ ?]|].
  split; [intros l Hin; by apply (filter_neq_In l_copierId) in Hin as [_ ?]|].
  split.
  { rewrite map_map. apply map_ext. intros t. by destruct (refersTo _ _). }
  split; [|done].
  intros t (t0 & <- & _)%in_map_iff Href.
  destruct (refersTo (t_copierId t0) id) eqn:E; [done|].
  apply refersTo_Some in Href. congruence.
Qed.

End BindingProofs.

(** * Further properties: [AccountsService] *)

Lemma filter_nil_existsb {X} (f : X → bool) (l : list X) :
  existsb f l = false → List.filter f l = [].
Proof.
  induction l as [|x l IH]; simpl; [done|].
  destruct (f x); simpl; [discriminate | auto].
Qed.

Lemma filter_pos_existsb {X} (f : X → bool) (l : list X) :
  existsb f l = true → (0 <? length (List.filter f l))%nat = true.
Proof.
  induction l as [|x l IH]; simpl; [discriminate|].
  destruct (f x); simpl; [done | auto].
Qed.

Lemma filter_pos_existsb_inv {X} (f : X → bool) (l : list X) :
  (0 <? length (List.filter f l))%nat = false → existsb f l = false.
Proof.
  intros Hlen. destruct (existsb f l) eqn:E; [|done].
  by rewrite (filter_pos_existsb _ _ E) in Hlen.
Qed.

Lemma tryCatch_Ok_inv {S X} (body : M S X) (handler : string → M S X) (s s' : S) (x : X) :
  (∀ e s1, (handler e s1).1 ≠ Ok x) →
  tryCatch body handler s = (Ok x, s') → body s = (Ok x, s').
Proof.
  intros Hh. rewrite tryCatch_run. destruct (body s) as [[y|e] s1]; [done|].
  intros Hrun. specialize (Hh e s1). by rewrite Hrun in Hh.
Qed.

Section AccountProofs.

Context {A : Type} `{!ITradingAdapter A}.

Global Instance sameDb_preorder : PreOrder (@sameDb A).
Proof. split; [done|]. intros w1 w2 w3. unfold sameDb. congruence. Qed.

Lemma findOne_run id userId account (w : @World A) :
  findAccount (db w) id = Some account →
  a_userId account = userId →
  findOne id (Some userId) w = (Ok account, w).
Proof.
  intros Hacc Hown. unfold findOne. rewrite bind_run, gets_run, Hacc, Hown.
  cbn [default]. by rewrite String.eqb_refl, andb_false_r.
Qed.

Lemma findOne_other_user id userId account (w : @World A) :
  findAccount (db w) id = Some account →
  userId ≠ "" →
  a_userId account ≠ userId →
  findOne id (Some userId) w = (Err "Unauthorized", w).
Proof.
  intros Hacc Hne Hown. unfold findOne. rewrite bind_run, gets_run, Hacc.
  change (default "" (Some userId)) with userId. cbn [truthyS].
  destruct (String.eqb_spec userId "") as [|_]; [done|].
  destruct (String.eqb_spec (a_userId account) userId) as [|_]; [done | reflexivity].
Qed.

Lemma findOne_state id userId (w : @World A) : (findOne id userId w).2 = w.
Proof.
  unfold findOne. rewrite bind_run, gets_run.
  destruct (findAccount (db w) id); [|done]. by destruct (_ && _).
Qed.

Lemma findOne_Ok id userId account (w w' : @World A) :
  findOne id userId w = (Ok account, w') → w' = w ∧ findAccount (db w) id = Some account.
Proof.
  unfold findOne. rewrite bind_run, gets_run.
  destruct (findAccount (db w) id) as [a|]; [|discriminate].
  destruct (_ && _); [discriminate|]. by intros [= <- <-].
Qed.

(** X12: the account manager acts on accounts of the caller only: for an
    account of another user, [connect], [disconnect] and [remove] reject with
    [Unauthorized] before any adapter is looked up or any row is written. *)
Theorem AccountsService_other_user id userId account (w : @World A) :
  findAccount (db w) id = Some account →
  userId ≠ "" →
  a_userId account ≠ userId →
  AccountsService_connect id userId w = (Err "Unauthorized", w)
  ∧ AccountsService_disconnect id userId w = (Err "Unauthorized", w)
  ∧ AccountsService_remove id userId w
    = (Err "Unauthorized",
       set_logger (λ ls, ls ++ [("log", "Attempting to delete account " +:+ id +:+
                                        " for user " +:+ userId)]) w).
Proof.
  intros Hacc Hne Hown. repeat split.
  - unfold AccountsService_connect. by rewrite bind_run, (findOne_other_user _ _ account).
  - unfold AccountsService_disconnect. by rewrite bind_run, (findOne_other_user _ _ account).
  - unfold AccountsService_remove. rewrite bind_run, log_run, bind_run.
    by rewrite (findOne_other_user _ _ account).
Qed.

(** X13: [connect] on success: the adapter is connected with the stored
    credentials, and the row returned and stored is flagged connected, synced
    at the time of the call, with any earlier error message cleared. *)
Theorem AccountsService_connect_success (w : @World A) id userId account a a1 :
  let key := getKey (a_platform account) (a_firm account) in
  let cc := accountConnectionConfig account in
  let row := account_set_connection true (Some (clock w)) None account in
  findAccount (db w) id = Some account →
  a_userId account = userId →
  adapters w !! key = Some a →
  connect cc a = (Ok tt, a1) →
  ∃ w',
    AccountsService_connect id userId w = (Ok row, w')
    ∧ findAccount (db w') id = Some row
    ∧ adapters w' = <[key := a1]> (adapters w)
    ∧ calls w' = calls w ++ [(key, CallConnect cc)].
Proof.
  intros key cc row Hacc Hown Ha Hconn. unfold AccountsService_connect.
  rewrite bind_run, (findOne_run _ _ account) by done.
  rewrite bind_run, (getAdapter_run _ _ _ a Ha).
  rewrite tryCatch_run, bind_run, (onAdapter_run _ _ _ _ a Ha). fold cc key. rewrite Hconn.
  cbn [fst snd]. rewrite bind_run, gets_run, prisma_run. cbn [db clock set_adapters set_calls].
  unfold tradingAccount_update. rewrite Hacc. cbn [fst snd].
  eexists. split; [reflexivity|]. split; [|done].
  cbn [db set_db].
  by apply (findAccount_update _ _ (account_set_connection true (Some (clock w)) None)).
Qed.

(** X14: an account that a copier uses, as master or as follower, is not
    removed: [remove] rejects, and has touched neither the database nor any
    adapter. *)
Theorem AccountsService_remove_referenced id userId (w : @World A) :
  existsb (λ c, String.eqb (c_masterAccountId c) id) (copiers (db w)) = true
  ∨ existsb (λ c, String.eqb (cfg_slaveAccountId c) id) (copierAccountConfigs (db w)) = true →
  ∃ message w',
    AccountsService_remove id userId w = (Err message, w')
    ∧ db w' = db w ∧ adapters w' = adapters w ∧ calls w' = calls w.
Proof.
  intros Href. unfold AccountsService_remove. rewrite bind_run, log_run, bind_run.
  pose proof (findOne_state id (Some userId)
                (set_logger (λ ls, ls ++ [("log", "Attempting to delete account " +:+ id +:+
                                                  " for user " +:+ userId)]) w)) as Hst.
  destruct (findOne id (Some userId) _) as [[account|e] w1]; simpl in Hst; subst w1;
    [|by eexists _, _].
  rewrite bind_run, gets_run. cbn [db set_logger].
  destruct (0 <? length (List.filter _ (copiers (db w))))%nat eqn:Hm.
  { rewrite bind_run, log_run. by eexists _, _. }
  apply filter_pos_existsb_inv in Hm. destruct Href as [Href|Href]; [congruence|].
  rewrite bind_run, gets_run. cbn [db set_logger].
  rewrite (filter_pos_existsb _ _ Href).
  rewrite bind_run, log_run, bind_run, gets_run.
  destruct (copierNamesOf _ _); by eexists _, _.
Qed.

Lemma log_sameDb level message : preserves (@sameDb A) (log level message).
Proof. by intros w. Qed.

Lemma getAdapter_sameDb platform firm : preserves (@sameDb A) (getAdapter platform firm).
Proof. intros w. unfold getAdapter. by case_match. Qed.

Lemma adapterIsConnected_sameDb key : preserves (@sameDb A) (adapterIsConnected key).
Proof. intros w. unfold adapterIsConnected. by case_match. Qed.

Lemma onAdapter_sameDb {X} key call (method : M A X) :
  preserves (@sameDb A) (onAdapter key call method).
Proof.
  intros w. unfold onAdapter. case_match; [|done]. by destruct (method _).
Qed.

(** The statements of [remove] between the guards and the [delete]. *)
Lemma disconnectBeforeDelete_sameDb id (account : TradingAccount) :
  preserves (@sameDb A)
    (if a_isConnected account then
       log "log" ("Account " +:+ id +:+ " is connected, attempting to disconnect...");;
       tryCatch
         (adapter ← getAdapter (a_platform account) (a_firm account);
          isConn ← adapterIsConnected adapter;
          if (isConn : bool) then onAdapter adapter CallDisconnect disconnect
          else mret tt)
         (λ _, log "warn" ("Failed to disconnect adapter for account " +:+ id +:+
                           ", continuing with deletion:"))
     else mret tt).
Proof.
  pose proof log_sameDb. pose proof getAdapter_sameDb. pose proof adapterIsConnected_sameDb.
  pose proof (@onAdapter_sameDb unit).
  repeat first [ frame_step | solve [eauto] ].
Qed.

(** X15: [remove] returns an account only if nothing referred to it: no
    copier had it as master, no follower binding pointed at it and no trade
    was booked on it.  The row is then gone, its transactions are detached,
    and trades and copiers are as they were. *)
Theorem AccountsService_remove_Ok id userId (w w' : @World A) account :
  AccountsService_remove id userId w = (Ok account, w') →
  existsb (λ c, String.eqb (c_masterAccountId c) id) (copiers (db w)) = false
  ∧ existsb (λ c, String.eqb (cfg_slaveAccountId c) id) (copierAccountConfigs (db w)) = false
  ∧ existsb (λ t, String.eqb (t_accountId t) id) (trades (db w)) = false
  ∧ findAccount (db w) id = Some account
  ∧ findAccount (db w') id = None
  ∧ (∀ t, In t (transactions (db w')) → tx_tradingAccountId t ≠ Some id)
  ∧ trades (db w') = trades (db w)
  ∧ copiers (db w') = copiers (db w).
Proof.
  unfold AccountsService_remove. intros Hrun.
  apply bind_Ok_inv in Hrun as ([] & w0 & Hlog & Hrun). rewrite log_run in Hlog.
  injection Hlog as <-.
  apply bind_Ok_inv in Hrun as (account0 & w1 & Hfind & Hrun).
  destruct (findOne_Ok _ _ _ _ _ Hfind) as [-> Hacc]. cbn [db set_logger] in Hacc.
  rewrite bind_run, gets_run in Hrun. cbn [db set_logger] in Hrun.
  destruct (0 <? length (List.filter _ (copiers (db w))))%nat eqn:Hm.
  { rewrite bind_run, log_run in Hrun. discriminate. }
  rewrite bind_run, gets_run in Hrun. cbn [db set_logger] in Hrun.
  destruct (0 <? length (List.filter _ (copierAccountConfigs (db w))))%nat eqn:Hs.
  { rewrite bind_run, log_run, bind_run, gets_run in Hrun.
    by destruct (copierNamesOf _ _). }
  apply filter_pos_existsb_inv in Hm, Hs.
  rewrite bind_run, gets_run in Hrun. cbn [db set_logger] in Hrun.
  apply bind_Ok_inv in Hrun as ([] & w2 & Hcount & Hrun).
  assert (Hdb2 : db w2 = db w).
  { destruct (0 <? _)%nat; [rewrite log_run in Hcount|]; by injection Hcount as <-. }
  apply tryCatch_Ok_inv in Hrun.
  2:{ intros e s1. rewrite bind_run, log_run. by destruct (isP2003 e). }
  apply bind_Ok_inv in Hrun as ([] & w3 & Hdisc & Hrun).
  pose proof (disconnectBeforeDelete_sameDb id account0 w2) as Hdb3.
  rewrite Hdisc in Hdb3. unfold sameDb in Hdb3. simpl in Hdb3.
  apply bind_Ok_inv in Hrun as (deleted & w4 & Hdel & Hrun).
  rewrite bind_run, log_run in Hrun. injection Hrun as <- <-.
  rewrite prisma_run in Hdel. injection Hdel as Hres <-.
  rewrite Hdb3, Hdb2 in *. cbn [db set_logger set_db].
  unfold tradingAccount_delete in *. rewrite Hacc, Hm in *.
  destruct (existsb (λ t, String.eqb (t_accountId t) id) (trades (db w))) eqn:Ht;
    [discriminate|].
  cbn [fst snd] in *. injection Hres as ->.
  repeat split; try done.
  - unfold findAccount. cbn [tradingAccounts set_tradingAccounts set_copierAccountConfigs
      set_transactions].
    destruct (List.find _ _) as [x|] eqn:E; [|done].
    apply find_some in E as [Hin Heq]. apply filter_neq_In in Hin as [_ Hne].
    by apply String.eqb_eq in Heq.
  - cbn [transactions set_tradingAccounts set_copierAccountConfigs set_transactions].
    intros t (t0 & <- & _)%in_map_iff Href.
    destruct (refersTo (tx_tradingAccountId t0) id) eqn:E; [done|].
    apply refersTo_Some in Href. congruence.
Qed.

(** The [delete] of an account that [Hrefused] shows to be refused: run it,
    and go on in the handler. *)
Ltac remove_delete_refused id Hrefused :=
  match goal with
  | |- context [prisma (tradingAccount_delete id) ?w0] =>
      let Hr := fresh "Hr" in
      let Hst := fresh "Hst" in
      let r := fresh "r" in
      let w1 := fresh "w" in
      destruct (Hrefused w0 eq_refl) as [Hr Hst];
      destruct (prisma (tradingAccount_delete id) w0) as [r w1];
      cbn [fst snd] in Hr, Hst; subst r w1
  end.

(** X16: an account of the caller with trades and no copier on it is never
    deleted, whatever the log line says: the [delete] hits
    [Trade_accountId_fkey] and [remove] rejects with the active-relations
    message, the database being as it was.  If the account is flagged
    connected and the adapter of its platform and firm reports connected, that
    adapter has been disconnected by then; otherwise no adapter is touched. *)
Theorem AccountsService_remove_with_trades id userId (w : @World A) account :
  let key := getKey (a_platform account) (a_firm account) in
  let tradesCount :=
    length (List.filter (λ t, String.eqb (t_accountId t) id) (trades (db w))) in
  findAccount (db w) id = Some account →
  a_userId account = userId →
  existsb (λ c, String.eqb (c_masterAccountId c) id) (copiers (db w)) = false →
  existsb (λ c, String.eqb (cfg_slaveAccountId c) id) (copierAccountConfigs (db w)) = false →
  existsb (λ t, String.eqb (t_accountId t) id) (trades (db w)) = true →
  ∃ w',
    AccountsService_remove id userId w = (Err activeRelations, w')
    ∧ db w' = db w
    ∧ In ("log", "Account " +:+ id +:+ " has " +:+ pretty tradesCount +:+
                 " trades, but will be deleted anyway (trades will be preserved)")
         (logger w')
    ∧ match adapters w !! key with
      | Some a =>
          if a_isConnected account && isConnected a
          then calls w' = calls w ++ [(key, CallDisconnect)]
               ∧ adapters w' = <[key := (disconnect a).2]> (adapters w)
          else calls w' = calls w ∧ adapters w' = adapters w
      | None => calls w' = calls w ∧ adapters w' = adapters w
      end.
Proof.
  intros key tradesCount Hacc Hown Hm Hs Ht. unfold AccountsService_remove.
  rewrite bind_run, log_run, bind_run, (findOne_run _ _ account) by done.
  rewrite bind_run, gets_run. cbn [db set_logger].
  rewrite (filter_nil_existsb _ _ Hm). cbn [length]. change (0 <? 0)%nat with false. cbv iota.
  rewrite bind_run, gets_run. cbn [db set_logger].
  rewrite (filter_nil_existsb _ _ Hs). cbn [length]. change (0 <? 0)%nat with false. cbv iota.
  rewrite bind_run, gets_run. cbn [db set_logger].
  rewrite (filter_pos_existsb _ _ Ht). fold tradesCount.
  rewrite bind_run, log_run, tryCatch_run.
  assert (Hrefused : ∀ w0 : @World A, db w0 = db w →
            (prisma (tradingAccount_delete id) w0).1 = Err (P2003 "Trade_accountId_fkey")
            ∧ (prisma (tradingAccount_delete id) w0).2 = w0).
  { intros w0 Hdb. rewrite prisma_run. unfold tradingAccount_delete.
    rewrite Hdb, Hacc, Hm, Ht. cbn [fst snd]. split; [done|].
    rewrite <- Hdb. by destruct w0. }
  destruct (a_isConnected account) eqn:Hflag; cbn [andb].
  - rewrite bind_run, bind_run, log_run, tryCatch_run, bind_run.
    unfold getAdapter at 1. cbn [adapters set_logger]. fold key.
    destruct (adapters w !! key) as [a|] eqn:Ha.
    + rewrite bind_run. unfold adapterIsConnected at 1. cbn [adapters set_logger]. rewrite Ha.
      destruct (isConnected a) eqn:Hconn.
      * rewrite (onAdapter_run _ _ _ _ a) by done.
        destruct (disconnect a) as [[[]|e] a'] eqn:Hd; cbn [fst snd];
          rewrite ?log_run, bind_run;
          remove_delete_refused id Hrefused;
          rewrite bind_run, log_run; (eexists; split; [reflexivity|]);
          cbn [db logger calls adapters set_logger set_adapters set_calls];
          (split; [done|]); (split; [|done]).
        -- rewrite <- (app_nil_r (_ ++ [_])) at 1. rewrite <- !app_assoc.
           apply in_or_app. right. apply in_or_app. right. by left.
        -- rewrite <- !app_assoc. apply in_or_app. right. apply in_or_app. right. by left.
      * cbn [mret M_ret]. rewrite bind_run.
        remove_delete_refused id Hrefused.
        rewrite bind_run, log_run. eexists. split; [reflexivity|].
        cbn [db logger calls adapters set_logger]. split; [done|]. split; [|done].
        rewrite <- !app_assoc. apply in_or_app. right. apply in_or_app. right. by left.
    + rewrite log_run, bind_run.
      remove_delete_refused id Hrefused.
      rewrite bind_run, log_run. eexists. split; [reflexivity|].
      cbn [db logger calls adapters set_logger]. split; [done|]. split; [|done].
      rewrite <- !app_assoc. apply in_or_app. right. apply in_or_app. right. by left.
  - rewrite bind_run. unfold mret at 1, M_ret at 1. cbv iota. rewrite bind_run.
    remove_delete_refused id Hrefused.
    rewrite bind_run, log_run. eexists. split; [reflexivity|].
    cbn [db logger calls adapters set_logger]. split; [done|]. split.
    + rewrite <- !app_assoc. apply in_or_app. right. apply in_or_app. right. by left.
    + by destruct (adapters w !! key).
Qed.

End AccountProofs.

(** * Further properties: [BaseHttpAdapter] *)

(** X17: [placeOrder] fails without a trace: when it rejects, the adapter is
    exactly as it was, so no callback has been notified; and it rejects either
    because the adapter is not connected or with the broker's own error. *)
Theorem BaseHttpAdapter_placeOrder_Err_silent order a a' message :
  BaseHttpAdapter_placeOrder order a = (Err message, a') →
  a' = a
  ∧ ((connected a = false ∧ message = "Not connected to trading platform")
     ∨ (connected a = true ∧ executePlaceOrder (platformImpl a) order = Err message)).
Proof.
  unfold BaseHttpAdapter_placeOrder. rewrite bind_run. unfold gets at 1.
  destruct (connected a) eqn:Hc; cbn [negb].
  - rewrite tryCatch_run, bind_run. unfold gets at 1. rewrite bind_run. unfold liftResult.
    destruct (executePlaceOrder (platformImpl a) order) as [execution|e] eqn:Hex.
    + discriminate.
    + intros [= <- <-]. split; [done|]. by right.
  - intros [= <- <-]. split; [done|]. by left.
Qed.

(** X18: [connect] succeeds exactly when the account-info request does.  On
    success the adapter is connected and polls; on failure it is flagged
    disconnected, even if it was connected before, and the error is wrapped as
    [Connection failed: ...].  Either way the configuration passed in is kept
    and the registered callbacks survive. *)
Theorem BaseHttpAdapter_connect_outcome config a :
  let r := (BaseHttpAdapter_connect config a).1 in
  let a' := (BaseHttpAdapter_connect config a).2 in
  bh_config a' = Some config
  ∧ tradeCallbacks a' = tradeCallbacks a
  ∧ notified a' = notified a
  ∧ match fetchAccountInfo (platformImpl a) config with
    | Ok _ => r = Ok tt ∧ connected a' = true ∧ pollingInterval a' = true
    | Err e =>
        r = Err ("Connection failed: " +:+ e) ∧ connected a' = false
        ∧ pollingInterval a' = pollingInterval a
    end.
Proof.
  unfold BaseHttpAdapter_connect, tryCatch, mbind, M_bind, modify, gets, liftResult, throw.
  cbn [platformImpl bh_set_config].
  destruct (fetchAccountInfo (platformImpl a) config) as [info|e]; cbn.
  - unfold startTradePolling. cbn. by destruct (pollingInterval a) eqn:Hp; cbn; rewrite ?Hp.
  - done.
Qed.

(** X19: [disconnect] always succeeds and leaves an adapter that is not
    connected, has no configuration, no callbacks and no polling; a second
    [disconnect] changes nothing more, and [placeOrder] is refused. *)
Theorem BaseHttpAdapter_disconnect_resets a :
  let a' := (BaseHttpAdapter_disconnect a).2 in
  (BaseHttpAdapter_disconnect a).1 = Ok tt
  ∧ connected a' = false
  ∧ bh_config a' = None
  ∧ tradeCallbacks a' = []
  ∧ positionCallbacks a' = []
  ∧ pollingInterval a' = false
  ∧ notified a' = notified a
  ∧ (BaseHttpAdapter_disconnect a').2 = a'
  ∧ ∀ order,
      BaseHttpAdapter_placeOrder order a' = (Err "Not connected to trading platform", a').
Proof.
  unfold BaseHttpAdapter_disconnect, BaseHttpAdapter_placeOrder, tryCatch, mbind, M_bind,
    modify, gets, liftResult, throw, stopTradePolling.
  destruct (pollingInterval a) eqn:Hp; cbn; rewrite ?Hp; done.
Qed.

Lemma removeFirst_count callback other (cbs : list Callback) :
  count_occ Callback_eq_dec (removeFirst callback cbs) other
  = if decide (other = callback)
    then pred (count_occ Callback_eq_dec cbs other)
    else count_occ Callback_eq_dec cbs other.
Proof.
  induction cbs as [|c cbs IH]; simpl; [by case_decide|].
  repeat case_decide; subst; simpl;
    repeat (destruct (Callback_eq_dec _ _)); subst; try congruence;
    rewrite ?IH; repeat case_decide; subst; try congruence.
  reflexivity.
Qed.

Lemma removeFirst_snoc callback (cbs : list Callback) :
  callback ∉ cbs → removeFirst callback (cbs ++ [callback]) = cbs.
Proof.
  induction cbs as [|c cbs IH]; simpl; intros Hnot.
  - by rewrite decide_True.
  - apply not_elem_of_cons in Hnot as [Hne Hnot].
    rewrite decide_False by done. by rewrite IH.
Qed.

(** X20: the disposer that [onTradeUpdate] returns undoes the subscription:
    for a callback that was not yet registered the adapter is back as it was.
    In general it takes away one registration of its callback and none of any
    other. *)
Theorem BaseHttpAdapter_disposer callback a :
  (callback ∉ tradeCallbacks a →
   BaseHttpAdapter_offTradeUpdate callback (BaseHttpAdapter_onTradeUpdate callback a) = a)
  ∧ count_occ Callback_eq_dec (tradeCallbacks (BaseHttpAdapter_offTradeUpdate callback a)) callback
    = pred (count_occ Callback_eq_dec (tradeCallbacks a) callback)
  ∧ ∀ other, other ≠ callback →
      count_occ Callback_eq_dec (tradeCallbacks (BaseHttpAdapter_offTradeUpdate callback a)) other
      = count_occ Callback_eq_dec (tradeCallbacks a) other.
Proof.
  split; [|split].
  - intros Hnot. unfold BaseHttpAdapter_offTradeUpdate, BaseHttpAdapter_onTradeUpdate.
    destruct a. unfold bh_set_tradeCallbacks. cbn in *. by rewrite removeFirst_snoc.
  - cbn. rewrite removeFirst_count. by rewrite decide_True.
  - intros other Hne. cbn. rewrite removeFirst_count. by rewrite decide_False.
Qed.

Lemma fold_invoke_lastTradeId execution cbs a :
  lastTradeId (fold_left (invoke execution) cbs a) = lastTradeId a.
Proof. revert a. induction cbs as [|cb cbs IH]; intros a; simpl; [done|]. by rewrite IH. Qed.

Lemma pollStep_new a trade :
  lastTradeId a ≠ Some (e_tradeId trade) →
  notified (pollStep a trade) = notified a ++ map (λ cb, (cb, trade)) (tradeCallbacks a)
  ∧ tradeCallbacks (pollStep a trade) = tradeCallbacks a
  ∧ lastTradeId (pollStep a trade) = Some (e_tradeId trade).
Proof.
  intros Hnew. unfold pollStep.
  rewrite (bool_decide_eq_false_2 (Some (e_tradeId trade) = lastTradeId a)) by congruence.
  rewrite orb_true_r. cbn. unfold notifyTradeCallbacks.
  destruct (fold_invoke trade (tradeCallbacks a) a) as (Hn & Ht & _). by rewrite Hn, Ht.
Qed.

Lemma pollTick_all trades : ∀ a,
  NoDup (map e_tradeId trades) →
  lastTradeId a ≠ e_tradeId <$> head trades →
  trades ≠ [] →
  notified (pollTick (Ok trades) a) = notified a ++ deliveries (tradeCallbacks a) trades
  ∧ tradeCallbacks (pollTick (Ok trades) a) = tradeCallbacks a
  ∧ lastTradeId (pollTick (Ok trades) a) = e_tradeId <$> last trades.
Proof.
  induction trades as [|t trades IH]; intros a Hnd Hhead Hne; [done|].
  cbn [pollTick fold_left]. cbn in Hhead.
  destruct (pollStep_new a t Hhead) as (Hn & Ht & Hl).
  apply NoDup_cons in Hnd as [Hnot Hnd].
  destruct trades as [|t2 trades].
  - cbn. rewrite Hn, Ht, Hl. unfold deliveries. cbn. by rewrite app_nil_r.
  - specialize (IH (pollStep a t) Hnd). cbn [pollTick] in IH.
    destruct IH as (Hn' & Ht' & Hl').
    + rewrite Hl. cbn. intros [= Heq]. apply Hnot. rewrite Heq. cbn. left.
    + done.
    + rewrite Hn', Ht', Hl', Hn, Ht. unfold deliveries. cbn.
      by rewrite <- !app_assoc.
Qed.

Lemma last_head_distinct {X} (f : X → string) (l : list X) :
  NoDup (map f l) → (2 ≤ length l)%nat → f <$> last l ≠ f <$> head l.
Proof.
  destruct l as [|t1 [|t2 rest]]; simpl length; try lia. intros Hnd _.
  change (map f (t1 :: t2 :: rest)) with (f t1 :: map f (t2 :: rest)) in Hnd.
  apply NoDup_cons in Hnd as [Hnot _].
  change (last (t1 :: t2 :: rest)) with (last (t2 :: rest)).
  destruct (last (t2 :: rest)) as [tl|] eqn:Hlast; [|done].
  intros [= Heq]. apply Hnot. rewrite <- Heq.
  apply list_elem_of_In, in_map, list_elem_of_In.
  apply last_Some in Hlast as [l' ->]. apply elem_of_app. right. by left.
Qed.

(** X21: the poll remembers one trade id only.  When [fetchTrades] answers
    the same two or more trades on consecutive polls, every one of them is
    delivered to every callback again on each poll. *)
Theorem pollTick_replays_batch a trades :
  lastTradeId a = None →
  NoDup (map e_tradeId trades) →
  (2 ≤ length trades)%nat →
  notified (pollTick (Ok trades) (pollTick (Ok trades) a))
  = notified a ++ deliveries (tradeCallbacks a) trades ++ deliveries (tradeCallbacks a) trades.
Proof.
  intros Hnone Hnd Hlen.
  assert (Hne : trades ≠ []) by (intros ->; simpl in Hlen; lia).
  destruct (pollTick_all trades a Hnd) as (Hn & Ht & Hl); [|done|].
  { rewrite Hnone. by destruct trades. }
  destruct (pollTick_all trades (pollTick (Ok trades) a) Hnd) as (Hn' & _); [|done|].
  { rewrite Hl. by apply last_head_distinct. }
  by rewrite Hn', Hn, Ht, <- app_assoc.
Qed.

(** * Further properties: the services on [BaseHttpAdapter] instances *)

Lemma BaseHttpAdapter_connect_tradeCallbacks config a :
  tradeCallbacks (BaseHttpAdapter_connect config a).2 = tradeCallbacks a.
Proof.
  unfold BaseHttpAdapter_connect, tryCatch, mbind, M_bind, modify, gets, liftResult, throw.
  cbn [platformImpl bh_set_config].
  destruct (fetchAccountInfo (platformImpl a) config) as [info|e]; cbn; [|done].
  unfold startTradePolling. cbn. by destruct (pollingInterval a).
Qed.

Lemma ready_tradeCallbacks account (a a1 : BaseHttpAdapter) :
  ready account a a1 → tradeCallbacks a1 = tradeCallbacks a.
Proof.
  intros [[_ ->]|[_ Hconn]]; [done|].
  pose proof (BaseHttpAdapter_connect_tradeCallbacks (engineConnectionConfig account) a) as Hc.
  change (connect (engineConnectionConfig account) a)
    with (BaseHttpAdapter_connect (engineConnectionConfig account) a) in Hconn.
  by rewrite Hconn in Hc.
Qed.

(** X22: [start] followed by [stop] leaves the callbacks of every adapter as
    they were: the copier's [handleMasterTrade] is registered once and taken
    away again, the copier is neither running nor subscribed, and the two
    calls are on record in [ExecutionLog]. *)
Theorem start_stop_round_trip id (w w1 : @World BaseHttpAdapter) :
  id ∉ activeCopiers w →
  tradeSubscriptions w !! id = None →
  (∀ key a, adapters w !! key = Some a → HandleMasterTrade id ∉ tradeCallbacks a) →
  start id w = (Ok tt, w1) →
  ∃ w2,
    stop id w1 = (Ok tt, w2)
    ∧ (id ∉ activeCopiers w2)
    ∧ tradeSubscriptions w2 = tradeSubscriptions w
    ∧ (∀ key, tradeCallbacks <$> adapters w2 !! key = tradeCallbacks <$> adapters w !! key)
    ∧ map l_message (executionLogs (db w2))
      = map l_message (executionLogs (db w)) ++ ["Copier started successfully"; "Copier stopped"].
Proof.
  intros Hidle Hnosub Hfresh Hstart.
  destruct (start_Ok id w w1 Hidle Hstart)
    as (copier & c0 & rest & masterAccount & a & a1 & Hcop & Hcfg & Hacc & Ha & Hready).
  destruct (start_run id w copier c0 rest masterAccount a a1 Hidle Hcop Hcfg Hacc Ha Hready)
    as (w1' & Hrun & Had & Hsub & Hact & Hdb & _).
  rewrite Hstart in Hrun. injection Hrun as <-.
  assert (Hcop1 : findCopier (db w1) id = Some copier) by (by rewrite Hdb).
  destruct (stop_run id w1 copier Hcop1) as (w2 & Hstop & Hact2 & Hsub2 & Had2 & _ & Hdb2 & _).
  exists w2. split; [done|].
  split; [rewrite Hact2; intros [_ Hn]%elem_of_difference; apply Hn; by apply elem_of_singleton|].
  split; [by rewrite Hsub2, Hsub, delete_insert_eq, delete_id|].
  split.
  - intros key. rewrite Had2, Hsub, lookup_insert_eq, Had, alter_insert_eq.
    set (masterKey := getKey (a_platform masterAccount) (a_firm masterAccount)).
    destruct (decide (key = masterKey)) as [->|Hne].
    + rewrite lookup_insert_eq. fold masterKey in Ha. rewrite Ha. cbn [fmap option_fmap option_map].
      f_equal.
      change (offTradeUpdate (HandleMasterTrade id) (onTradeUpdate (HandleMasterTrade id) a1))
        with (BaseHttpAdapter_offTradeUpdate (HandleMasterTrade id)
                (BaseHttpAdapter_onTradeUpdate (HandleMasterTrade id) a1)).
      cbn. rewrite removeFirst_snoc; [by apply (ready_tradeCallbacks masterAccount)|].
      rewrite (ready_tradeCallbacks masterAccount a a1 Hready). by apply (Hfresh masterKey).
    + by rewrite lookup_insert_ne.
  - rewrite Hdb2, Hdb. cbn. rewrite !map_app. by rewrite <- app_assoc.
Qed.

(** X23: [AccountsService.disconnect] disconnects the adapter instance of the
    account's platform and firm, which drops every callback registered on it.
    A copier subscribed there is still listed as running and its row is
    untouched, but no execution reaches it any more; only the one account row
    is flagged disconnected. *)
Theorem AccountsService_disconnect_silences_copiers
    id userId (w : @World BaseHttpAdapter) account a :
  let key := getKey (a_platform account) (a_firm account) in
  findAccount (db w) id = Some account →
  a_userId account = userId →
  adapters w !! key = Some a →
  ∃ row w' a',
    AccountsService_disconnect id userId w = (Ok row, w')
    ∧ a_isConnected row = false
    ∧ findAccount (db w') id = Some row
    ∧ adapters w' !! key = Some a'
    ∧ connected a' = false
    ∧ tradeCallbacks a' = []
    ∧ (∀ execution, notified (notifyTradeCallbacks execution a') = notified a')
    ∧ activeCopiers w' = activeCopiers w
    ∧ tradeSubscriptions w' = tradeSubscriptions w
    ∧ copiers (db w') = copiers (db w)
    ∧ (∀ other, In other (tradingAccounts (db w)) → a_id other ≠ id →
         In other (tradingAccounts (db w'))).
Proof.
  intros key Hacc Hown Ha. unfold AccountsService_disconnect.
  rewrite bind_run, (findOne_run _ _ account) by done.
  rewrite bind_run, (findOne_run _ _ account) by done.
  rewrite bind_run, (getAdapter_run _ _ _ a Ha). fold key.
  rewrite bind_run, (onAdapter_run _ _ _ _ a Ha).
  change (@disconnect BaseHttpAdapter _) with BaseHttpAdapter_disconnect.
  assert (Hd : (BaseHttpAdapter_disconnect a).1 = Ok tt) by reflexivity.
  rewrite Hd, prisma_run. cbn [db set_adapters set_calls].
  unfold tradingAccount_update. rewrite Hacc. cbn [fst snd].
  eexists _, _, (BaseHttpAdapter_disconnect a).2. split; [reflexivity|].
  cbn [db adapters activeCopiers tradeSubscriptions set_db set_adapters set_calls copiers
       set_tradingAccounts tradingAccounts a_isConnected account_set_connection].
  split; [done|].
  split; [by apply (findAccount_update _ _
                      (λ a, account_set_connection false (a_lastSyncAt a) (a_errorMessage a) a))|].
  split; [apply lookup_insert_eq|].
  split; [reflexivity|]. split; [reflexivity|]. split; [reflexivity|].
  do 3 (split; [done|]).
  intros other Hin Hne. apply in_map_iff. exists other. split; [|done].
  by destruct (String.eqb_spec (a_id other) id).
Qed.

(** * Further properties: the adapter registry *)

Lemma getKey_inj platform firm platform' firm' :
  getKey platform firm = getKey platform' firm' → platform = platform' ∧ firm = firm'.
Proof.
  destruct platform, platform'; destruct firm, firm'; cbn; intros Heq;
    first [ discriminate Heq | by split ].
Qed.

(** X24: the registry is keyed by platform and firm, and the key tells the
    pairs apart: an adapter registered for one pair is the one handed out for
    that pair, and registering it changes the answer for no other pair. *)
Theorem AdapterFactory_register_get {A} platform firm (adapter : A) registered :
  AdapterFactory_getAdapter (AdapterFactory_registerAdapter platform firm adapter registered)
                            platform firm = Ok adapter
  ∧ ∀ platform' firm',
      (platform', firm') ≠ (platform, firm) →
      AdapterFactory_getAdapter (AdapterFactory_registerAdapter platform firm adapter registered)
                                platform' firm'
      = AdapterFactory_getAdapter registered platform' firm'.
Proof.
  unfold AdapterFactory_getAdapter, AdapterFactory_registerAdapter. split.
  - by rewrite lookup_insert_eq.
  - intros platform' firm' Hne. rewrite lookup_insert_ne; [done|].
    intros Heq. apply getKey_inj in Heq as [-> ->]. by apply Hne.
Qed.

(** X25: what the factory resolves.  Without [USE_REAL_ADAPTERS] only
    Rithmic/TopStepX resolves, to the mock adapter; with it ten of the
    twenty-five pairs resolve, Rithmic/TopStepX still to the mock adapter;
    every other pair throws [No adapter found ...]. *)
Theorem registerAdapters_resolves {A} (i : Injected A) platform firm :
  AdapterFactory_getAdapter (registerAdapters false i) platform firm
  = match platform, firm with
    | RITHMIC, TOPSTEPX => Ok (topStepXAdapter i)
    | _, _ => Err ("No adapter found for platform " +:+ showPlatform platform +:+
                   " and firm " +:+ showFirm firm)
    end
  ∧ AdapterFactory_getAdapter (registerAdapters true i) platform firm
    = match platform, firm with
      | RITHMIC, TOPSTEPX => Ok (topStepXAdapter i)
      | PROJECTX, TOPSTEPX => Ok (topStepXRealAdapter i)
      | TRADOVATE, TAKEPROFIT_TRADER => Ok (tradovateAdapterTakeProfit i)
      | TRADOVATE, MYFUNDED_FUTURES => Ok (tradovateAdapterMyFunded i)
      | NINJATRADER, TAKEPROFIT_TRADER => Ok (ninjaTraderAdapterTakeProfit i)
      | NINJATRADER, MYFUNDED_FUTURES => Ok (ninjaTraderAdapterMyFunded i)
      | RITHMIC, TAKEPROFIT_TRADER => Ok (takeProfitTraderRealAdapter i)
      | RITHMIC, MYFUNDED_FUTURES => Ok (myFundedFuturesRealAdapter i)
      | RITHMIC, TRADEFY => Ok (tradefyRealAdapter i)
      | RITHMIC, ALPHA_FUTURES => Ok (alphaFuturesRealAdapter i)
      | _, _ => Err ("No adapter found for platform " +:+ showPlatform platform +:+
                     " and firm " +:+ showFirm firm)
      end.
Proof. destruct platform, firm; split; vm_compute; reflexivity. Qed.

(** * Further properties: status normalisation *)

(** X26: a [Trade] row is stored as [FILLED] exactly when the broker's
    status, in upper case, is [FILLED] or [EXECUTED]; [normalizeStatus] only
    produces statuses that [mapTradeStatus] knows, and a status neither of
    them knows is stored as [PENDING]. *)
Theorem mapTradeStatus_normalizeStatus (toUpperCase : string → string) status :
  let upper := toUpperCase status in
  In (normalizeStatus toUpperCase status)
     ["filled"; "partially_filled"; "pending"; "cancelled"; "rejected"]
  ∧ (mapTradeStatus (normalizeStatus toUpperCase status) = FILLED
     ↔ upper = "FILLED" ∨ upper = "EXECUTED")
  ∧ (¬ In upper ["FILLED"; "EXECUTED"; "PARTIAL"; "PARTIALLY_FILLED"; "PENDING"; "NEW";
                 "CANCELLED"; "CANCELED"; "REJECTED"] →
     mapTradeStatus (normalizeStatus toUpperCase status) = PENDING).
Proof.
  intros upper. unfold normalizeStatus. fold upper.
  destruct (String.eqb_spec upper "FILLED") as [->|H1]; cbn [orb].
  { cbn. split; [tauto|]. split; [tauto|]. intros Hn. exfalso. apply Hn. cbn. tauto. }
  destruct (String.eqb_spec upper "EXECUTED") as [->|H2]; cbn [orb].
  { cbn. split; [tauto|]. split; [tauto|]. intros Hn. exfalso. apply Hn. cbn. tauto. }
  assert (Hno : ¬ (upper = "FILLED" ∨ upper = "EXECUTED")) by tauto.
  destruct (String.eqb_spec upper "PARTIAL") as [->|H3]; cbn [orb].
  { cbn. split; [tauto|]. split; [split; [discriminate|tauto]|].
    intros Hn. exfalso. apply Hn. cbn. tauto. }
  destruct (String.eqb_spec upper "PARTIALLY_FILLED") as [->|H4]; cbn [orb].
  { cbn. split; [tauto|]. split; [split; [discriminate|tauto]|].
    intros Hn. exfalso. apply Hn. cbn. tauto. }
  destruct (String.eqb_spec upper "PENDING") as [->|H5]; cbn [orb].
  { cbn. split; [tauto|]. split; [split; [discriminate|tauto]|]. done. }
  destruct (String.eqb_spec upper "NEW") as [->|H6]; cbn [orb].
  { cbn. split; [tauto|]. split; [split; [discriminate|tauto]|]. done. }
  destruct (String.eqb_spec upper "CANCELLED") as [->|H7]; cbn [orb].
  { cbn. split; [tauto|]. split; [split; [discriminate|tauto]|].
    intros Hn. exfalso. apply Hn. cbn. tauto. }
  destruct (String.eqb_spec upper "CANCELED") as [->|H8]; cbn [orb].
  { cbn. split; [tauto|]. split; [split; [discriminate|tauto]|].
    intros Hn. exfalso. apply Hn. cbn. tauto. }
  destruct (String.eqb_spec upper "REJECTED") as [->|H9].
  { cbn. split; [tauto|]. split; [split; [discriminate|tauto]|].
    intros Hn. exfalso. apply Hn. cbn. tauto. }
  cbn. split; [tauto|]. split; [split; [discriminate|tauto]|]. done.
Qed.

(** * Further properties: reconnection of the Rithmic adapter *)

Lemma reconnectDelay_bounds n : (1 ≤ n)%nat → 2000 ≤ reconnectDelay n ≤ 30000.
Proof.
  intros Hn. unfold reconnectDelay. split; [|apply Z.le_min_r].
  apply Z.min_glb; [|lia].
  assert (2 ^ 1 ≤ 2 ^ Z.of_nat n) by (apply Z.pow_le_mono_r; lia). lia.
Qed.

(** X27: after a successful [connect] at most five reconnections are ever
    scheduled, however often the socket closes and whether or not a
    reconnection succeeds: each call either schedules one timer and counts it,
    or schedules nothing because five have been counted.  The delays lie
    between 2 and 30 seconds. *)
Theorem attemptReconnect_at_most_five calls reconnectAttempts :
  (length (attemptReconnects calls reconnectAttempts)
   = Nat.min calls (maxReconnectAttempts - reconnectAttempts))%nat
  ∧ Forall (λ delay, 2000 ≤ delay ≤ 30000) (attemptReconnects calls reconnectAttempts)
  ∧ attemptReconnects 5 0 = [2000; 4000; 8000; 16000; 30000].
Proof.
  split; [|split; [|reflexivity]].
  - revert reconnectAttempts. induction calls as [|calls IH]; intros n; [done|].
    cbn [attemptReconnects]. unfold attemptReconnect, maxReconnectAttempts in *.
    destruct (Nat.leb_spec 5 n) as [Hmax|Hlt].
    + rewrite IH. lia.
    + cbn [length]. rewrite IH. lia.
  - revert reconnectAttempts. induction calls as [|calls IH]; intros n; [by constructor|].
    cbn [attemptReconnects]. unfold attemptReconnect.
    destruct (maxReconnectAttempts <=? n)%nat; [apply IH|].
    constructor; [|apply IH]. apply reconnectDelay_bounds. lia.
Qed.

(** * Further properties: one adapter instance for all accounts of a firm *)

Lemma fold_invoke_config execution cbs a :
  bh_config (fold_left (invoke execution) cbs a) = bh_config a.
Proof. revert a. induction cbs as [|cb cbs IH]; intros a; simpl; [done|]. by rewrite IH. Qed.

Lemma BaseHttpAdapter_placeOrder_config order a :
  bh_config (BaseHttpAdapter_placeOrder order a).2 = bh_config a.
Proof.
  unfold BaseHttpAdapter_placeOrder, tryCatch, mbind, M_bind, modify, gets, liftResult, throw.
  destruct (connected a); cbn; [|done].
  destruct (executePlaceOrder (platformImpl a) order); cbn; [|done].
  apply fold_invoke_config.
Qed.

Section SharedSession.

Variable numberToString : float → string.

(** X28: the engine connects an adapter for a follower only when the adapter
    reports that it is not connected.  On a connected adapter the follower's
    order is placed in the session the adapter already has: no [connect] is
    issued, and the adapter keeps the configuration it was connected with,
    whichever account that was. *)
Theorem copyTradeToSlave_keeps_session
    (w : @World BaseHttpAdapter) copierId masterTrade sc a session :
  let key := getKey (a_platform (slaveAccount sc)) (a_firm (slaveAccount sc)) in
  let q := calculateScaledQuantity (t_quantity masterTrade) (config sc) (slaveAccount sc) in
  let w' := (copyTradeToSlave numberToString copierId masterTrade sc w).2 in
  riskExceeded copierId (config sc) w = false →
  0 < q →
  adapters w !! key = Some a →
  connected a = true →
  bh_config a = Some session →
  calls w' = calls w ++ [(key, CallPlaceOrder (slaveOrderOf masterTrade q))]
  ∧ ∃ a', adapters w' !! key = Some a' ∧ bh_config a' = Some session.
Proof.
  intros key q w' Hrisk Hq Ha Hconn Hsession. unfold w'.
  assert (Hready : ready (slaveAccount sc) a a) by (by left).
  rewrite (copyTradeToSlave_reaches_placeOrder numberToString _ _ _ _ a a) by done.
  fold key q. cbv zeta.
  set (order := slaveOrderOf masterTrade q).
  set (w2 := afterPlaceOrder key (slaveAccount sc) order a a (placeOrder order a).2 w).
  assert (Hquiet : quiet w2
            (match (placeOrder order a).1 with
             | Ok execution =>
                 tryCatch (recordCopy numberToString copierId masterTrade
                             (cfg_slaveAccountId (config sc)) q execution)
                          (copyTradeToSlave_catch copierId masterTrade
                             (cfg_slaveAccountId (config sc))) w2
             | Err message =>
                 copyTradeToSlave_catch copierId masterTrade
                   (cfg_slaveAccountId (config sc)) message w2
             end).2).
  { destruct (placeOrder order a).1 as [execution|message].
    - apply (preserves_tryCatch (@quiet BaseHttpAdapter)).
      + apply recordCopy_quiet.
      + intros e. apply copyTradeToSlave_catch_quiet.
    - apply copyTradeToSlave_catch_quiet. }
  destruct Hquiet as [Hcalls Hadapters]. rewrite Hcalls, Hadapters.
  unfold w2, afterPlaceOrder, afterConnect.
  change (isConnected a) with (connected a). rewrite Hconn.
  split; [done|].
  exists (placeOrder order a).2. split; [apply lookup_insert_eq|].
  change (placeOrder order a) with (BaseHttpAdapter_placeOrder order a).
  by rewrite BaseHttpAdapter_placeOrder_config.
Qed.

End SharedSession.

(** * Further properties: the gate and the bindings over time *)

Lemma find_snoc {X} (f : X → bool) (l : list X) x :
  List.find f l = None → f x = true → List.find f (l ++ [x]) = Some x.
Proof.
  induction l as [|y l IH]; simpl; intros Hnone Hf; [by rewrite Hf|].
  destruct (f y); [discriminate | auto].
Qed.

Lemma filter_negb_find_None {X} (f : X → bool) (l : list X) :
  List.find f l = None → List.filter (λ x, negb (f x)) l = l.
Proof.
  induction l as [|y l IH]; simpl; [done|].
  destruct (f y); [discriminate|]. intros Hnone. simpl. by rewrite IH.
Qed.

Section OverTime.

Context {A : Type} `{!ITradingAdapter A}.
Variable numberToString : float → string.

(** X29: a follower that the gate has switched off is out of the fan-out: once
    [copyTradeToSlave] has met an exceeded limit on a binding with
    [autoDisable], the followers [handleMasterTrade] reads for the next
    execution do not contain that binding. *)
Theorem auto_disabled_follower_leaves_fan_out (w : @World A) copierId masterTrade sc row :
  let w' := (copyTradeToSlave numberToString copierId masterTrade sc w).2 in
  riskExceeded copierId (config sc) w = true →
  cfg_autoDisable (config sc) = true →
  findConfig (db w) (cfg_id (config sc)) = Some row →
  ∀ next, In next (activeSlaveConfigs (db w') copierId) →
          cfg_id (config next) ≠ cfg_id (config sc).
Proof.
  intros w' Hrisk Hauto Hrow next Hin. unfold w' in Hin. unfold copyTradeToSlave in Hin.
  rewrite tryCatch_run, bind_run in Hin.
  rewrite (checkRiskRules_reject_disable numberToString _ _ _ row Hrisk Hauto Hrow) in Hin.
  cbn [allowed negb] in Hin. rewrite log_run in Hin. cbn [snd db set_logger set_db] in Hin.
  unfold activeSlaveConfigs in Hin. apply list_elem_of_In, list_elem_of_omap in Hin.
  destruct Hin as (c & Hc & Hinc).
  apply list_elem_of_In, filter_In in Hc as [Hc Hactive].
  apply andb_prop in Hactive as [_ Hactive].
  unfold includeSlaveAccount in Hinc.
  destruct (findAccount _ (cfg_slaveAccountId c)) as [account|]; [|discriminate].
  injection Hinc as <-. cbn [config].
  cbn [copierAccountConfigs set_copierAccountConfigs] in Hc.
  apply in_map_iff in Hc as (x & Hx & _).
  destruct (String.eqb_spec (cfg_id x) (cfg_id (config sc))) as [Heq|Hne].
  - subst c. cbn in Hactive. discriminate.
  - by subst c.
Qed.

(** X30: [removeSlaveAccount] undoes [addSlaveAccount]: the binding that was
    added is the one deleted and returned, and the follower bindings are the
    ones from before; copiers and accounts are not touched. *)
Theorem CopierService_add_then_remove id userId dto (w w1 : @World A) row :
  CopierService_addSlaveAccount id userId dto w = (Ok row, w1) →
  ∃ w2,
    CopierService_removeSlaveAccount id userId (dto_slaveAccountId dto) w1 = (Ok row, w2)
    ∧ copierAccountConfigs (db w2) = copierAccountConfigs (db w)
    ∧ copiers (db w2) = copiers (db w)
    ∧ tradingAccounts (db w2) = tradingAccounts (db w).
Proof.
  intros Hrun. unfold CopierService_addSlaveAccount in Hrun.
  apply bind_Ok_inv in Hrun as (copier & w0 & Hfind & Hrun).
  destruct (CopierService_findOne_Ok _ _ _ _ _ Hfind) as [-> Hcop].
  rewrite bind_run, gets_run in Hrun.
  destruct (List.find _ (tradingAccounts (db w))) as [account|] eqn:Hacc; [|discriminate].
  rewrite bind_run, gets_run in Hrun.
  destruct (findConfigByKey (db w) id (dto_slaveAccountId dto)) eqn:Hfree; [discriminate|].
  rewrite prisma_run in Hrun. injection Hrun as Hres <-.
  unfold copierAccountConfig_create in *.
  cbn [cfg_copierId cfg_slaveAccountId newSlaveConfig] in *.
  destruct (negb (bool_decide (is_Some (findCopier (db w) id)))); [discriminate|].
  destruct (negb (bool_decide (is_Some (findAccount (db w) (dto_slaveAccountId dto)))));
    [discriminate|].
  destruct (existsb _ (copierAccountConfigs (db w))); [discriminate|].
  cbn [fst snd] in *. injection Hres as <-.
  unfold CopierService_removeSlaveAccount.
  rewrite bind_run, (CopierService_findOne_frame id (Some userId) copier w w) by done.
  rewrite prisma_run. unfold copierAccountConfig_delete, findConfigByKey.
  cbn [db set_db copierAccountConfigs bump_nextId set_copierAccountConfigs].
  unfold findConfigByKey in Hfree.
  rewrite (find_snoc _ _ (newSlaveConfig id dto (cuid (nextId (db w)))) Hfree)
    by (unfold sameConfigKey; cbn; by rewrite !String.eqb_refl).
  cbn [fst snd]. eexists. split; [reflexivity|].
  cbn [db set_db copierAccountConfigs copiers tradingAccounts bump_nextId
       set_copierAccountConfigs].
  split; [|done].
  rewrite List.filter_app, (filter_negb_find_None _ _ Hfree). cbn.
  unfold sameConfigKey. cbn. rewrite !String.eqb_refl. cbn. by rewrite app_nil_r.
Qed.

End OverTime.

(** * Worked examples for the further properties *)

Section MoreExamples.

Import Deployment Scenarios.

(** ** The engine *)

Lemma copyTradeToSlave_copies_witness :
  riskExceeded "cop1" cfgF happy = false
  ∧ adapters happy !! keyF = Some (mkAdapter liveBroker true [])
  ∧ ∃ w',
      copyTradeToSlave integerToString "cop1" masterRow (followerF cfgF) happy = (Ok tt, w')
      ∧ map t_accountId (trades (db w')) = ["accF"]
      ∧ map tm_status (tradeMappings (db w')) = ["synced"]
      ∧ map l_message (executionLogs (db w')) = ["Trade copied to slave account"].
Proof.
  assert (H1 : riskExceeded "cop1" cfgF happy = false) by reflexivity.
  assert (H2 : adapters happy !! keyF = Some (mkAdapter liveBroker true []))
    by (vm_compute; reflexivity).
  assert (H3 : ready accF (mkAdapter liveBroker true []) (mkAdapter liveBroker true []))
    by (left; split; reflexivity).
  assert (H4 : placeOrder (slaveOrderOf masterRow 1) (mkAdapter liveBroker true [])
               = (Ok (fill (slaveOrderOf masterRow 1)), mkAdapter liveBroker true []))
    by (vm_compute; reflexivity).
  assert (H5 : findCopier (db happy) "cop1" = Some cop1) by reflexivity.
  assert (H6 : findAccount (db happy) "accF" = Some accF) by reflexivity.
  assert (H7 : existsb (sameMappingKey (t_id masterRow) "accF") (tradeMappings (db happy))
               = false) by reflexivity.
  do 2 (split; [assumption|]).
  destruct (copyTradeToSlave_copies integerToString happy "cop1" masterRow (followerF cfgF)
              (mkAdapter liveBroker true []) (mkAdapter liveBroker true [])
              (mkAdapter liveBroker true []) (fill (slaveOrderOf masterRow 1)) cop1 accF
              H1 ltac:(reflexivity) H2 H3 H4 H5 H6 H7)
    as (w' & Hrun & _ & Ht & Hm & Hl).
  exists w'. split; [exact Hrun|]. rewrite Ht, Hm, Hl. repeat split.
Defined.

Lemma copyTradeToSlave_skips_nonpositive_size_witness :
  riskExceeded "cop1" cfgBalance halfSize = false
  ∧ calculateScaledQuantity 1 cfgBalance accF = 0
  ∧ copyTradeToSlave integerToString "cop1" masterRow (followerF cfgBalance) halfSize
    = (Ok tt,
       set_logger (λ ls, ls ++ [("warn", "Scaled quantity is 0 for slave accF")]) halfSize).
Proof.
  assert (H1 : riskExceeded "cop1" cfgBalance halfSize = false) by reflexivity.
  assert (H2 : calculateScaledQuantity 1 cfgBalance accF = 0) by reflexivity.
  do 2 (split; [assumption|]).
  apply (copyTradeToSlave_skips_nonpositive_size integerToString halfSize "cop1" masterRow
           (followerF cfgBalance) H1).
  change (calculateScaledQuantity 1 cfgBalance accF ≤ 0). rewrite H2. lia.
Defined.

Lemma copyTradeToSlave_connect_failure_witness :
  adapters offline !! keyF = Some (mkAdapter deadBroker false [])
  ∧ ∃ w',
      copyTradeToSlave integerToString "cop1" masterRow (followerF cfgF) offline = (Ok tt, w')
      ∧ placedOrders w' = []
      ∧ map tm_errorMessage (tradeMappings (db w')) = [Some "Connection failed: Network Error"].
Proof.
  assert (H1 : riskExceeded "cop1" cfgF offline = false) by reflexivity.
  assert (H2 : adapters offline !! keyF = Some (mkAdapter deadBroker false []))
    by (vm_compute; reflexivity).
  assert (H3 : connect (engineConnectionConfig accF) (mkAdapter deadBroker false [])
               = (Err "Connection failed: Network Error",
                  (BaseHttpAdapter_connect (engineConnectionConfig accF)
                     (mkAdapter deadBroker false [])).2))
    by (vm_compute; reflexivity).
  assert (H4 : findCopier (db offline) "cop1" = Some cop1) by reflexivity.
  assert (H5 : existsb (sameMappingKey (t_id masterRow) "accF") (tradeMappings (db offline))
               = false) by reflexivity.
  split; [assumption|].
  destruct (copyTradeToSlave_connect_failure integerToString offline "cop1" masterRow
              (followerF cfgF) (mkAdapter deadBroker false [])
              (BaseHttpAdapter_connect (engineConnectionConfig accF)
                 (mkAdapter deadBroker false [])).2
              "Connection failed: Network Error" cop1
              H1 ltac:(reflexivity) H2 ltac:(reflexivity) H3 H4 H5)
    as (w' & Hrun & Hp & _ & Hm & _).
  exists w'. split; [exact Hrun|]. rewrite Hp, Hm. split; reflexivity.
Defined.

Lemma start_twice_subscribes_once_witness :
  start "cop1" idle = (Ok tt, (start "cop1" idle).2)
  ∧ start "cop1" (start "cop1" idle).2
    = (Ok tt,
       set_logger (λ ls, ls ++ [("warn", "Copier cop1 is already running")])
                  (start "cop1" idle).2).
Proof.
  assert (H1 : start "cop1" idle = (Ok tt, (start "cop1" idle).2)) by (vm_compute; reflexivity).
  split; [assumption|].
  exact (start_twice_subscribes_once "cop1" idle (start "cop1" idle).2 H1).
Defined.

Lemma paused_or_stopped_copier_drops_executions_witness :
  (CopierService_pause "cop1" "u1" happy).1 = Ok (copier_set_status PAUSED cop1)
  ∧ handleMasterTrade integerToString "cop1" (masterFill 1)
      (CopierService_pause "cop1" "u1" happy).2
    = (Ok tt, (CopierService_pause "cop1" "u1" happy).2).
Proof.
  assert (H1 : CopierService_pause "cop1" "u1" happy
               = (Ok (copier_set_status PAUSED cop1), (CopierService_pause "cop1" "u1" happy).2))
    by (vm_compute; reflexivity).
  split; [by rewrite H1|].
  exact (paused_or_stopped_copier_drops_executions integerToString "cop1" "u1" happy
           (CopierService_pause "cop1" "u1" happy).2 (copier_set_status PAUSED cop1)
           (or_introl H1) (masterFill 1)).
Defined.

(** ** [CopierService] *)

Lemma CopierService_start_activates_witness :
  findCopier (db parked) "cop1" = Some cop1Stopped
  ∧ (∃ a, adapters parked !! keyM = Some a ∧ isConnected a = true)
  ∧ ∃ w',
      CopierService_start "cop1" "u1" parked = (Ok (copier_set_status ACTIVE cop1Stopped), w')
      ∧ "cop1" ∈ activeCopiers w'
      ∧ tradeSubscriptions w' !! "cop1" = Some (keyM, HandleMasterTrade "cop1").
Proof.
  assert (H1 : findCopier (db parked) "cop1" = Some cop1Stopped) by reflexivity.
  assert (H2 : c_status cop1Stopped ≠ ACTIVE) by discriminate.
  assert (H3 : findAccount (db parked) (c_masterAccountId cop1Stopped) = Some accM)
    by reflexivity.
  assert (H4 : List.filter (λ c, String.eqb (cfg_copierId c) "cop1")
                           (copierAccountConfigs (db parked)) = [cfgF]) by reflexivity.
  assert (H5 : "cop1" ∉ activeCopiers parked) by apply not_elem_of_empty.
  assert (H6 : adapters parked !! keyM = Some (mkAdapter liveBroker true []))
    by (vm_compute; reflexivity).
  assert (H7 : ready accM (mkAdapter liveBroker true []) (mkAdapter liveBroker true []))
    by (left; split; reflexivity).
  split; [assumption|]. split; [by exists (mkAdapter liveBroker true [])|].
  destruct (CopierService_start_activates "cop1" "u1" parked cop1Stopped cfgF [] accM
              (mkAdapter liveBroker true []) (mkAdapter liveBroker true [])
              H1 ltac:(reflexivity) H2 H3 ltac:(reflexivity) H4 H5 H6 H7)
    as (w' & Hrun & _ & Hact & Hsub & _).
  exists w'. auto.
Defined.

Lemma CopierService_start_without_followers_witness :
  copierAccountConfigs (db bare) = []
  ∧ CopierService_start "cop1" "u1" bare
    = (Err "Copier cop1 not found or has no slave accounts", bare).
Proof.
  assert (H1 : findCopier (db bare) "cop1" = Some cop1Stopped) by reflexivity.
  assert (H2 : c_status cop1Stopped ≠ ACTIVE) by discriminate.
  assert (H3 : findAccount (db bare) (c_masterAccountId cop1Stopped) = Some accM) by reflexivity.
  assert (H4 : List.filter (λ c, String.eqb (cfg_copierId c) "cop1")
                           (copierAccountConfigs (db bare)) = []) by reflexivity.
  assert (H5 : "cop1" ∉ activeCopiers bare) by apply not_elem_of_empty.
  split; [reflexivity|].
  exact (CopierService_start_without_followers "cop1" "u1" bare cop1Stopped accM
           H1 ltac:(reflexivity) H2 H3 ltac:(reflexivity) H4 H5).
Defined.

Lemma CopierService_addSlaveAccount_binds_witness :
  c_masterAccountId cop1Stopped = dto_slaveAccountId bindMaster
  ∧ ∃ w',
      CopierService_addSlaveAccount "cop1" "u1" bindMaster bare
      = (Ok (newSlaveConfig "cop1" bindMaster "c0"), w')
      ∧ map cfg_slaveAccountId (copierAccountConfigs (db w')) = ["accM"].
Proof.
  assert (H1 : findCopier (db bare) "cop1" = Some cop1Stopped) by reflexivity.
  assert (H2 : findAccount (db bare) (dto_slaveAccountId bindMaster) = Some accM) by reflexivity.
  assert (H3 : findConfigByKey (db bare) "cop1" (dto_slaveAccountId bindMaster) = None)
    by reflexivity.
  split; [reflexivity|].
  destruct (CopierService_addSlaveAccount_binds "cop1" "u1" bindMaster bare cop1Stopped accM
              H1 ltac:(reflexivity) H2 ltac:(reflexivity) H3)
    as (w' & Hrun & Hcfg & _).
  exists w'. split; [exact Hrun|]. rewrite Hcfg. reflexivity.
Defined.

Lemma CopierService_addSlaveAccount_once_witness :
  (CopierService_addSlaveAccount "cop1" "u1" (bindF 1) bare).1
  = Ok (newSlaveConfig "cop1" (bindF 1) "c0")
  ∧ CopierService_addSlaveAccount "cop1" "u1" (bindF 2)
      (CopierService_addSlaveAccount "cop1" "u1" (bindF 1) bare).2
    = (Err "Slave account already added to this copier",
       (CopierService_addSlaveAccount "cop1" "u1" (bindF 1) bare).2).
Proof.
  assert (H1 : CopierService_addSlaveAccount "cop1" "u1" (bindF 1) bare
               = (Ok (newSlaveConfig "cop1" (bindF 1) "c0"),
                  (CopierService_addSlaveAccount "cop1" "u1" (bindF 1) bare).2))
    by (vm_compute; reflexivity).
  split; [by rewrite H1|].
  exact (CopierService_addSlaveAccount_once "cop1" "u1" (bindF 1) (bindF 2) bare _ _
           H1 eq_refl).
Defined.

Lemma CopierService_remove_cascades_witness :
  map tm_copierId (tradeMappings (db afterOneFill)) = ["cop1"]
  ∧ map t_copierId (trades (db afterOneFill)) = [Some "cop1"; Some "cop1"]
  ∧ findCopier (db (CopierService_remove "cop1" "u1" afterOneFill).2) "cop1" = None
  ∧ map t_id (trades (db (CopierService_remove "cop1" "u1" afterOneFill).2))
    = map t_id (trades (db afterOneFill)).
Proof.
  assert (H1 : CopierService_remove "cop1" "u1" afterOneFill
               = (Ok (copier_set_status STOPPED cop1),
                  (CopierService_remove "cop1" "u1" afterOneFill).2))
    by (vm_compute; reflexivity).
  split; [reflexivity|]. split; [reflexivity|].
  destruct (CopierService_remove_cascades "cop1" "u1" afterOneFill _ _ H1)
    as (Hgone & _ & _ & _ & _ & _ & Hids & _).
  split; assumption.
Defined.

(** ** [AccountsService] *)

Lemma AccountsService_other_user_witness :
  findAccount (db happy) "accF" = Some accF
  ∧ a_userId accF ≠ "u2"
  ∧ AccountsService_connect "accF" "u2" happy = (Err "Unauthorized", happy)
  ∧ AccountsService_disconnect "accF" "u2" happy = (Err "Unauthorized", happy).
Proof.
  assert (H1 : findAccount (db happy) "accF" = Some accF) by reflexivity.
  assert (H2 : "u2" ≠ "") by discriminate.
  assert (H3 : a_userId accF ≠ "u2") by discriminate.
  do 2 (split; [assumption|]).
  destruct (AccountsService_other_user "accF" "u2" accF happy H1 H2 H3) as (Hc & Hd & _).
  split; assumption.
Defined.

Lemma AccountsService_connect_success_witness :
  findAccount (db happy) "accF" = Some accF
  ∧ adapters happy !! keyF = Some (mkAdapter liveBroker true [])
  ∧ ∃ w',
      AccountsService_connect "accF" "u1" happy
      = (Ok (account_set_connection true (Some now) None accF), w')
      ∧ findAccount (db w') "accF" = Some (account_set_connection true (Some now) None accF).
Proof.
  assert (H1 : findAccount (db happy) "accF" = Some accF) by reflexivity.
  assert (H2 : adapters happy !! keyF = Some (mkAdapter liveBroker true []))
    by (vm_compute; reflexivity).
  assert (H3 : connect (accountConnectionConfig accF) (mkAdapter liveBroker true [])
               = (Ok tt,
                  (BaseHttpAdapter_connect (accountConnectionConfig accF)
                     (mkAdapter liveBroker true [])).2))
    by (vm_compute; reflexivity).
  do 2 (split; [assumption|]).
  destruct (AccountsService_connect_success happy "accF" "u1" accF
              (mkAdapter liveBroker true [])
              (BaseHttpAdapter_connect (accountConnectionConfig accF)
                 (mkAdapter liveBroker true [])).2
              H1 ltac:(reflexivity) H2 H3)
    as (w' & Hrun & Hfind & _).
  exists w'. split; assumption.
Defined.

Lemma AccountsService_remove_referenced_witness :
  existsb (λ c, String.eqb (c_masterAccountId c) "accM") (copiers (db happy)) = true
  ∧ ∃ message w',
      AccountsService_remove "accM" "u1" happy = (Err message, w')
      ∧ db w' = db happy ∧ adapters w' = adapters happy.
Proof.
  assert (H1 : existsb (λ c, String.eqb (c_masterAccountId c) "accM") (copiers (db happy))
               = true) by reflexivity.
  split; [assumption|].
  destruct (AccountsService_remove_referenced "accM" "u1" happy (or_introl H1))
    as (message & w' & Hrun & Hdb & Had & _).
  exists message, w'. auto.
Defined.

Lemma AccountsService_remove_Ok_witness :
  (AccountsService_remove "accG" "u1" happy).1 = Ok accG
  ∧ findAccount (db (AccountsService_remove "accG" "u1" happy).2) "accG" = None
  ∧ existsb (λ t, String.eqb (t_accountId t) "accG") (trades (db happy)) = false.
Proof.
  assert (H1 : AccountsService_remove "accG" "u1" happy
               = (Ok accG, (AccountsService_remove "accG" "u1" happy).2))
    by (vm_compute; reflexivity).
  split; [by rewrite H1|].
  destruct (AccountsService_remove_Ok "accG" "u1" happy _ accG H1)
    as (_ & _ & Ht & _ & Hgone & _).
  split; assumption.
Defined.

Lemma AccountsService_remove_with_trades_witness :
  findAccount (db tradedG) "accG" = Some accG
  ∧ existsb (λ t, String.eqb (t_accountId t) "accG") (trades (db tradedG)) = true
  ∧ adapters tradedG !! keyG = Some (mkAdapter liveBroker true [])
  ∧ ∃ w',
      AccountsService_remove "accG" "u1" tradedG = (Err activeRelations, w')
      ∧ db w' = db tradedG
      ∧ In ("log", "Account accG has 1 trades, but will be deleted anyway (trades will be preserved)")
           (logger w')
      ∧ calls w' = [(keyG, CallDisconnect)].
Proof.
  assert (H1 : findAccount (db tradedG) "accG" = Some accG) by reflexivity.
  assert (H2 : existsb (λ c, String.eqb (c_masterAccountId c) "accG") (copiers (db tradedG))
               = false) by reflexivity.
  assert (H3 : existsb (λ c, String.eqb (cfg_slaveAccountId c) "accG")
                       (copierAccountConfigs (db tradedG)) = false) by reflexivity.
  assert (H4 : existsb (λ t, String.eqb (t_accountId t) "accG") (trades (db tradedG)) = true)
    by reflexivity.
  assert (H5 : adapters tradedG !! keyG = Some (mkAdapter liveBroker true []))
    by (vm_compute; reflexivity).
  split; [assumption|]. split; [assumption|]. split; [assumption|].
  destruct (AccountsService_remove_with_trades "accG" "u1" tradedG accG
              H1 ltac:(reflexivity) H2 H3 H4)
    as (w' & Hrun & Hdb & Hlog & Hadapter).
  exists w'. split; [assumption|]. split; [assumption|]. split; [exact Hlog|].
  change (getKey (a_platform accG) (a_firm accG)) with keyG in Hadapter.
  rewrite H5 in Hadapter. destruct Hadapter as [Hcalls _]. exact Hcalls.
Defined.

(** ** [BaseHttpAdapter] *)

Lemma BaseHttpAdapter_placeOrder_Err_silent_witness :
  BaseHttpAdapter_placeOrder (slaveOrderOf masterRow 1) (mkAdapter deadBroker true [Listener 0])
  = (Err "Network Error", mkAdapter deadBroker true [Listener 0])
  ∧ notified (BaseHttpAdapter_placeOrder (slaveOrderOf masterRow 1)
                (mkAdapter deadBroker true [Listener 0])).2 = [].
Proof.
  assert (H1 : BaseHttpAdapter_placeOrder (slaveOrderOf masterRow 1)
                 (mkAdapter deadBroker true [Listener 0])
               = (Err "Network Error",
                  (BaseHttpAdapter_placeOrder (slaveOrderOf masterRow 1)
                     (mkAdapter deadBroker true [Listener 0])).2))
    by reflexivity.
  destruct (BaseHttpAdapter_placeOrder_Err_silent _ _ _ _ H1) as [Hsame _].
  split; [|by rewrite Hsame]. rewrite H1. by rewrite Hsame.
Defined.

Lemma BaseHttpAdapter_disposer_witness :
  (Listener 1 ∉ tradeCallbacks listening)
  ∧ BaseHttpAdapter_offTradeUpdate (Listener 1) (BaseHttpAdapter_onTradeUpdate (Listener 1) listening)
    = listening.
Proof.
  assert (H1 : Listener 1 ∉ tradeCallbacks listening).
  { intros Hin. apply list_elem_of_In in Hin. simpl in Hin. destruct Hin as [Heq|[]].
    discriminate Heq. }
  split; [assumption|].
  destruct (BaseHttpAdapter_disposer (Listener 1) listening) as [Hround _].
  exact (Hround H1).
Defined.

Lemma pollTick_replays_batch_witness :
  map e_tradeId polled = ["T1"; "FT1"]
  ∧ notified (pollTick (Ok polled) (pollTick (Ok polled) listening))
    = deliveries [HandleMasterTrade "cop1"] polled
      ++ deliveries [HandleMasterTrade "cop1"] polled.
Proof.
  assert (H1 : NoDup (map e_tradeId polled)).
  { simpl. repeat constructor; intros Hin; apply list_elem_of_In in Hin; simpl in Hin;
      intuition discriminate. }
  split; [reflexivity|].
  exact (pollTick_replays_batch listening polled eq_refl H1 ltac:(simpl; lia)).
Defined.

Lemma start_stop_round_trip_witness :
  start "cop1" idle = (Ok tt, (start "cop1" idle).2)
  ∧ ∃ w2,
      stop "cop1" (start "cop1" idle).2 = (Ok tt, w2)
      ∧ tradeSubscriptions w2 = tradeSubscriptions idle
      ∧ tradeCallbacks <$> adapters w2 !! keyM = Some [].
Proof.
  assert (H1 : start "cop1" idle = (Ok tt, (start "cop1" idle).2)) by (vm_compute; reflexivity).
  assert (H2 : "cop1" ∉ activeCopiers idle) by apply not_elem_of_empty.
  assert (H3 : tradeSubscriptions idle !! "cop1" = None) by (vm_compute; reflexivity).
  assert (H4 : ∀ key a, adapters idle !! key = Some a →
                        HandleMasterTrade "cop1" ∉ tradeCallbacks a).
  { intros key a Ha. unfold idle in Ha. cbn [adapters] in Ha.
    rewrite lookup_fmap in Ha. destruct (registry liveBroker !! key) as [a0|]; [|done].
    injection Ha as <-. cbn. apply not_elem_of_nil. }
  split; [assumption|].
  destruct (start_stop_round_trip "cop1" idle (start "cop1" idle).2 H2 H3 H4 H1)
    as (w2 & Hstop & _ & Hsub & Hcb & _).
  exists w2. split; [assumption|]. split; [assumption|].
  rewrite Hcb. vm_compute. reflexivity.
Defined.

Lemma AccountsService_disconnect_silences_copiers_witness :
  adapters happy !! keyM = Some (mkAdapter liveBroker true [HandleMasterTrade "cop1"])
  ∧ ∃ row w' a',
      AccountsService_disconnect "accM" "u1" happy = (Ok row, w')
      ∧ adapters w' !! keyM = Some a'
      ∧ tradeCallbacks a' = []
      ∧ activeCopiers w' = activeCopiers happy
      ∧ copiers (db w') = [cop1].
Proof.
  assert (H1 : findAccount (db happy) "accM" = Some accM) by reflexivity.
  assert (H2 : adapters happy !! keyM
               = Some (mkAdapter liveBroker true [HandleMasterTrade "cop1"]))
    by (vm_compute; reflexivity).
  split; [assumption|].
  destruct (AccountsService_disconnect_silences_copiers "accM" "u1" happy accM
              (mkAdapter liveBroker true [HandleMasterTrade "cop1"]) H1 ltac:(reflexivity) H2)
    as (row & w' & a' & Hrun & _ & _ & Ha & _ & Hcb & _ & Hact & _ & Hcop & _).
  exists row, w', a'. auto.
Defined.

Lemma copyTradeToSlave_keeps_session_witness :
  adapters sharedSession !! keyM = Some masterAdapter
  ∧ cc_accountNumber masterSession ≠ a_accountNumber accH
  ∧ ∃ a',
      adapters (copyTradeToSlave integerToString "cop1" masterRow followerH sharedSession).2
        !! keyM = Some a'
      ∧ bh_config a' = Some masterSession.
Proof.
  assert (H1 : riskExceeded "cop1" cfgH sharedSession = false) by reflexivity.
  assert (H2 : adapters sharedSession !! keyM = Some masterAdapter)
    by (vm_compute; reflexivity).
  split; [assumption|]. split; [discriminate|].
  destruct (copyTradeToSlave_keeps_session integerToString sharedSession "cop1" masterRow
              followerH masterAdapter masterSession
              H1 ltac:(reflexivity) H2 ltac:(reflexivity) ltac:(reflexivity))
    as [_ Hsession].
  exact Hsession.
Defined.

(** ** The registry and the normalisers *)

Lemma AdapterFactory_register_get_witness :
  AdapterFactory_getAdapter (AdapterFactory_registerAdapter RITHMIC TRADEFY 7%nat ∅)
                            RITHMIC TOPSTEPX
  = Err "No adapter found for platform RITHMIC and firm TOPSTEPX".
Proof.
  destruct (AdapterFactory_register_get RITHMIC TRADEFY 7%nat ∅) as [_ Hother].
  rewrite (Hother RITHMIC TOPSTEPX) by discriminate. reflexivity.
Defined.

Lemma mapTradeStatus_normalizeStatus_witness :
  mapTradeStatus (normalizeStatus (λ s, s) "WORKING") = PENDING.
Proof.
  destruct (mapTradeStatus_normalizeStatus (λ s, s) "WORKING") as (_ & _ & Hunknown).
  apply Hunknown. simpl. intuition discriminate.
Defined.

(** ** The gate and the bindings over time *)

Lemma auto_disabled_follower_leaves_fan_out_witness :
  riskExceeded "cop1" cfgLimit ownLoss = true
  ∧ map (λ sc, cfg_id (config sc)) (activeSlaveConfigs (db ownLoss) "cop1") = ["cfgF"]
  ∧ ∀ next,
      In next (activeSlaveConfigs
                 (db (copyTradeToSlave integerToString "cop1" masterRow (followerF cfgLimit)
                        ownLoss).2) "cop1") →
      cfg_id (config next) ≠ "cfgF".
Proof.
  assert (H1 : riskExceeded "cop1" cfgLimit ownLoss = true) by reflexivity.
  assert (H2 : findConfig (db ownLoss) (cfg_id cfgLimit) = Some cfgLimit) by reflexivity.
  split; [assumption|]. split; [reflexivity|].
  exact (auto_disabled_follower_leaves_fan_out integerToString ownLoss "cop1" masterRow
           (followerF cfgLimit) cfgLimit H1 eq_refl H2).
Defined.

Lemma CopierService_add_then_remove_witness :
  (CopierService_addSlaveAccount "cop1" "u1" (bindF 1) bare).1
  = Ok (newSlaveConfig "cop1" (bindF 1) "c0")
  ∧ ∃ w2,
      CopierService_removeSlaveAccount "cop1" "u1" "accF"
        (CopierService_addSlaveAccount "cop1" "u1" (bindF 1) bare).2
      = (Ok (newSlaveConfig "cop1" (bindF 1) "c0"), w2)
      ∧ copierAccountConfigs (db w2) = [].
Proof.
  assert (H1 : CopierService_addSlaveAccount "cop1" "u1" (bindF 1) bare
               = (Ok (newSlaveConfig "cop1" (bindF 1) "c0"),
                  (CopierService_addSlaveAccount "cop1" "u1" (bindF 1) bare).2))
    by (vm_compute; reflexivity).
  split; [by rewrite H1|].
  destruct (CopierService_add_then_remove "cop1" "u1" (bindF 1) bare _ _ H1)
    as (w2 & Hrun & Hcfg & _).
  exists w2. split; assumption.
Defined.

End MoreExamples.
